(** * SACL: bias-aware code retrieval — a shallow embedding of the TypeScript sources

    The development follows the layout of the repository:
      - [src/types/index.ts], [src/types/relationships.ts]  : the data model
      - [src/core/BiasDetector.ts]                          : [TextualBiasDetector]
      - [src/core/SACLReranker.ts]                          : [SACLReranker]
      - [src/utils/CodeAnalyzer.ts]                         : [CodeAnalyzer]
      - [src/graphiti/GraphitiClient.ts]                    : [GraphitiClient]
      - [src/core/SACLProcessor.ts]                         : [SACLProcessor]

    Conventions of the embedding.
      - A JavaScript [number] that holds a count (AST nodes, complexity,
        nesting depth, line numbers, limits) is a [Z]; a [number] that holds a
        score or a weight is a rational [Q].  The arithmetic of the sources is
        then read exactly, without binary64 rounding.
      - [Date] values are [Z] (milliseconds); the clock is an explicit input.
      - Strings are [string]; arrays are lists; [Map<string, _>] is a [gmap].
      - A [try]/[catch] is a match on a sum type; [null] is [None]; [async]
        functions are read as their sequential bodies, a rejected promise as
        a thrown error.
      - Bindings follow ECMAScript: a [const] object can have its fields
        updated, the binding itself cannot be assigned.
      - Libraries are inputs or models: the Babel tree, the file system, the
        clock, the OpenAI service and [Math.random] come in through [Env];
        Node's [path] functions and the regular expressions are modelled.
      - The package runs as an ES module under Node; what that means for the
        import of [@babel/traverse] is said at the module [Babel].
      - Console output, the explanation texts and elapsed times are left out. *)

From Stdlib Require Import ZArith QArith Qminmax Qabs Qround List String Ascii Bool Lia Lqa.
From stdpp Require Import gmap strings.
From Stdlib Require Import Sorted.
Import ListNotations.

Local Open Scope Z_scope.
Local Open Scope string_scope.

(** ** JavaScript strings

    A string is a sequence of 8-bit code units; source text is taken to be
    ASCII, so white space is the ASCII white space of [String.prototype.trim]
    and of the regular-expression class [\s]. *)

Module Js.

Definition code (c : ascii) : nat := nat_of_ascii c.

Definition isSpace (c : ascii) : bool :=
  let n := code c in
  (Nat.eqb n 9 || Nat.eqb n 10 || Nat.eqb n 11 || Nat.eqb n 12
   || Nat.eqb n 13 || Nat.eqb n 32)%bool.

Definition isDigit (c : ascii) : bool :=
  (Nat.leb 48 (code c) && Nat.leb (code c) 57)%bool.

Definition isUpper (c : ascii) : bool :=
  (Nat.leb 65 (code c) && Nat.leb (code c) 90)%bool.

Definition isLower (c : ascii) : bool :=
  (Nat.leb 97 (code c) && Nat.leb (code c) 122)%bool.

(** The class [\w]. *)
Definition isWord (c : ascii) : bool :=
  (isUpper c || isLower c || isDigit c || Ascii.eqb c "_")%bool.

Definition toList (s : string) : list ascii := list_ascii_of_string s.
Definition ofList (l : list ascii) : string := string_of_list_ascii l.

(** [s.startsWith(p)] *)
Definition startsWith (s p : string) : bool := String.prefix p s.

(** [s.includes(sub)] *)
Fixpoint includes (s sub : string) : bool :=
  (String.prefix sub s
   || match s with
      | EmptyString => false
      | String _ s' => includes s' sub
      end)%bool.

(** [s.split(sep)] for a one-character separator. *)
Fixpoint split (sep : ascii) (s : string) : list string :=
  match s with
  | EmptyString => [EmptyString]
  | String c s' =>
      let r := split sep s' in
      if Ascii.eqb c sep then EmptyString :: r
      else match r with
           | h :: t => String c h :: t
           | [] => [String c EmptyString]
           end
  end.

Definition lines (s : string) : list string := split "010"%char s.

(** [l.join(sep)] *)
Definition join (sep : string) (l : list string) : string := String.concat sep l.

(** [l.pop()] on a fresh array, [undefined] read as [None]. *)
Definition pop (l : list string) : option string := List.last (map Some l) None.

Fixpoint dropSpaces (l : list ascii) : list ascii :=
  match l with
  | c :: l' => if isSpace c then dropSpaces l' else l
  | [] => []
  end.

Definition trimStart (s : string) : string := ofList (dropSpaces (toList s)).
Definition trimEnd (s : string) : string :=
  ofList (rev (dropSpaces (rev (toList s)))).
Definition trim (s : string) : string := trimEnd (trimStart s).

Definition lowerChar (c : ascii) : ascii :=
  if isUpper c then ascii_of_nat (code c + 32) else c.

Definition toLowerCase (s : string) : string := ofList (map lowerChar (toList s)).

(** [s.replace(pat, rep)] with string arguments: the first occurrence only. *)
Fixpoint replace (s pat rep : string) : string :=
  if String.prefix pat s
  then rep ++ String.substring (String.length pat)
                               (String.length s - String.length pat) s
  else match s with
       | EmptyString => EmptyString
       | String c s' => String c (replace s' pat rep)
       end.

Definition backslash : ascii := ascii_of_nat 92.

(** [s.replace(/c/g, d)] for single characters. *)
Definition replaceChar (c d : ascii) (s : string) : string :=
  ofList (map (fun x => if Ascii.eqb x c then d else x) (toList s)).

(** [s.slice(0, n)] for [0 <= n]. *)
Definition take (n : nat) (s : string) : string := String.substring 0 n s.

(** [l[i]] with [undefined] read as [None]; the index is a JavaScript
    number, so a negative one finds nothing. *)
Definition at_index {A} (l : list A) (i : Z) : option A :=
  if (i <? 0)%Z then None else nth_error l (Z.to_nat i).

(** Decimal rendering of a non-negative integer in a template literal. *)
Definition digitChar (n : nat) : ascii := ascii_of_nat (48 + n).

Fixpoint digitsFuel (fuel n : nat) (acc : string) : string :=
  match fuel with
  | O => acc
  | S fuel' =>
      let acc' := String (digitChar (Nat.modulo n 10)) acc in
      if Nat.ltb n 10 then acc' else digitsFuel fuel' (Nat.div n 10) acc'
  end.

Definition showNat (n : nat) : string := digitsFuel (S n) n EmptyString.

Definition showZ (z : Z) : string :=
  if (z <? 0)%Z then "-" ++ showNat (Z.to_nat (- z)) else showNat (Z.to_nat z).

End Js.

(** ** Regular expressions

    A backtracking matcher for the fragment of ECMAScript regular expressions
    that the sources use: character classes, sequence, alternation, greedy
    repetition, capture groups, [^], [$] (no [m] flag) and [\b]. *)

Module Regex.

Inductive re :=
  | Eps
  | Chr (p : ascii -> bool)
  | Seq (r1 r2 : re)
  | Alt (r1 r2 : re)
  | Star (r : re)
  | Grp (n : nat) (r : re)
  | Bol
  | Eol
  | WordB.

Definition Plus (r : re) : re := Seq r (Star r).
Definition Opt (r : re) : re := Alt r Eps.

(** Character classes. *)
Definition lit (c : ascii) : re := Chr (Ascii.eqb c).
Definition notChars (cs : list ascii) : re :=
  Chr (fun c => negb (existsb (Ascii.eqb c) cs)).
Definition space : re := Chr Js.isSpace.
Definition nonSpace : re := Chr (fun c => negb (Js.isSpace c)).
Definition word : re := Chr Js.isWord.
(** [.] excludes the line terminators. *)
Definition dot : re :=
  Chr (fun c => negb (Nat.eqb (Js.code c) 10 || Nat.eqb (Js.code c) 13)).

Fixpoint str (s : string) : re :=
  match s with
  | EmptyString => Eps
  | String c s' => Seq (lit c) (str s')
  end.

Definition seqs (l : list re) : re := fold_right Seq Eps l.

(** Matcher state: the character before the cursor, the text after it, and
    the captures made so far. *)
Record state := mkState {
  prev : option ascii;
  rest : list ascii;
  caps : list (nat * string)
}.

Definition isWordOpt (o : option ascii) : bool :=
  match o with Some c => Js.isWord c | None => false end.

Definition atBoundary (st : state) : bool :=
  xorb (isWordOpt (prev st)) (isWordOpt (List.hd_error (rest st))).

Definition consumed (st st' : state) : string :=
  Js.ofList (firstn (length (rest st) - length (rest st')) (rest st)).

Fixpoint run (r : re) (st : state) (k : state -> option state) {struct r}
  : option state :=
  match r with
  | Eps => k st
  | Chr p =>
      match rest st with
      | c :: l => if p c then k (mkState (Some c) l (caps st)) else None
      | [] => None
      end
  | Seq r1 r2 => run r1 st (fun st1 => run r2 st1 k)
  | Alt r1 r2 =>
      match run r1 st k with
      | Some res => Some res
      | None => run r2 st k
      end
  | Star r1 =>
      (fix loop (fuel : nat) (st0 : state) {struct fuel} : option state :=
         match fuel with
         | O => k st0
         | S fuel' =>
             match run r1 st0
                     (fun st1 =>
                        if Nat.ltb (length (rest st1)) (length (rest st0))
                        then loop fuel' st1 else None) with
             | Some res => Some res
             | None => k st0
             end
         end) (length (rest st)) st
  | Grp n r1 =>
      run r1 st (fun st1 =>
        k (mkState (prev st1) (rest st1) ((n, consumed st st1) :: caps st1)))
  | Bol => match prev st with None => k st | Some _ => None end
  | Eol => match rest st with [] => k st | _ :: _ => None end
  | WordB => if atBoundary st then k st else None
  end.

(** One match: where it starts, the matched text, the captures. *)
Record matched := mkMatched {
  m_index : nat;
  m_text : string;
  m_caps : list (nat * string);
  m_after : list ascii
}.

Definition group (m : matched) (n : nat) : option string :=
  match List.find (fun p => Nat.eqb (fst p) n) (m_caps m) with
  | Some p => Some (snd p)
  | None => None
  end.

Definition matchAt (r : re) (p : option ascii) (l : list ascii) (i : nat)
  : option matched :=
  let st := mkState p l [] in
  match run r st Some with
  | Some st' => Some (mkMatched i (consumed st st') (caps st') (rest st'))
  | None => None
  end.

(** Leftmost match at or after the cursor. *)
Fixpoint search (r : re) (p : option ascii) (l : list ascii) (i : nat)
  : option matched :=
  match matchAt r p l i with
  | Some m => Some m
  | None =>
      match l with
      | [] => None
      | c :: l' => search r (Some c) l' (S i)
      end
  end.

(** [s.match(r)] / [r.exec(s)] without the [g] flag. *)
Definition exec (r : re) (s : string) : option matched :=
  search r None (Js.toList s) 0.

(** [r.test(s)] *)
Definition test (r : re) (s : string) : bool :=
  match exec r s with Some _ => true | None => false end.

Definition lastChar (p : option ascii) (t : string) : option ascii :=
  match rev (Js.toList t) with c :: _ => Some c | [] => p end.

(** All matches, left to right ([g] flag): after an empty match the cursor
    moves one character on. *)
Fixpoint allFrom (fuel : nat) (r : re) (p : option ascii) (l : list ascii)
  (i : nat) : list matched :=
  match fuel with
  | O => []
  | S fuel' =>
      match search r p l i with
      | None => []
      | Some m =>
          let j := (m_index m + String.length (m_text m))%nat in
          match m_text m, m_after m with
          | EmptyString, [] => [m]
          | EmptyString, c :: l' => m :: allFrom fuel' r (Some c) l' (S j)
          | t, l' => m :: allFrom fuel' r (lastChar p t) l' j
          end
      end
  end.

Definition matchAll (r : re) (s : string) : list matched :=
  allFrom (S (String.length s)) r None (Js.toList s) 0.

(** [s.split(r)]: the pieces between the non-empty matches of [r]. *)
Fixpoint splitFrom (fuel : nat) (r : re) (p : option ascii) (l : list ascii)
  : list string :=
  match fuel with
  | O => [Js.ofList l]
  | S fuel' =>
      match search r p l 0 with
      | None => [Js.ofList l]
      | Some m =>
          match m_text m with
          | EmptyString => [Js.ofList l]
          | t => Js.ofList (firstn (m_index m) l)
                 :: splitFrom fuel' r (lastChar p t) (m_after m)
          end
      end
  end.

Definition split (r : re) (s : string) : list string :=
  splitFrom (S (String.length s)) r None (Js.toList s).

(** [s.replace(r, f)] without the [g] flag; [f] builds the replacement from
    the match. *)
Definition replace (r : re) (f : matched -> string) (s : string) : string :=
  match exec r s with
  | None => s
  | Some m => Js.take (m_index m) s ++ f m ++ Js.ofList (m_after m)
  end.

End Regex.

(** ** Node's [path] module (POSIX flavour)

    [dirname] follows the scan of the library from the end of the path;
    [resolve] prefixes its arguments from right to left until the path is
    absolute, falling back on the working directory, and then normalises
    empty, [.] and [..] segments. *)

Module NodePath.

Definition slash : ascii := "/"%char.

Fixpoint dirnameScan (revChars : list ascii) (i : nat) (matchedSlash : bool)
  : option nat :=
  match i, revChars with
  | S i', c :: l =>
      if Ascii.eqb c slash
      then if matchedSlash then dirnameScan l i' matchedSlash else Some i
      else dirnameScan l i' false
  | _, _ => None
  end.

Definition dirname (path : string) : string :=
  match path with
  | EmptyString => "."
  | String c0 _ =>
      let hasRoot := Ascii.eqb c0 slash in
      match dirnameScan (rev (Js.toList path)) (String.length path - 1) true with
      | None => if hasRoot then "/" else "."
      | Some e =>
          if (hasRoot && Nat.eqb e 1)%bool then "//" else Js.take e path
      end
  end.

Fixpoint collect (cands : list string) (resolvedPath : string) : string * bool :=
  match cands with
  | [] => (resolvedPath, false)
  | p :: l =>
      match p with
      | EmptyString => collect l resolvedPath
      | String c _ =>
          let resolved := p ++ "/" ++ resolvedPath in
          if Ascii.eqb c slash then (resolved, true) else collect l resolved
      end
  end.

(** The stack of kept segments, innermost first. *)
Fixpoint normalizeSegments (allowAboveRoot : bool) (segs : list string)
  (stack : list string) : list string :=
  match segs with
  | [] => stack
  | seg :: l =>
      if (String.eqb seg "" || String.eqb seg ".")%bool
      then normalizeSegments allowAboveRoot l stack
      else if String.eqb seg ".."
      then match stack with
           | top :: below =>
               if String.eqb top ".."
               then normalizeSegments allowAboveRoot l
                      (if allowAboveRoot then ".." :: stack else stack)
               else normalizeSegments allowAboveRoot l below
           | [] =>
               normalizeSegments allowAboveRoot l
                 (if allowAboveRoot then [".."] else [])
           end
      else normalizeSegments allowAboveRoot l (seg :: stack)
  end.

Definition normalizeString (path : string) (allowAboveRoot : bool) : string :=
  Js.join "/" (rev (normalizeSegments allowAboveRoot (Js.split slash path) [])).

(** [path.resolve(...args)] in a process whose working directory is [cwd]. *)
Definition resolve (cwd : string) (args : list string) : string :=
  let '(resolvedPath, resolvedAbsolute) := collect (rev args ++ [cwd]) "" in
  let normalized := normalizeString resolvedPath (negb resolvedAbsolute) in
  if resolvedAbsolute then "/" ++ normalized
  else match normalized with EmptyString => "." | _ => normalized end.

(** [path.extname(p)]: from the last dot of the last non-empty segment;
    empty when there is no dot, when the only dot starts the segment, and
    for the segment [..]. *)
Definition extname (path : string) : string :=
  let segs := List.filter (fun seg => negb (String.eqb seg "")) (Js.split slash path) in
  let base := match Js.pop segs with Some b => b | None => "" end in
  let parts := Js.split "."%char base in
  match parts with
  | [] | [_] => ""
  | first :: _ =>
      match rev parts with
      | ext :: _ =>
          if ((String.eqb first "" && Nat.eqb (length parts) 2)
              || String.eqb base "..")%bool
          then "" else "." ++ ext
      | [] => ""
      end
  end.

(** [path.normalize(p)] and [path.join(...args)] *)
Definition endsWithSlash (p : string) : bool :=
  match rev (Js.toList p) with c :: _ => Ascii.eqb c slash | [] => false end.

Definition normalize (path : string) : string :=
  match path with
  | EmptyString => "."
  | String c0 _ =>
      let isAbsolute := Ascii.eqb c0 slash in
      let trailingSeparator := endsWithSlash path in
      let p := normalizeString path (negb isAbsolute) in
      match p with
      | EmptyString =>
          if isAbsolute then "/" else if trailingSeparator then "./" else "."
      | _ =>
          let p' := if trailingSeparator then p ++ "/" else p in
          if isAbsolute then "/" ++ p' else p'
      end
  end.

Definition join (args : list string) : string :=
  match List.filter (fun a => negb (String.eqb a "")) args with
  | [] => "."
  | parts => normalize (Js.join "/" parts)
  end.

End NodePath.

(** ** Data model ([src/types/relationships.ts]) *)

Inductive ImportType := ImportDefault | ImportNamed | ImportNamespace | ImportDynamic.

Record ImportRelation := mkImportRelation {
  imp_from : string;
  imp_to : string;
  imp_symbols : list string;
  importType : ImportType;
  imp_lineNumber : option Z;
  imp_statement : string
}.

Inductive ExportType := ExportDefault | ExportNamed | ExportNamespace.

Record ExportRelation := mkExportRelation {
  exp_from : string;
  exp_symbol : string;
  exportType : ExportType;
  exp_lineNumber : option Z;
  exp_statement : string
}.

Inductive CallType := CallDirect | CallMethod | CallConstructor | CallAsync.

Record CallRelation := mkCallRelation {
  call_from : string;
  call_to : string;
  call_object : option string;
  call_lineNumber : option Z;
  callType : CallType;
  call_context : string
}.

Inductive InheritanceType := Extends | Implements | Mixin.

Record InheritanceRelation := mkInheritanceRelation {
  inh_from : string;
  inh_to : string;
  inh_type : InheritanceType;
  inh_lineNumber : option Z;
  interfaceName : option string
}.

Inductive DependencyType := DepNpm | DepLocal | DepBuiltin.

Record DependencyRelation := mkDependencyRelation {
  dep_from : string;
  dep_to : string;
  dependencyType : DependencyType;
  dep_version : option string;
  usage : list string
}.

Inductive CompositionKind := HasA | Uses | Aggregates.

Record CompositionRelation := mkCompositionRelation {
  comp_from : string;
  comp_to : string;
  comp_relationship : CompositionKind;
  comp_lineNumber : option Z;
  fieldName : option string
}.

Record CodeRelationships := mkCodeRelationships {
  rel_filePath : string;
  imports : list ImportRelation;
  exports : list ExportRelation;
  functionCalls : list CallRelation;
  classInheritance : list InheritanceRelation;
  dependencies : list DependencyRelation;
  compositions : list CompositionRelation;
  lastAnalyzed : Z
}.

Inductive RelationshipType :=
  | imports_t | exports_t | calls_t | extends_t | implements_t | uses_t
  | depends_on_t | composes_t | aggregates_t | provides_service_t
  | consumes_service_t.

Inductive ComponentType := file_c | class_c | function_c | interface_c | module_c.

Record RelatedComponent := mkRelatedComponent {
  rc_filePath : string;
  componentName : string;
  componentType : ComponentType;
  relationshipType : RelationshipType;
  relationshipDescription : string;
  relevanceScore : Q;
  distance : Z;
  rc_snippet : option string
}.

Record RelationshipWeights := mkRelationshipWeights {
  w_imports : Q;
  w_exports : Q;
  w_calls : Q;
  w_extends : Q;
  w_implements : Q;
  w_uses : Q;
  w_depends_on : Q
}.

Definition DEFAULT_RELATIONSHIP_WEIGHTS : RelationshipWeights :=
  {| w_imports := 1.0;
     w_exports := 0.8;
     w_calls := 0.9;
     w_extends := 0.95;
     w_implements := 0.9;
     w_uses := 0.7;
     w_depends_on := 0.6 |}%Q.

Record RelationshipTraversalConfig := mkTraversalConfig {
  maxDepth : Z;
  relationshipTypes : list RelationshipType;
  minRelevanceScore : Q;
  includeReverse : bool;
  weightings : RelationshipWeights
}.

(** ** Data model ([src/types/index.ts]) *)

Record TextualFeatures := mkTextualFeatures {
  docstrings : list string;
  comments : list string;
  identifierNames : list string;
  variableNames : list string
}.

Record StructuralFeatures := mkStructuralFeatures {
  astNodes : Z;
  complexity : Z;
  nestingDepth : Z;
  functionCount : Z;
  classCount : Z
}.

Record SemanticFeatures := mkSemanticFeatures {
  embedding : list Q;
  functionalSignature : string;
  behaviorPattern : string
}.

Record CodeRepresentation := mkCodeRepresentation {
  filePath : string;
  content : string;
  textualFeatures : TextualFeatures;
  structuralFeatures : StructuralFeatures;
  semanticFeatures : SemanticFeatures;
  relationships : option CodeRelationships;
  biasScore : Q;
  augmentedEmbedding : list Q;
  lastModified : Z
}.

Record SACLConfig := mkSACLConfig {
  repositoryPath : string;
  namespace : string;
  llmModel : string;
  embeddingModel : string;
  biasThreshold : Q;
  maxResults : Z;
  cacheEnabled : bool
}.

(** ** Control flow of the sources

    A call either returns or throws; [try { e } catch { h }] is [tryCatch].
    A binding declared [const] cannot be assigned: evaluating [x = e] for such
    an [x] evaluates [e] and then throws a [TypeError] ([assignConst]). *)

Inductive JsError :=
  | SyntaxError
  | TypeError (msg : string)
  | IOError.

Inductive outcome (A : Type) :=
  | Returns (a : A)
  | Throws (e : JsError).

Arguments Returns {A} a.
Arguments Throws {A} e.

Definition tryCatch {A} (body : outcome A) (handler : JsError -> outcome A) : outcome A :=
  match body with
  | Returns a => Returns a
  | Throws e => handler e
  end.

Definition assignConst {A} (rhs : A) : outcome A :=
  Throws (TypeError "Assignment to constant variable.").

Definition returned {A} (o : outcome A) : option A :=
  match o with Returns a => Some a | Throws _ => None end.

(** ** Babel

    [@babel/parser] is a library: the tree that [parse] returns is an input
    of the model, a node with its kind and its children.

    [@babel/traverse] is a CommonJS module and the package an ES module
    ([type: module], run as [node dist/index.js]), so the default import
    [import traverse from '@babel/traverse'] binds [traverse] to the export
    object of the module, not to the function it holds: the call
    [traverse(ast, visitor)] throws a [TypeError] before the visitor is
    looked at.  The visitors are therefore never run, and they are not part
    of the model. *)

Module Babel.

#[warnings="-register-all"]
Inductive Ast := Node (kind : string) (children : list Ast).

(** [traverse(ast, visitor)], for a visitor that would update [state]. *)
Definition traverse {S : Type} (ast : Ast) (state : S) : outcome S :=
  Throws (TypeError "traverse is not a function").

End Babel.

(** ** External collaborators

    The file system, the parser, the clock, the working directory, the
    embedding/completion service and the random source are inputs. *)

Record Env := mkEnv {
  (** [readFile(path, 'utf-8')]; [None] when the promise rejects *)
  readFile : string -> option string;
  (** [parse(content, options)]; [None] when it throws *)
  parse : string -> option Babel.Ast;
  (** [new Date()] / [Date.now()] *)
  now : Z;
  (** [process.cwd()] *)
  cwd : string;
  (** [openai.embeddings.create]; [None] when it throws, [Some None] when
      [data[0]] is missing *)
  embed : string -> option (option (list Q));
  (** [openai.chat.completions.create]; [None] when it throws, [Some None]
      when the first choice has no content *)
  complete : string -> option (option string);
  (** successive values of [Math.random()] *)
  random : nat -> Q;
  (** [glob(pattern, {ignore})] over the file system *)
  glob : string -> list string
}.

(** ** [CodeAnalyzer] ([src/utils/CodeAnalyzer.ts]) *)

Module CodeAnalyzer.
Import Babel.

Definition jsExtensions : list string := [".js"; ".jsx"; ".ts"; ".tsx"].

Definition inList (s : string) (l : list string) : bool := existsb (String.eqb s) l.

(** *** Textual features *)

Definition keywords (extension : string) : list string :=
  if String.eqb extension ".js" then
    ["var"; "let"; "const"; "function"; "if"; "else"; "for"; "while";
     "return"; "class"; "import"; "export"]
  else if String.eqb extension ".ts" then
    ["var"; "let"; "const"; "function"; "if"; "else"; "for"; "while";
     "return"; "class"; "import"; "export"; "interface"; "type"]
  else if String.eqb extension ".py" then
    ["def"; "class"; "if"; "else"; "for"; "while"; "return"; "import";
     "from"; "try"; "except"]
  else if String.eqb extension ".java" then
    ["public"; "private"; "class"; "interface"; "if"; "else"; "for";
     "while"; "return"; "import"]
  else if String.eqb extension ".cpp" then
    ["int"; "void"; "class"; "if"; "else"; "for"; "while"; "return";
     "include"; "namespace"]
  else [].

Definition isKeyword (identifier extension : string) : bool :=
  inList (Js.toLowerCase identifier) (keywords extension).

(** [/\b[a-zA-Z_][a-zA-Z0-9_]*\b/g] *)
Definition identifierPattern : Regex.re :=
  Regex.Seq Regex.WordB
    (Regex.Seq (Regex.Chr (fun c => (Js.isLower c || Js.isUpper c
                                     || Ascii.eqb c "_")%bool))
       (Regex.Seq (Regex.Star Regex.word) Regex.WordB)).

(** [[...new Set(l)]]: first occurrences, in order. *)
Fixpoint unique (seen l : list string) : list string :=
  match l with
  | [] => []
  | x :: l' => if inList x seen then unique seen l' else x :: unique (x :: seen) l'
  end.

(** The three-character string of double quotes that opens a docstring. *)
Definition tripleQuote : string :=
  let q := ascii_of_nat 34 in String q (String q (String q EmptyString)).

(** Both tests of the loop body run for every line, so a line can be pushed
    twice. *)
Definition commentsOfLine (line : string) : list string :=
  let trimmed := Js.trim line in
  ((if (Js.startsWith trimmed "//" || Js.startsWith trimmed "#")%bool
    then [trimmed] else [])
   ++ (if (Js.includes trimmed "/*" || Js.includes trimmed tripleQuote
           || Js.includes trimmed "'''")%bool
       then [trimmed] else []))%list.

Definition extractTextualFeatures (content extension : string) : TextualFeatures :=
  let lines := Js.lines content in
  let matches := map Regex.m_text (Regex.matchAll identifierPattern content) in
  let uniqueIdentifiers := unique [] matches in
  let ids := List.filter (fun id => (Nat.ltb 2 (String.length id)
                                && negb (isKeyword id extension))%bool)
                    uniqueIdentifiers in
  {| docstrings := [];
     comments := flat_map commentsOfLine lines;
     identifierNames := ids;
     variableNames :=
       List.filter (fun id => (Regex.test (Regex.Seq Regex.Bol (Regex.Chr Js.isLower)) id
                          && negb (Js.includes id "function")
                          && negb (Js.includes id "class"))%bool) ids |}.

(** *** Structural features *)

Definition count (l : list string) (p : string -> bool) : Z :=
  Z.of_nat (length (filter p l)).

Definition complexityKeywords : list string :=
  ["if"; "while"; "for"; "switch"; "case"; "catch"; "&&"; "||"; "?"].
Definition functionKeywords : list string :=
  ["def "; "function "; "func "; "public "; "private "; "protected "].
Definition classKeywords : list string := ["class "; "interface "; "struct "].

Record HeuristicState := mkHeuristicState {
  h_features : StructuralFeatures;
  h_maxIndent : Z
}.

(** The body of the [for (const line of lines)] loop. *)
Definition heuristicLine (st : HeuristicState) (line : string) : HeuristicState :=
  let f := h_features st in
  let trimmed := Js.trim line in
  let indent := Z.of_nat (String.length line - String.length (Js.trimStart line)) in
  let currentIndent := indent / 2 in
  {| h_features :=
       {| astNodes := astNodes f;
          complexity :=
            complexity f + count complexityKeywords (fun k => Js.includes trimmed k);
          nestingDepth := nestingDepth f;
          functionCount :=
            functionCount f
            + count functionKeywords
                (fun k => (Js.startsWith trimmed k
                           || Js.includes trimmed (k ++ " "))%bool);
          classCount :=
            classCount f + count classKeywords (fun k => Js.startsWith trimmed k) |};
     h_maxIndent := Z.max (h_maxIndent st) currentIndent |}.

Definition extractStructuralHeuristics (content : string) : StructuralFeatures :=
  let lines := Js.lines content in
  let init :=
    {| astNodes := Z.of_nat (length lines) * 2;
       complexity := 1;
       nestingDepth := 0;
       functionCount := 0;
       classCount := 0 |} in
  let st := fold_left heuristicLine lines (mkHeuristicState init 0) in
  let f := h_features st in
  {| astNodes := astNodes f;
     complexity := complexity f;
     nestingDepth := h_maxIndent st;
     functionCount := functionCount f;
     classCount := classCount f |}.

(** The counters of the structural traversal: [features], [currentDepth]
    and [maxDepth]. *)
Record TraverseState := mkTraverseState {
  t_features : StructuralFeatures;
  t_currentDepth : Z;
  t_maxDepth : Z
}.

Definition initialFeatures : StructuralFeatures :=
  {| astNodes := 0; complexity := 1; nestingDepth := 0;
     functionCount := 0; classCount := 0 |}.

(** [features] is declared [const]: a traversal would update its fields in
    place, but the two statements [features = this.extractStructuralHeuristics(content)]
    (the non-JavaScript branch and the [catch] block) assign the binding.
    In the JavaScript branch the [try] block ends in the call of [traverse]
    followed by [features.nestingDepth = maxDepth].  (The visitor passed
    there calls [path.isMethodDefinition], a test that Babel's paths do not
    have; the call of [traverse] fails before that matters.) *)
Definition extractStructuralFeatures (env : Env) (content extension : string)
  : outcome StructuralFeatures :=
  let features := initialFeatures in
  tryCatch
    (if inList extension jsExtensions then
       match parse env content with
       | None => Throws SyntaxError
       | Some ast =>
           match traverse ast (mkTraverseState features 0 0) with
           | Throws e => Throws e
           | Returns st =>
               let f := t_features st in
               Returns {| astNodes := astNodes f;
                          complexity := complexity f;
                          nestingDepth := t_maxDepth st;
                          functionCount := functionCount f;
                          classCount := classCount f |}
           end
       end
     else assignConst (extractStructuralHeuristics content))
    (fun _ => assignConst (extractStructuralHeuristics content)).

(** *** Relationships *)

Definition emptyRelationships (filePath : string) (lastAnalyzed : Z) : CodeRelationships :=
  {| rel_filePath := filePath;
     imports := [];
     exports := [];
     functionCalls := [];
     classInheritance := [];
     dependencies := [];
     compositions := [];
     lastAnalyzed := lastAnalyzed |}.

Definition pushImport (r : CodeRelationships) (x : ImportRelation) : CodeRelationships :=
  {| rel_filePath := rel_filePath r; imports := imports r ++ [x];
     exports := exports r; functionCalls := functionCalls r;
     classInheritance := classInheritance r; dependencies := dependencies r;
     compositions := compositions r; lastAnalyzed := lastAnalyzed r |}.

Definition pushCall (r : CodeRelationships) (x : CallRelation) : CodeRelationships :=
  {| rel_filePath := rel_filePath r; imports := imports r;
     exports := exports r; functionCalls := functionCalls r ++ [x];
     classInheritance := classInheritance r; dependencies := dependencies r;
     compositions := compositions r; lastAnalyzed := lastAnalyzed r |}.

Definition pushInheritance (r : CodeRelationships) (x : InheritanceRelation)
  : CodeRelationships :=
  {| rel_filePath := rel_filePath r; imports := imports r;
     exports := exports r; functionCalls := functionCalls r;
     classInheritance := classInheritance r ++ [x]; dependencies := dependencies r;
     compositions := compositions r; lastAnalyzed := lastAnalyzed r |}.

Definition pushDependency (r : CodeRelationships) (x : DependencyRelation)
  : CodeRelationships :=
  {| rel_filePath := rel_filePath r; imports := imports r;
     exports := exports r; functionCalls := functionCalls r;
     classInheritance := classInheritance r; dependencies := dependencies r ++ [x];
     compositions := compositions r; lastAnalyzed := lastAnalyzed r |}.

Definition resolveImportPath (env : Env) (importPath currentFile : string) : string :=
  if (Js.startsWith importPath "./" || Js.startsWith importPath "../")%bool
  then
    let currentDir := NodePath.dirname currentFile in
    NodePath.resolve (cwd env) [currentDir; importPath]
  else importPath.

(** [x || d] on strings. *)
Definition orElse (x : option string) (d : string) : string :=
  match x with
  | Some (String c s) => String c s
  | _ => d
  end.

(** The [try] block parses the content and calls [traverse] with the
    visitor that holds the handlers for imports, exports, classes and calls;
    a parse error and the error of the call are caught and logged alike, and
    the relationships stay as they are. *)
Definition extractJavaScriptRelationships (env : Env) (content filePath : string)
  (relationships : CodeRelationships) : CodeRelationships :=
  match parse env content with
  | Some ast =>
      match traverse ast relationships with
      | Returns traversed => traversed
      | Throws _ => relationships
      end
  | None => relationships
  end.

(** Regular expressions of the Python and generic extractors. *)
Import Regex.

(** [/^import\s+(.+)/] *)
Definition pyImport : re :=
  seqs [Bol; str "import"; Plus space; Grp 1 (Plus dot)].
(** [/^from\s+([^\s]+)\s+import\s+(.+)/] *)
Definition pyFromImport : re :=
  seqs [Bol; str "from"; Plus space; Grp 1 (Plus nonSpace); Plus space;
        str "import"; Plus space; Grp 2 (Plus dot)].
(** [/^class\s+(\w+)\s*\(\s*([^)]+)\s*\):/] *)
Definition pyClass : re :=
  seqs [Bol; str "class"; Plus space; Grp 1 (Plus word); Star space; lit "(";
        Star space; Grp 2 (Plus (notChars [")"%char])); Star space;
        lit ")"; lit ":"].
(** [/(\w+)\.(\w+)\(/g] *)
Definition pyCall : re :=
  seqs [Grp 1 (Plus word); lit "."; Grp 2 (Plus word); lit "("].
(** [/^def\s+(\w+)/] *)
Definition pyDef : re :=
  seqs [Bol; str "def"; Plus space; Grp 1 (Plus word)].

Definition quote : ascii := ascii_of_nat 34.

(** [/^#include\s*[<Q]([^>Q]+)[>Q]/], with [Q] standing for the double
    quote character *)
Definition cInclude : re :=
  seqs [Bol; str "#include"; Star space;
        Chr (fun c => (Ascii.eqb c "<" || Ascii.eqb c quote)%bool);
        Grp 1 (Plus (notChars [">"%char; quote]));
        Chr (fun c => (Ascii.eqb c ">" || Ascii.eqb c quote)%bool)].
(** [/^import\s+([^;]+);/] *)
Definition javaImport : re :=
  seqs [Bol; str "import"; Plus space; Grp 1 (Plus (notChars [";"%char])); lit ";"].
(** [/^using\s+([^;]+);/] *)
Definition csUsing : re :=
  seqs [Bol; str "using"; Plus space; Grp 1 (Plus (notChars [";"%char])); lit ";"].
(** [/class\s+(\w+)\s*:\s*public\s+(\w+)/] *)
Definition cppInherit : re :=
  seqs [str "class"; Plus space; Grp 1 (Plus word); Star space; lit ":";
        Star space; str "public"; Plus space; Grp 2 (Plus word)].
(** [/class\s+(\w+)\s+extends\s+(\w+)/] *)
Definition javaInherit : re :=
  seqs [str "class"; Plus space; Grp 1 (Plus word); Plus space; str "extends";
        Plus space; Grp 2 (Plus word)].

Definition grp (m : matched) (n : nat) : string :=
  match group m n with Some s => s | None => "" end.

(** [findPythonFunction(lines, currentLine)]: the nearest [def] at or above
    the line. *)
Fixpoint findPythonFunctionFrom (linesUpToHere : list string) : option string :=
  match linesUpToHere with
  | [] => None
  | line :: above =>
      match exec pyDef (Js.trim line) with
      | Some m => Some (grp m 1)
      | None => findPythonFunctionFrom above
      end
  end.

Definition findPythonFunction (lines : list string) (currentLine : nat) : option string :=
  findPythonFunctionFrom (rev (firstn (S currentLine) lines)).

(** The body of the loop of [extractPythonRelationships] for line [i]. *)
Definition pythonLine (filePath : string) (lines : list string)
  (r : CodeRelationships) (i : nat) : CodeRelationships :=
  let line := Js.trim (nth i lines "") in
  let lineNumber := Some (Z.of_nat i + 1) in
  let r1 :=
    match exec pyImport line with
    | Some m =>
        fold_left (fun acc module =>
                     pushImport acc
                       {| imp_from := filePath; imp_to := module;
                          imp_symbols := [module]; importType := ImportNamed;
                          imp_lineNumber := lineNumber; imp_statement := line |})
                  (map Js.trim (Js.split ","%char (grp m 1))) r
    | None => r
    end in
  let r2 :=
    match exec pyFromImport line with
    | Some m =>
        pushImport r1
          {| imp_from := filePath; imp_to := grp m 1;
             imp_symbols := map Js.trim (Js.split ","%char (grp m 2));
             importType := ImportNamed;
             imp_lineNumber := lineNumber; imp_statement := line |}
    | None => r1
    end in
  let r3 :=
    match exec pyClass line with
    | Some m =>
        fold_left (fun acc parent =>
                     pushInheritance acc
                       {| inh_from := grp m 1; inh_to := parent; inh_type := Extends;
                          inh_lineNumber := lineNumber; interfaceName := None |})
                  (map Js.trim (Js.split ","%char (grp m 2))) r2
    | None => r2
    end in
  fold_left (fun acc m =>
               pushCall acc
                 {| call_from := filePath; call_to := grp m 2;
                    call_object := Some (grp m 1);
                    call_lineNumber := lineNumber; callType := CallMethod;
                    call_context := orElse (findPythonFunction lines i) "global" |})
            (matchAll pyCall line) r3.

Definition extractPythonRelationships (content filePath : string)
  (relationships : CodeRelationships) : CodeRelationships :=
  let lines := Js.lines content in
  fold_left (pythonLine filePath lines) (seq 0 (length lines)) relationships.

(** The body of the loop of [extractGenericRelationships] for line [i]. *)
Definition genericLine (filePath : string) (lines : list string)
  (r : CodeRelationships) (i : nat) : CodeRelationships :=
  let line := Js.trim (nth i lines "") in
  let lineNumber := Some (Z.of_nat i + 1) in
  let r1 :=
    fold_left (fun acc pattern =>
                 match exec pattern line with
                 | Some m =>
                     pushDependency acc
                       {| dep_from := filePath; dep_to := grp m 1;
                          dependencyType := DepBuiltin; dep_version := None;
                          usage := ["include"] |}
                 | None => acc
                 end) [cInclude; javaImport; csUsing] r in
  fold_left (fun acc pattern =>
               match exec pattern line with
               | Some m =>
                   pushInheritance acc
                     {| inh_from := grp m 1; inh_to := grp m 2; inh_type := Extends;
                        inh_lineNumber := lineNumber; interfaceName := None |}
               | None => acc
               end) [cppInherit; javaInherit] r1.

Definition extractGenericRelationships (content filePath : string)
  (relationships : CodeRelationships) : CodeRelationships :=
  let lines := Js.lines content in
  fold_left (genericLine filePath lines) (seq 0 (length lines)) relationships.

(** No branch throws, so the [catch] of the source is never entered. *)
Definition extractRelationships (env : Env) (content filePath extension : string)
  : CodeRelationships :=
  let relationships := emptyRelationships filePath (now env) in
  if inList extension jsExtensions then
    extractJavaScriptRelationships env content filePath relationships
  else if String.eqb extension ".py" then
    extractPythonRelationships content filePath relationships
  else
    extractGenericRelationships content filePath relationships.

(** *** Files *)

(** [try { ... return codeRep } catch (error) { return null }] *)
Definition analyzeFile (env : Env) (filePath : string) : option CodeRepresentation :=
  match readFile env filePath with
  | None => None
  | Some content =>
      let extension := NodePath.extname filePath in
      let textualFeatures := extractTextualFeatures content extension in
      match extractStructuralFeatures env content extension with
      | Throws _ => None
      | Returns structuralFeatures =>
          let relationships := extractRelationships env content filePath extension in
          Some {| filePath := filePath;
                  content := content;
                  textualFeatures := textualFeatures;
                  structuralFeatures := structuralFeatures;
                  semanticFeatures :=
                    {| embedding := []; functionalSignature := "";
                       behaviorPattern := "" |};
                  relationships := Some relationships;
                  biasScore := 0;
                  augmentedEmbedding := [];
                  lastModified := now env |}
      end
  end.

Definition supportedExtensions : list string :=
  [".js"; ".jsx"; ".ts"; ".tsx"; ".py"; ".java"; ".cpp"; ".c"; ".cs"; ".go"; ".rs"].

(** [Array.prototype.sort()] on strings: ascending code-unit order. *)
Fixpoint insertSorted (x : string) (l : list string) : list string :=
  match l with
  | [] => [x]
  | y :: l' => if String.leb x y then x :: l else y :: insertSorted x l'
  end.

Definition sortStrings (l : list string) : list string := fold_right insertSorted [] l.

(** The ignore list of the source is part of what [glob] is asked. *)
Definition findCodeFiles (env : Env) (repositoryPath : string) : list string :=
  let patterns :=
    map (fun ext => NodePath.join [repositoryPath; "**"; "*" ++ ext])
        supportedExtensions in
  let allFiles := flat_map (glob env) patterns in
  sortStrings (unique [] allFiles).

End CodeAnalyzer.

(** ** [SemanticAugmenter] ([src/core/SemanticAugmenter.ts]) *)

Module SemanticAugmenter.

Definition nl : string := String (ascii_of_nat 10) EmptyString.

(** [response.data[0]?.embedding || []], and [[]] from the [catch]. *)
Definition embeddingOf (env : Env) (input : string) : list Q :=
  match embed env input with
  | Some (Some v) => v
  | _ => []
  end.

(** [CodeEncoder.encode] *)
Definition encode (env : Env) (codeContent : string) : list Q :=
  embeddingOf env codeContent.

Definition orUnknown (s : string) : string :=
  match s with EmptyString => "unknown" | _ => s end.

(** [SemanticEmbedder.createSemanticRepresentation] *)
Definition createSemanticRepresentation (code : CodeRepresentation) : string :=
  let struct := structuralFeatures code in
  Js.trim
    (nl ++ "    Computational structure: " ++ Js.showZ (complexity struct)
        ++ " complexity, " ++ Js.showZ (nestingDepth struct) ++ " nesting levels"
     ++ nl ++ "    Components: " ++ Js.showZ (functionCount struct)
        ++ " functions, " ++ Js.showZ (classCount struct) ++ " classes"
     ++ nl ++ "    AST nodes: " ++ Js.showZ (astNodes struct)
     ++ nl ++ "    Code patterns: "
        ++ orUnknown (behaviorPattern (semanticFeatures code))
     ++ nl ++ "    Functional signature: "
        ++ orUnknown (functionalSignature (semanticFeatures code))
     ++ nl ++ "    ").

(** [SemanticEmbedder.embed] *)
Definition semanticEmbed (env : Env) (code : CodeRepresentation) : list Q :=
  embeddingOf env (createSemanticRepresentation code).

Definition prompt (code : CodeRepresentation) : string :=
  "Analyze this code and extract semantic features, ignoring variable names and comments:"
  ++ nl ++ nl ++ "CODE:" ++ nl ++ content code ++ nl ++ nl ++ "Provide:" ++ nl
  ++ "1. Functional signature: What does this code DO functionally (inputs/outputs/transformations)"
  ++ nl
  ++ "2. Behavior pattern: What computational pattern does it follow (iteration, recursion, filtering, etc.)"
  ++ nl ++ nl ++ "Focus on FUNCTIONALITY, not naming or documentation.".

(** [/^[1-9\.]?\s*/] *)
Definition bulletPrefix : Regex.re :=
  Regex.Seq Regex.Bol
    (Regex.Seq
       (Regex.Opt (Regex.Chr (fun c => (Nat.leb 49 (Js.code c) && Nat.leb (Js.code c) 57
                                        || Ascii.eqb c ".")%bool)))
       (Regex.Star Regex.space)).

(** [lines.find(p)?.replace(/^[1-9\.]?\s*/, '') || fallback] *)
Definition pick (lines : list string) (p : string -> bool) (fallback : string) : string :=
  match List.find p lines with
  | Some line =>
      match Regex.replace bulletPrefix (fun _ => "") line with
      | EmptyString => fallback
      | s => s
      end
  | None => fallback
  end.

Definition extractSemanticFeatures (env : Env) (code : CodeRepresentation)
  : string * string :=
  match complete env (prompt code) with
  | Some response =>
      let content := match response with Some c => c | None => "" end in
      let lines := Js.lines content in
      (pick lines (fun line => (Js.includes (Js.toLowerCase line) "functional"
                                || Js.includes line "1.")%bool)
            "Unknown function signature",
       pick lines (fun line => (Js.includes (Js.toLowerCase line) "behavior"
                                || Js.includes line "2.")%bool)
            "Unknown behavior pattern")
  | None =>
      ("Error analyzing function signature", "Error analyzing behavior pattern")
  end.

(** [for (i = 0; i < maxLength; i++)
      combined[i] = (base[i] || 0) * 0.3 + (semantic[i] || 0) * 0.7] *)
Definition combineEmbeddings (baseEmbedding semanticEmbedding : list Q) : list Q :=
  let maxLength := Nat.max (length baseEmbedding) (length semanticEmbedding) in
  let semanticWeight := 0.7%Q in
  let baseWeight := 0.3%Q in
  map (fun i =>
         let base := nth i baseEmbedding 0%Q in
         let semantic := nth i semanticEmbedding 0%Q in
         ((base * baseWeight) + (semantic * semanticWeight))%Q)
      (seq 0 maxLength).

Definition augmentRepresentation (env : Env) (code : CodeRepresentation)
  : CodeRepresentation :=
  let baseEmbedding := encode env (content code) in
  let semanticEmbedding := semanticEmbed env code in
  let '(functionalSignature, behaviorPattern) := extractSemanticFeatures env code in
  let augmentedEmbedding := combineEmbeddings baseEmbedding semanticEmbedding in
  {| filePath := filePath code;
     content := content code;
     textualFeatures := textualFeatures code;
     structuralFeatures := structuralFeatures code;
     semanticFeatures :=
       {| embedding := semanticEmbedding;
          functionalSignature := functionalSignature;
          behaviorPattern := behaviorPattern |};
     relationships := relationships code;
     biasScore := biasScore code;
     augmentedEmbedding := augmentedEmbedding;
     lastModified := lastModified code |}.

End SemanticAugmenter.

(** ** [GraphitiClient] ([src/graphiti/GraphitiClient.ts])

    The client of the sources holds no data: each storing or deleting method
    logs the request and returns.  The requests are recorded here, in order,
    as the whole of what the client does to the graph store. *)

Inductive GraphRequest :=
  | StoreCodeRepresentation (path : string)
  | StoreRelationship (source target : string) (type : RelationshipType)
                      (weight : option Q)
  | DeleteFileRelationships (path : string).

Record PartialTraversalConfig := mkPartialConfig {
  p_maxDepth : option Z;
  p_relationshipTypes : option (list RelationshipType);
  p_minRelevanceScore : option Q;
  p_includeReverse : option bool;
  p_weightings : option RelationshipWeights
}.

Record RelationshipGraph := mkRelationshipGraph {
  (** id, label and type of each node *)
  nodes : list (string * string * ComponentType);
  (** from, to, type, weight and label of each edge *)
  edges : list (string * string * RelationshipType * Q * string);
  primaryNode : string;
  g_maxDepth : Z
}.

Record GraphTraversalResult := mkGraphTraversalResult {
  startNode : string;
  relatedComponents : list RelatedComponent;
  relationshipGraph : RelationshipGraph;
  nodesVisited : Z;
  edgesTraversed : Z;
  (** [Math.max(...distances)]; [None] is the [-Infinity] of an empty list *)
  maxDepthReached : option Z
}.

Module GraphitiClient.

Definition storeCodeRepresentation (log : list GraphRequest) (code : CodeRepresentation)
  : list GraphRequest :=
  log ++ [StoreCodeRepresentation (filePath code)].

Definition storeRelationship (log : list GraphRequest) (source target : string)
  (type : RelationshipType) (weight : option Q) : list GraphRequest :=
  log ++ [StoreRelationship source target type weight].

Definition deleteFileRelationships (log : list GraphRequest) (filePath : string)
  : list GraphRequest :=
  log ++ [DeleteFileRelationships filePath].

Definition storeFileRelationships (log : list GraphRequest) (filePath : string)
  (rels : CodeRelationships) : list GraphRequest :=
  let log1 :=
    fold_left (fun l importRel =>
                 storeRelationship l (imp_from importRel) (imp_to importRel)
                   imports_t None) (imports rels) log in
  (** [exportRel.to] is not a field of an export relation: the target is
      always ['external'] *)
  let log2 :=
    fold_left (fun l exportRel =>
                 storeRelationship l (exp_from exportRel) "external" exports_t None)
              (exports rels) log1 in
  let log3 :=
    fold_left (fun l callRel =>
                 storeRelationship l (call_from callRel) (call_to callRel)
                   calls_t None) (functionCalls rels) log2 in
  let log4 :=
    fold_left (fun l inheritRel =>
                 let relType := match inh_type inheritRel with
                                | Extends => extends_t
                                | _ => implements_t
                                end in
                 storeRelationship l (inh_from inheritRel) (inh_to inheritRel)
                   relType None) (classInheritance rels) log3 in
  fold_left (fun l depRel =>
               storeRelationship l (dep_from depRel) (dep_to depRel) depends_on_t
                 (Some (match dependencyType depRel with
                        | DepLocal => 0.8
                        | _ => 0.4
                        end)%Q)) (dependencies rels) log4.

(** [/\.[^.]+$/] *)
Definition extensionPattern : Regex.re :=
  Regex.seqs [Regex.lit "."; Regex.Plus (Regex.notChars ["."%char]); Regex.Eol].

(** [s.replace(/\.[^.]+$/, '.test$&')] *)
Definition testFileOf (s : string) : string :=
  Regex.replace extensionPattern (fun m => ".test" ++ Regex.m_text m) s.

(** [createMockRelatedComponents]; the stored requests are not an input. *)
Definition createMockRelatedComponents (filePath : string)
  (config : RelationshipTraversalConfig) : list RelatedComponent :=
  let fileName := match Js.pop (Js.split "/"%char filePath) with
                  | Some n => n | None => "" end in
  let mockComponents :=
    ((if Js.includes fileName "Service"
      then [ {| rc_filePath := Js.replace filePath "Service" "Controller";
                componentName := Js.replace fileName "Service" "Controller";
                componentType := file_c;
                relationshipType := calls_t;
                relationshipDescription := "Controller uses this service";
                relevanceScore := 0.9;
                distance := 1;
                rc_snippet :=
                  Some "class Controller { constructor(private service: Service) {} }" |} ]
      else [])
     ++ (if Js.includes fileName "Controller"
         then [ {| rc_filePath := Js.replace filePath "Controller" "Service";
                   componentName := Js.replace fileName "Controller" "Service";
                   componentType := file_c;
                   relationshipType := imports_t;
                   relationshipDescription := "Service imported by controller";
                   relevanceScore := 0.95;
                   distance := 1;
                   rc_snippet :=
                     Some ("import { Service } from "
                           ++ String CodeAnalyzer.quote "./Service"
                           ++ String CodeAnalyzer.quote ";")%string |} ]
         else [])
     ++ [ {| rc_filePath := testFileOf filePath;
             componentName := testFileOf fileName;
             componentType := file_c;
             relationshipType := depends_on_t;
             relationshipDescription := "Test file for this component";
             relevanceScore := 0.7;
             distance := 1;
             rc_snippet := None |} ])%list in
  firstn 5
    (List.filter (fun comp => (Qle_bool (minRelevanceScore config) (relevanceScore comp)
                          && (distance comp <=? maxDepth config)%Z)%bool)
            mockComponents).

Definition defaultConfig : RelationshipTraversalConfig :=
  {| maxDepth := 3;
     relationshipTypes := [imports_t; exports_t; calls_t; extends_t; implements_t];
     minRelevanceScore := 0.3;
     includeReverse := true;
     weightings := DEFAULT_RELATIONSHIP_WEIGHTS |}.

(** [{ ...defaultConfig, ...config }] *)
Definition mergeConfig (config : PartialTraversalConfig) : RelationshipTraversalConfig :=
  {| maxDepth := default (maxDepth defaultConfig) (p_maxDepth config);
     relationshipTypes :=
       default (relationshipTypes defaultConfig) (p_relationshipTypes config);
     minRelevanceScore :=
       default (minRelevanceScore defaultConfig) (p_minRelevanceScore config);
     includeReverse := default (includeReverse defaultConfig) (p_includeReverse config);
     weightings := default (weightings defaultConfig) (p_weightings config) |}.

Definition emptyConfig : PartialTraversalConfig :=
  {| p_maxDepth := None; p_relationshipTypes := None; p_minRelevanceScore := None;
     p_includeReverse := None; p_weightings := None |}.

Definition getRelatedComponents (log : list GraphRequest) (filePath : string)
  (config : PartialTraversalConfig) : list RelatedComponent :=
  createMockRelatedComponents filePath (mergeConfig config).

Definition maxOf (l : list Z) : option Z :=
  match l with
  | [] => None
  | x :: l' => Some (fold_left Z.max l' x)
  end.

(** The elapsed time of [traversalStats] is left out. *)
Definition traverseRelationships (log : list GraphRequest) (startFile : string)
  (types : list RelationshipType) (depth : Z) : GraphTraversalResult :=
  let components :=
    getRelatedComponents log startFile
      {| p_maxDepth := Some depth; p_relationshipTypes := Some types;
         p_minRelevanceScore := None; p_includeReverse := None;
         p_weightings := None |} in
  {| startNode := startFile;
     relatedComponents := components;
     relationshipGraph :=
       {| nodes :=
            (startFile,
             match Js.pop (Js.split "/"%char startFile) with
             | Some (String c s) => String c s
             | _ => startFile
             end, file_c)
            :: map (fun comp => (rc_filePath comp, componentName comp,
                                 componentType comp)) components;
          edges :=
            map (fun comp => (startFile, rc_filePath comp, relationshipType comp,
                              relevanceScore comp, relationshipDescription comp))
                components;
          primaryNode := startFile;
          g_maxDepth := depth |};
     nodesVisited := Z.of_nat (length components) + 1;
     edgesTraversed := Z.of_nat (length components);
     maxDepthReached := maxOf (map distance components) |}.

(** [createMockSearchResults(query, limit)]: the loop runs for
    [i = 0 .. Math.min(limit, 5) - 1]. *)
Definition randomVector (env : Env) (start : nat) : list Q :=
  map (fun k => (random env (start + k) - 0.5)%Q) (seq 0 384).

Definition mockResult (env : Env) (query : string) (i : nat) : CodeRepresentation :=
  let n := Js.showNat (i + 1) in
  {| filePath := "src/example" ++ n ++ ".py";
     content :=
       "def example_function_" ++ n ++ "():" ++ SemanticAugmenter.nl
       ++ "    # Mock implementation for " ++ query ++ SemanticAugmenter.nl
       ++ "    return " ++ String CodeAnalyzer.quote "result"
       ++ String CodeAnalyzer.quote EmptyString;
     textualFeatures :=
       {| docstrings := ["Function for " ++ query];
          comments := ["Implementation of " ++ query];
          identifierNames := ["example_function_" ++ n; "result"];
          variableNames := ["result"] |};
     structuralFeatures :=
       {| astNodes := 15 + Z.of_nat i * 3;
          complexity := 2 + Z.of_nat i;
          nestingDepth := 1;
          functionCount := 1;
          classCount := 0 |};
     semanticFeatures :=
       {| embedding := randomVector env (768 * i);
          functionalSignature := "Processes " ++ query ++ " and returns result";
          behaviorPattern := "Linear processing with " ++ query ++ " operation" |};
     relationships := None;
     biasScore := (0.3 + (inject_Z (Z.of_nat i) * 0.1))%Q;
     augmentedEmbedding := randomVector env (768 * i + 384);
     lastModified := now env |}.

Definition createMockSearchResults (env : Env) (query : string) (limit : Z)
  : list CodeRepresentation :=
  map (mockResult env query) (seq 0 (Z.to_nat (Z.min limit 5))).

(** [searchCode(query, limit = 10)]; what has been stored is not an input
    of the body. *)
Definition searchCode (env : Env) (log : list GraphRequest) (query : string)
  (limit : Z) : list CodeRepresentation :=
  createMockSearchResults env query limit.

End GraphitiClient.

(** ** [TextualBiasDetector] ([src/core/BiasDetector.ts]) *)

Module BiasDetector.

(** [{...code, textualFeatures: {docstrings: [], comments: [],
      identifierNames: ids.map(() => 'masked_id'),
      variableNames: vars.map(() => 'var_x')}}] *)
Definition maskTextualFeatures (code : CodeRepresentation) : CodeRepresentation :=
  {| filePath := filePath code;
     content := content code;
     textualFeatures :=
       {| docstrings := [];
          comments := [];
          identifierNames :=
            map (fun _ => "masked_id") (identifierNames (textualFeatures code));
          variableNames :=
            map (fun _ => "var_x") (variableNames (textualFeatures code)) |};
     structuralFeatures := structuralFeatures code;
     semanticFeatures := semanticFeatures code;
     relationships := relationships code;
     biasScore := biasScore code;
     augmentedEmbedding := augmentedEmbedding code;
     lastModified := lastModified code |}.

(** One entry of the [similarities] array:
    [1 - Math.abs(x - y) / Math.max(x, y, 1)]. *)
Definition metric (x y : Z) : Q :=
  (1 - Qabs (inject_Z x - inject_Z y)
       / Qmax (Qmax (inject_Z x) (inject_Z y)) 1)%Q.

Definition similarities (struct1 struct2 : StructuralFeatures) : list Q :=
  [ metric (complexity struct1) (complexity struct2);
    metric (nestingDepth struct1) (nestingDepth struct2);
    metric (functionCount struct1) (functionCount struct2);
    metric (classCount struct1) (classCount struct2) ].

(** [similarities.reduce((sum, sim) => sum + sim, 0) / similarities.length] *)
Definition calculateStructuralSimilarity (code1 code2 : CodeRepresentation) : Q :=
  let struct1 := structuralFeatures code1 in
  let struct2 := structuralFeatures code2 in
  let sims := similarities struct1 struct2 in
  (fold_left (fun sum sim => sum + sim) sims 0
     / inject_Z (Z.of_nat (length sims)))%Q.

(** [Math.max(0, Math.min(1, 1.0 - structuralSimilarity))] *)
Definition calculateBiasScore (original masked : CodeRepresentation) : Q :=
  let structuralSimilarity := calculateStructuralSimilarity original masked in
  let biasScore := (1.0 - structuralSimilarity)%Q in
  Qmax 0 (Qmin 1 biasScore).

(** The optional [query] argument of the source is never read. *)
Definition detectBias (code : CodeRepresentation) : Q :=
  let maskedResults := maskTextualFeatures code in
  calculateBiasScore code maskedResults.

(** The bias score as the specification words it: the four per-metric
    similarities [1 − |a−b| / max(a,b,1)] between an original and a masked
    structure, their average, and the complement clamped to [0,1]. *)
Definition spec_metric (a b : Q) : Q := (1 - Qabs (a - b) / Qmax (Qmax a b) 1)%Q.

Definition spec_clamp01 (x : Q) : Q :=
  if Qlt_le_dec x 0 then 0%Q else if Qlt_le_dec 1 x then 1%Q else x.

Definition spec_biasScore (o m : StructuralFeatures) : Q :=
  let averageSimilarity :=
    ((spec_metric (inject_Z (complexity o)) (inject_Z (complexity m))
      + spec_metric (inject_Z (nestingDepth o)) (inject_Z (nestingDepth m))
      + spec_metric (inject_Z (functionCount o)) (inject_Z (functionCount m))
      + spec_metric (inject_Z (classCount o)) (inject_Z (classCount m))) / 4)%Q in
  spec_clamp01 (1 - averageSimilarity)%Q.

End BiasDetector.


(** ** [SACLReranker] ([src/core/SACLReranker.ts])

    A result keeps the snippet, its scores, its localisation regions and, in
    the context variant, its related components and dependency chain; the
    explanation texts and the graph drawn for display are left out. *)

Record CodeRegion := mkCodeRegion {
  startLine : Z;
  endLine : Z;
  region_relevanceScore : Q;
  snippet : string
}.

Record RetrievalResult := mkRetrievalResult {
  codeSnippet : CodeRepresentation;
  originalScore : Q;
  semanticScore : Q;
  biasAdjustedScore : Q;
  localizationRegions : list CodeRegion
}.

Record EnhancedRetrievalResult := mkEnhancedRetrievalResult {
  basic : RetrievalResult;
  e_relatedComponents : list RelatedComponent;
  dependencyChain : list string
}.

Module Reranker.

(** The locals of [combineScores], in the order of the source. *)
Definition biasAdjustment (biasScore : Q) : Q := (1.0 - (biasScore * 0.5))%Q.
Definition textualWeight (biasScore : Q) : Q := (0.2 * biasAdjustment biasScore)%Q.
Definition semanticWeight : Q := 0.5%Q.
Definition functionalWeight : Q := 0.3%Q.
Definition normalizedWeights (biasScore : Q) : Q :=
  (textualWeight biasScore + semanticWeight + functionalWeight)%Q.

(** The division is by [1 - 0.1 × biasScore], which is zero only for a bias
    score of 10. *)
Definition combineScores (textualSim semanticSim functionalSim biasScore : Q) : Q :=
  (((textualSim * textualWeight biasScore)
    + (semanticSim * semanticWeight)
    + (functionalSim * functionalWeight))
   / normalizedWeights biasScore)%Q.

(** The fusion as the specification words it: [Σ(score×weight) / Σ(weight)]
    over the three (score, weight) pairs. *)
Definition Qsum (l : list Q) : Q := fold_right Qplus 0%Q l.

Definition spec_combined (pairs : list (Q * Q)) : Q :=
  (Qsum (map (fun p => fst p * snd p) pairs) / Qsum (map snd pairs))%Q.

Definition spec_weights (textualSim semanticSim functionalSim bias : Q) : list (Q * Q) :=
  [ (textualSim, 0.2 * (1 - bias * 0.5));
    (semanticSim, 0.5);
    (functionalSim, 0.3) ]%Q.

(** [l.filter(p).length / l.length] *)
Definition fraction {A} (p : A -> bool) (l : list A) : Q :=
  (inject_Z (Z.of_nat (length (filter p l))) / inject_Z (Z.of_nat (length l)))%Q.

(** [query.toLowerCase().split(/\s+/)] *)
Definition tokens (query : string) : list string :=
  Regex.split (Regex.Plus Regex.space) (Js.toLowerCase query).

Definition calculateTextualSimilarity (code : CodeRepresentation) (query : string) : Q :=
  let queryTokens := tokens query in
  let codeText :=
    Js.toLowerCase
      (Js.join " " (docstrings (textualFeatures code)
                    ++ comments (textualFeatures code)
                    ++ identifierNames (textualFeatures code)
                    ++ [content code])%list) in
  fraction (fun token => Js.includes codeText token) queryTokens.

(** [SemanticSimilarityCalculator] *)
Definition semanticRelationships : list (string * list string) :=
  [ ("sort", ["order"; "arrange"; "sequence"]);
    ("search", ["find"; "locate"; "query"; "filter"]);
    ("transform", ["convert"; "change"; "modify"; "map"]);
    ("iterate", ["loop"; "traverse"; "process"; "each"]);
    ("validate", ["check"; "verify"; "ensure"; "test"]) ].

Definition findSemanticRelated (token content : string) : bool :=
  existsb (fun entry =>
             let '(key, synonyms) := entry in
             ((String.eqb token key
               && existsb (fun syn => Js.includes content syn) synonyms)
              || (CodeAnalyzer.inList token synonyms && Js.includes content key))%bool)
          semanticRelationships.

Definition semanticCalculate (code : CodeRepresentation) (query : string) : Q :=
  let queryTokens := tokens query in
  let semanticContent :=
    Js.toLowerCase
      (Js.join " " [functionalSignature (semanticFeatures code);
                    behaviorPattern (semanticFeatures code)]) in
  Qmin 1.0
    (fraction (fun token => (Js.includes semanticContent token
                             || findSemanticRelated token semanticContent)%bool)
              queryTokens * 1.2)%Q.

(** [FunctionalRelevanceScorer] *)
Definition queryComplexityKeywords : list (string * Z) :=
  [ ("simple", 1); ("basic", 1); ("easy", 1);
    ("complex", 5); ("advanced", 5); ("sophisticated", 5);
    ("algorithm", 4); ("optimize", 4); ("efficient", 4);
    ("recursive", 6); ("dynamic", 5); ("parallel", 6) ].

(** [complexityKeywords[token] || 3], for tokens that are not names of
    [Object.prototype]. *)
Definition keywordScore (token : string) : Z :=
  match List.find (fun entry => String.eqb token (fst entry)) queryComplexityKeywords with
  | Some entry => snd entry
  | None => 3
  end.

Definition estimateQueryComplexity (query : string) : Q :=
  let scores := map keywordScore (tokens query) in
  (inject_Z (fold_left Z.add scores 0%Z) / inject_Z (Z.of_nat (length scores)))%Q.

Definition behaviorKeywords : list string :=
  ["iteration"; "recursion"; "filtering"; "mapping"; "sorting";
   "searching"; "optimization"; "validation"; "transformation"].

Definition scoreBehaviorAlignment (query behaviorPattern : string) : Q :=
  let queryLower := Js.toLowerCase query in
  let patternLower := Js.toLowerCase behaviorPattern in
  if (Js.includes patternLower queryLower || Js.includes queryLower patternLower)%bool
  then 1.0%Q
  else
    let queryBehaviors := List.filter (fun kw => Js.includes queryLower kw) behaviorKeywords in
    let patternBehaviors := List.filter (fun kw => Js.includes patternLower kw) behaviorKeywords in
    let overlap :=
      length (List.filter (fun qb => CodeAnalyzer.inList qb patternBehaviors) queryBehaviors) in
    let total := Nat.max (Nat.max (length queryBehaviors) (length patternBehaviors)) 1 in
    (inject_Z (Z.of_nat overlap) / inject_Z (Z.of_nat total))%Q.

Definition functionalScore (code : CodeRepresentation) (query : string) : Q :=
  let queryComplexity := estimateQueryComplexity query in
  let codeComplexity := inject_Z (complexity (structuralFeatures code)) in
  let complexityScore :=
    (1.0 - Qabs (queryComplexity - codeComplexity)
           / Qmax (Qmax queryComplexity codeComplexity) 1)%Q in
  let behaviorScore :=
    scoreBehaviorAlignment query (behaviorPattern (semanticFeatures code)) in
  ((complexityScore * 0.4) + (behaviorScore * 0.6))%Q.

(** [CodeLocalizer] *)

(** [/^\s*(def|function|class|async|public|private)\s+/] *)
Definition definitionPattern : Regex.re :=
  Regex.seqs
    [ Regex.Bol; Regex.Star Regex.space;
      Regex.Grp 1
        (Regex.Alt (Regex.str "def")
           (Regex.Alt (Regex.str "function")
              (Regex.Alt (Regex.str "class")
                 (Regex.Alt (Regex.str "async")
                    (Regex.Alt (Regex.str "public") (Regex.str "private"))))));
      Regex.Plus Regex.space ].

(** [line.match(/^\s*/)?.[0].length || 0] *)
Definition indentOf (line : string) : nat :=
  String.length line - String.length (Js.trimStart line).

(** The loop of [findBlockEnd] from index [i] over the remaining lines. *)
Fixpoint blockEndFrom (startIndent : nat) (remaining : list string) (i total : nat) : nat :=
  match remaining with
  | [] => total - 1
  | l :: remaining' =>
      let line := Js.trim l in
      if String.eqb line "" then blockEndFrom startIndent remaining' (S i) total
      else if (Nat.leb (indentOf l) startIndent && Nat.ltb 0 (String.length line))%bool
      then i - 1
      else blockEndFrom startIndent remaining' (S i) total
  end.

Definition findBlockEnd (lines : list string) (startLine : nat) : nat :=
  let startIndent := indentOf (nth startLine lines "") in
  blockEndFrom startIndent (skipn (S startLine) lines) (S startLine) (length lines).

Definition scoreRelevance (snippet query : string) : Q :=
  let snippetLower := Js.toLowerCase snippet in
  fraction (fun token => Js.includes snippetLower token) (tokens query).

(** [l.sort((a, b) => key(b) - key(a))]: descending and stable. *)
Fixpoint insertDesc {A} (key : A -> Q) (x : A) (l : list A) : list A :=
  match l with
  | [] => [x]
  | y :: l' => if Qle_bool (key x) (key y) then y :: insertDesc key x l' else x :: l
  end.

Definition sortDesc {A} (key : A -> Q) (l : list A) : list A :=
  fold_left (fun acc x => insertDesc key x acc) l [].

(** [l.slice(0, k)]: a negative [k] counts from the end. *)
Definition slice0 {A} (k : Z) (l : list A) : list A :=
  if (k <? 0)%Z then firstn (Z.to_nat (Z.of_nat (length l) + k)) l
  else firstn (Z.to_nat k) l.

Definition regionAt (lines : list string) (query : string) (i : nat) : list CodeRegion :=
  let line := nth i lines "" in
  if Regex.test definitionPattern line then
    let endLine := findBlockEnd lines i in
    let snippet :=
      Js.join SemanticAugmenter.nl (firstn (S endLine - i) (skipn i lines)) in
    let relevanceScore := scoreRelevance snippet query in
    if Qle_bool relevanceScore 0.3 then []
    else [ {| startLine := Z.of_nat i + 1;
              endLine := Z.of_nat endLine + 1;
              region_relevanceScore := relevanceScore;
              snippet := Js.take 200 snippet
                         ++ (if Nat.ltb 200 (String.length snippet) then "..." else "") |} ]
  else [].

Definition localize (code : CodeRepresentation) (query : string) : list CodeRegion :=
  let lines := Js.lines (content code) in
  let regions := flat_map (regionAt lines query) (seq 0 (length lines)) in
  slice0 3 (sortDesc region_relevanceScore regions).

(** The body of the loop of [rerank]. *)
Definition scoreResult (query : string) (result : CodeRepresentation) : RetrievalResult :=
  let textualSim := calculateTextualSimilarity result query in
  let semanticSim := semanticCalculate result query in
  let functionalSim := functionalScore result query in
  let finalScore := combineScores textualSim semanticSim functionalSim (biasScore result) in
  {| codeSnippet := result;
     originalScore := textualSim;
     semanticScore := semanticSim;
     biasAdjustedScore := finalScore;
     localizationRegions := localize result query |}.

Definition rerank (initialResults : list CodeRepresentation) (query : string) (topK : Z)
  : list RetrievalResult :=
  let scoredResults := map (scoreResult query) initialResults in
  slice0 topK (sortDesc biasAdjustedScore scoredResults).

Definition isDependencyType (t : RelationshipType) : bool :=
  match t with imports_t | depends_on_t => true | _ => false end.

Definition buildDependencyChain (filePath : string) (related : list RelatedComponent)
  : list string :=
  (filePath
   :: map rc_filePath
        (slice0 3 (sortDesc relevanceScore
                     (List.filter (fun c => isDependencyType (relationshipType c)) related)))).

Definition convertToEnhanced (result : RetrievalResult) : EnhancedRetrievalResult :=
  {| basic := result; e_relatedComponents := []; dependencyChain := [] |}.

(** [graphitiClient] tells whether the reranker was built with a client;
    [log] is what that client has been asked so far. *)
Definition rerankWithContext (graphitiClient : bool) (log : list GraphRequest)
  (initialResults : list CodeRepresentation) (query : string) (topK : Z)
  : list EnhancedRetrievalResult :=
  if negb graphitiClient then map convertToEnhanced (rerank initialResults query topK)
  else
    let enhancedResults :=
      map (fun result =>
             let related :=
               GraphitiClient.getRelatedComponents log (filePath result)
                 {| p_maxDepth := Some 2; p_relationshipTypes := None;
                    p_minRelevanceScore := None; p_includeReverse := None;
                    p_weightings := None |} in
             {| basic := scoreResult query result;
                e_relatedComponents := related;
                dependencyChain := buildDependencyChain (filePath result) related |})
          initialResults in
    slice0 topK (sortDesc (fun r => biasAdjustedScore (basic r)) enhancedResults).

End Reranker.

(** ** [SACLProcessor] ([src/core/SACLProcessor.ts]) *)

Inductive ChangeType :=
  | created
  | modified
  | deleted
  (** any other value reaching the [switch] at run time *)
  | otherChange (value : string).

Record UpdateResult := mkUpdateResult {
  success : bool;
  message : string
}.

Record ProcessorState := mkProcessorState {
  cache : gmap string CodeRepresentation;
  graphLog : list GraphRequest
}.

Record ProcessingStats := mkProcessingStats {
  filesProcessed : Z;
  totalFiles : Z;
  biasDetected : Z;
  averageBiasScore : Q
}.

Module Processor.

(** [x.toFixed(3)]: the nearest multiple of a thousandth, ties upwards. *)
Definition pad3 (n : nat) : string :=
  let s := Js.showNat n in
  match String.length s with
  | 1%nat => "00" ++ s
  | 2%nat => "0" ++ s
  | _ => s
  end.

Definition toFixed3 (x : Q) : string :=
  let negative := Qlt_le_dec x 0 in
  let a := Qabs x in
  let n := Z.to_nat (Qfloor (a * 1000 + (1 # 2))%Q) in
  (if negative then "-" else "")
  ++ Js.showNat (Nat.div n 1000) ++ "." ++ pad3 (Nat.modulo n 1000).

Definition validateFilePath (config : SACLConfig) (filePath : string) : bool :=
  let normalizedRepoPath := Js.replaceChar Js.backslash "/"%char (repositoryPath config) in
  let normalizedFilePath := Js.replaceChar Js.backslash "/"%char filePath in
  (Js.startsWith normalizedFilePath normalizedRepoPath
   || Js.startsWith normalizedFilePath "./"
   || negb (Js.startsWith normalizedFilePath "/"))%bool.

(** [codeRep.biasScore = biasScore] *)
Definition setBiasScore (codeRep : CodeRepresentation) (score : Q) : CodeRepresentation :=
  {| filePath := filePath codeRep;
     content := content codeRep;
     textualFeatures := textualFeatures codeRep;
     structuralFeatures := structuralFeatures codeRep;
     semanticFeatures := semanticFeatures codeRep;
     relationships := relationships codeRep;
     biasScore := score;
     augmentedEmbedding := augmentedEmbedding codeRep;
     lastModified := lastModified codeRep |}.

(** [processFile]: the representation, or [null], and the log of the
    client after the call. *)
Definition processFile (env : Env) (log : list GraphRequest) (filePath : string)
  : option CodeRepresentation * list GraphRequest :=
  match CodeAnalyzer.analyzeFile env filePath with
  | None => (None, log)
  | Some codeRep =>
      let biasScore := BiasDetector.detectBias codeRep in
      let codeRep' := setBiasScore codeRep biasScore in
      let augmented := SemanticAugmenter.augmentRepresentation env codeRep' in
      let log' :=
        match relationships augmented with
        | Some rels => GraphitiClient.storeFileRelationships log filePath rels
        | None => log
        end in
      (Some augmented, log')
  end.

Definition cacheSet (config : SACLConfig) (filePath : string)
  (processed : CodeRepresentation) (c : gmap string CodeRepresentation)
  : gmap string CodeRepresentation :=
  if cacheEnabled config then <[filePath := processed]> c else c.

Definition updateFile (config : SACLConfig) (env : Env) (st : ProcessorState)
  (filePath : string) (changeType : ChangeType) : UpdateResult * ProcessorState :=
  if negb (validateFilePath config filePath) then
    ({| success := false;
        message := "File path " ++ filePath ++ " is outside repository" |}, st)
  else
    match changeType with
    | created | modified =>
        match processFile env (graphLog st) filePath with
        | (Some processed, log) =>
            ({| success := true;
                message := "File " ++ filePath
                           ++ " processed successfully. Bias score: "
                           ++ toFixed3 (biasScore processed) |},
             {| cache := cacheSet config filePath processed (cache st);
                graphLog := GraphitiClient.storeCodeRepresentation log processed |})
        | (None, log) =>
            ({| success := false;
                message := "Failed to process file " ++ filePath |},
             {| cache := cache st; graphLog := log |})
        end
    | deleted =>
        ({| success := true;
            message := "File " ++ filePath ++ " removed from cache and knowledge graph" |},
         {| cache := delete filePath (cache st);
            graphLog := GraphitiClient.deleteFileRelationships (graphLog st) filePath |})
    | otherChange value =>
        ({| success := false; message := "Unknown change type: " ++ value |}, st)
    end.

(** [updateFiles]: per-item results in input order, and the two counts. *)
Fixpoint updateFiles (config : SACLConfig) (env : Env) (st : ProcessorState)
  (files : list (string * ChangeType))
  : list (string * UpdateResult) * ProcessorState :=
  match files with
  | [] => ([], st)
  | (filePath, changeType) :: files' =>
      let '(result, st1) := updateFile config env st filePath changeType in
      let '(results, st2) := updateFiles config env st1 files' in
      ((filePath, result) :: results, st2)
  end.

Record RepositoryRun := mkRepositoryRun {
  run_state : ProcessorState;
  run_processed : Z;
  run_biasDetected : Z;
  run_totalBias : Q
}.

(** The body of the loop of [processRepository]. *)
Definition processOne (config : SACLConfig) (env : Env) (run : RepositoryRun)
  (filePath : string) : RepositoryRun :=
  match processFile env (graphLog (run_state run)) filePath with
  | (Some processed, log) =>
      {| run_state :=
           {| cache := cacheSet config filePath processed (cache (run_state run));
              graphLog := GraphitiClient.storeCodeRepresentation log processed |};
         run_processed := run_processed run + 1;
         run_biasDetected :=
           if Qle_bool (biasScore processed) (biasThreshold config)
           then run_biasDetected run else run_biasDetected run + 1;
         run_totalBias := (run_totalBias run + biasScore processed)%Q |}
  | (None, log) =>
      {| run_state := {| cache := cache (run_state run); graphLog := log |};
         run_processed := run_processed run;
         run_biasDetected := run_biasDetected run;
         run_totalBias := run_totalBias run |}
  end.

(** [processRepository]; the elapsed time of the statistics is left out. *)
Definition processRepository (config : SACLConfig) (env : Env) (st : ProcessorState)
  : ProcessingStats * ProcessorState :=
  let codeFiles := CodeAnalyzer.findCodeFiles env (repositoryPath config) in
  let run := fold_left (processOne config env) codeFiles (mkRepositoryRun st 0 0 0%Q) in
  ({| filesProcessed := run_processed run;
      totalFiles := Z.of_nat (length codeFiles);
      biasDetected := run_biasDetected run;
      averageBiasScore :=
        if (0 <? run_processed run)%Z
        then (run_totalBias run / inject_Z (run_processed run))%Q else 0%Q |},
   run_state run).

(** [maxResults || this.config.maxResults] *)
Definition limitOf (config : SACLConfig) (maxResultsArg : option Z) : Z :=
  match maxResultsArg with
  | Some n => if (n =? 0)%Z then maxResults config else n
  | None => maxResults config
  end.

Definition queryCode (config : SACLConfig) (env : Env) (st : ProcessorState)
  (query : string) (maxResultsArg : option Z) : list RetrievalResult :=
  let limit := limitOf config maxResultsArg in
  let initialResults := GraphitiClient.searchCode env (graphLog st) query (limit * 2) in
  match initialResults with
  | [] => []
  | _ => Reranker.rerank initialResults query limit
  end.

(** The processor builds its reranker with the client. *)
Definition queryCodeWithContext (config : SACLConfig) (env : Env) (st : ProcessorState)
  (query : string) (maxResultsArg : option Z) : list EnhancedRetrievalResult :=
  let limit := limitOf config maxResultsArg in
  let initialResults := GraphitiClient.searchCode env (graphLog st) query (limit * 2) in
  match initialResults with
  | [] => []
  | _ => Reranker.rerankWithContext true (graphLog st) initialResults query limit
  end.

Definition getRelatedComponents (st : ProcessorState) (filePath : string) (depth : Z)
  : list RelatedComponent :=
  GraphitiClient.getRelatedComponents (graphLog st) filePath
    {| p_maxDepth := Some depth; p_relationshipTypes := None;
       p_minRelevanceScore := None; p_includeReverse := None;
       p_weightings := None |}.

Definition getRelationshipGraph (st : ProcessorState) (filePath : string)
  (types : option (list RelationshipType)) : GraphTraversalResult :=
  GraphitiClient.traverseRelationships (graphLog st) filePath
    (default [imports_t; exports_t; calls_t; extends_t; implements_t] types) 3.

End Processor.

(** ** Notions of the specification

    Words of the specification that the sources do not define, written out so
    that the claims about them can be stated. *)

Module SpecWords.

(** "Resolves under the configured repository root": the path, resolved
    from the working directory, is the resolved root or lies below it. *)
Definition spec_resolvesUnderRoot (root workingDirectory path : string) : bool :=
  let resolvedRoot := NodePath.resolve workingDirectory [root] in
  let resolved := NodePath.resolve workingDirectory [path] in
  (String.eqb resolved resolvedRoot
   || Js.startsWith resolved (resolvedRoot ++ "/"))%bool.

(** "The edge's relationship-type weight": the entry of the weight table,
    and the fall-back [0.5] for the types the table does not list. *)
Definition spec_typeWeight (w : RelationshipWeights) (t : RelationshipType) : Q :=
  match t with
  | imports_t => w_imports w
  | exports_t => w_exports w
  | calls_t => w_calls w
  | extends_t => w_extends w
  | implements_t => w_implements w
  | uses_t => w_uses w
  | depends_on_t => w_depends_on w
  | _ => 0.5%Q
  end.

(** "relevanceScore = typeWeight × (1 / distance)" *)
Definition spec_relevance (w : RelationshipWeights) (c : RelatedComponent) : Q :=
  (spec_typeWeight w (relationshipType c) * (1 / inject_Z (distance c)))%Q.

(** "The fixed synthetic names src/example1.py through src/example5.py" *)
Definition exampleNames : list string :=
  ["src/example1.py"; "src/example2.py"; "src/example3.py";
   "src/example4.py"; "src/example5.py"].




End SpecWords.

(** ** Fixtures for the scenarios of the specification *)

Module Scenario.
Import Babel.

(** Scenario A: the file [/workspace/a.js] holding one import of [foo] from
    the relative module [./bar], and the tree Babel gives for it. *)
Definition contentA : string :=
  "import { foo } from " ++ String CodeAnalyzer.quote "./bar"
    ++ String CodeAnalyzer.quote EmptyString.

Definition astA : Ast :=
  Node "File"
    [ Node "Program"
        [ Node "ImportDeclaration"
            [ Node "ImportSpecifier" [ Node "Identifier" []; Node "Identifier" [] ];
              Node "StringLiteral" [] ] ] ].

(** A malformed JavaScript file, on which the parser throws. *)
Definition contentBroken : string := "function (".

(** A Python file. *)
Definition contentPy : string :=
  "import os" ++ SemanticAugmenter.nl ++ "def f(x):" ++ SemanticAugmenter.nl
  ++ "    return os.getcwd()".

Definition files (p : string) : option string :=
  if String.eqb p "/workspace/a.js" then Some contentA
  else if String.eqb p "../outside/a.js" then Some contentA
  else if String.eqb p "/workspace/broken.js" then Some contentBroken
  else if String.eqb p "/workspace/m.py" then Some contentPy
  else None.

(** The repository [/workspace] read at time [t] from the directory
    [workingDirectory], with an embedding service that is down. *)
Definition envAt (t : Z) (workingDirectory : string) : Env :=
  {| readFile := files;
     parse := fun c => if String.eqb c contentA then Some astA else None;
     now := t;
     cwd := workingDirectory;
     embed := fun _ => None;
     complete := fun _ => None;
     random := fun _ => 0%Q;
     glob := fun pattern =>
               if String.eqb pattern "/workspace/**/*.js"
               then ["/workspace/a.js"; "/workspace/broken.js"]
               else if String.eqb pattern "/workspace/**/*.py"
               then ["/workspace/m.py"] else [] |}.

Definition envA (workingDirectory : string) : Env := envAt 0 workingDirectory.

Definition config : SACLConfig :=
  {| repositoryPath := "/workspace";
     namespace := "sacl-workspace";
     llmModel := "gpt-4";
     embeddingModel := "text-embedding-3-small";
     biasThreshold := 0.5;
     maxResults := 10;
     cacheEnabled := true |}.

Definition emptyState : ProcessorState :=
  {| cache := ∅; graphLog := [] |}.

(** Scenario D: the chain A → B → C → D stored with unit weights. *)
Definition fileA : string := "/workspace/A.ts".
Definition fileB : string := "/workspace/B.ts".
Definition fileC : string := "/workspace/C.ts".
Definition fileD : string := "/workspace/D.ts".

Definition chainLog : list GraphRequest :=
  GraphitiClient.storeRelationship
    (GraphitiClient.storeRelationship
       (GraphitiClient.storeRelationship [] fileA fileB imports_t (Some 1%Q))
       fileB fileC imports_t (Some 1%Q))
    fileC fileD imports_t (Some 1%Q).

Definition unitWeights : RelationshipWeights :=
  {| w_imports := 1; w_exports := 1; w_calls := 1; w_extends := 1;
     w_implements := 1; w_uses := 1; w_depends_on := 1 |}%Q.

End Scenario.

(** ** Invariants of extracted relationships *)

Module Invariants.

(** The relationships are those of the file [p], every relation of each kind
    satisfies the predicate given for its kind, and no composition is
    recorded. *)
Definition allRelations (p : string)
  (PI : ImportRelation -> Prop) (PE : ExportRelation -> Prop)
  (PC : CallRelation -> Prop) (PH : InheritanceRelation -> Prop)
  (PD : DependencyRelation -> Prop) (r : CodeRelationships) : Prop :=
  rel_filePath r = p
  /\ Forall PI (imports r) /\ Forall PE (exports r) /\ Forall PC (functionCalls r)
  /\ Forall PH (classInheritance r) /\ Forall PD (dependencies r)
  /\ compositions r = [].

End Invariants.

(** ** [SACLProcessor.updateFiles] with its counters

    The loop of the source keeps the per-item results and counts successes
    and failures as it goes. *)

Record BatchResult := mkBatchResult {
  batch_totalFiles : Z;
  successfulUpdates : Z;
  failedUpdates : Z;
  batch_results : list (string * UpdateResult)
}.

Module Batch.

(** The test [result.success] on a reported item. *)
Definition succeeded (item : string * UpdateResult) : bool := success (snd item).

Record BatchState := mkBatchState {
  b_state : ProcessorState;
  b_results : list (string * UpdateResult);
  b_successful : Z;
  b_failed : Z
}.

(** The body of [for (const file of files)]. *)
Definition batchStep (config : SACLConfig) (env : Env) (b : BatchState)
  (file : string * ChangeType) : BatchState :=
  let '(result, st) :=
    Processor.updateFile config env (b_state b) (fst file) (snd file) in
  {| b_state := st;
     b_results := b_results b ++ [(fst file, result)];
     b_successful := if success result then b_successful b + 1 else b_successful b;
     b_failed := if success result then b_failed b else b_failed b + 1 |}.

Definition updateFiles (config : SACLConfig) (env : Env) (st : ProcessorState)
  (files : list (string * ChangeType)) : BatchResult * ProcessorState :=
  let b := fold_left (batchStep config env) files (mkBatchState st [] 0 0) in
  ({| batch_totalFiles := Z.of_nat (length files);
      successfulUpdates := b_successful b;
      failedUpdates := b_failed b;
      batch_results := b_results b |},
   b_state b).

End Batch.

(** ** [TextualBiasDetector.getBiasIndicators] ([src/core/BiasDetector.ts])

    The descriptions of the indicators are left out. *)

Inductive IndicatorType :=
  | docstring_dependency
  | identifier_name_bias
  | comment_over_reliance.

(** A quotient of two lengths as JavaScript computes it: [n / 0] is
    [Infinity] for [n > 0] and [NaN] for [n = 0]. *)
Inductive Ratio :=
  | Finite (q : Q)
  | Infinite
  | NotANumber.

Record BiasIndicator := mkBiasIndicator {
  ind_type : IndicatorType;
  severity : Ratio;
  location : CodeRegion
}.

Module BiasIndicators.

Definition divide (numerator denominator : nat) : Ratio :=
  match denominator, numerator with
  | O, O => NotANumber
  | O, S _ => Infinite
  | S _, _ =>
      Finite (inject_Z (Z.of_nat numerator) / inject_Z (Z.of_nat denominator))%Q
  end.

(** [r > threshold]; a comparison with [NaN] is false. *)
Definition exceeds (r : Ratio) (threshold : Q) : bool :=
  match r with
  | Finite q => negb (Qle_bool q threshold)
  | Infinite => true
  | NotANumber => false
  end.

Definition findDocstringRegions (code : CodeRepresentation) : CodeRegion :=
  {| startLine := 1;
     endLine := Z.min 10 (Z.of_nat (length (Js.lines (content code))));
     region_relevanceScore := 0.9%Q;
     snippet := Js.join SemanticAugmenter.nl (firstn 10 (Js.lines (content code))) |}.

Definition findCommentRegions (code : CodeRepresentation) : CodeRegion :=
  let lines := Js.lines (content code) in
  {| startLine := 1;
     endLine := Z.of_nat (length lines);
     region_relevanceScore := 0.7%Q;
     snippet :=
       Js.join SemanticAugmenter.nl
         (List.filter (fun line => (Js.startsWith (Js.trim line) "#"
                                    || Js.startsWith (Js.trim line) "//")%bool)
                      lines) |}.

(** [id.includes('_') || /[A-Z]/.test(id) || id.length > 8] *)
Definition isDescriptive (id : string) : bool :=
  (Js.includes id "_"
   || Regex.test (Regex.Chr Js.isUpper) id
   || Nat.ltb 8 (String.length id))%bool.

Definition calculateIdentifierComplexity (identifiers : list string) : Q :=
  match identifiers with
  | [] => 0%Q
  | _ :: _ =>
      let avgLength :=
        (inject_Z (Z.of_nat (fold_left (fun sum id => (sum + String.length id)%nat)
                                       identifiers 0%nat))
         / inject_Z (Z.of_nat (length identifiers)))%Q in
      let descriptiveWords := length (List.filter isDescriptive identifiers) in
      ((avgLength / 20
        + inject_Z (Z.of_nat descriptiveWords)
          / inject_Z (Z.of_nat (length identifiers))) / 2)%Q
  end.

Definition getBiasIndicators (code : CodeRepresentation) : list BiasIndicator :=
  let fromDocstrings :=
    match docstrings (textualFeatures code) with
    | [] => []
    | _ :: _ =>
        let docstringRatio :=
          divide (String.length (Js.join "" (docstrings (textualFeatures code))))
                 (String.length (content code)) in
        if exceeds docstringRatio 0.1%Q
        then [ {| ind_type := docstring_dependency;
                  severity := docstringRatio;
                  location := findDocstringRegions code |} ]
        else []
    end in
  let identifierComplexity :=
    calculateIdentifierComplexity (identifierNames (textualFeatures code)) in
  let fromIdentifiers :=
    if negb (Qle_bool identifierComplexity 0.7%Q)
    then [ {| ind_type := identifier_name_bias;
              severity := Finite identifierComplexity;
              location :=
                {| startLine := 1;
                   endLine := Z.of_nat (length (Js.lines (content code)));
                   region_relevanceScore := 0.8%Q;
                   snippet := "" |} |} ]
    else [] in
  let commentRatio :=
    divide (String.length (Js.join "" (comments (textualFeatures code))))
           (String.length (content code)) in
  let fromComments :=
    if exceeds commentRatio 0.15%Q
    then [ {| ind_type := comment_over_reliance;
              severity := commentRatio;
              location := findCommentRegions code |} ]
    else [] in
  (fromDocstrings ++ fromIdentifiers ++ fromComments)%list.

(** The threshold an indicator of each type has passed. *)
Definition threshold (t : IndicatorType) : Q :=
  match t with
  | docstring_dependency => 0.1%Q
  | identifier_name_bias => 0.7%Q
  | comment_over_reliance => 0.15%Q
  end.

End BiasIndicators.

(** ** [SACLProcessor.getBiasAnalysis]: the part of the answer that is
    specific to the file; the rest is the constant answer of the graph
    client. *)

Record FileBias := mkFileBias {
  fb_path : string;
  fb_biasScore : Q;
  fb_indicators : list BiasIndicator;
  fb_semanticFeatures : SemanticFeatures
}.

Module BiasAnalysis.

(** [filePath && this.cache.has(filePath)]: an absent or empty path gives no
    file part. *)
Definition getBiasAnalysis (st : ProcessorState) (filePath : option string)
  : option FileBias :=
  match filePath with
  | Some (String c s) =>
      match cache st !! String c s with
      | Some code =>
          Some {| fb_path := String c s;
                  fb_biasScore := biasScore code;
                  fb_indicators := BiasIndicators.getBiasIndicators code;
                  fb_semanticFeatures := semanticFeatures code |}
      | None => None
      end
  | _ => None
  end.

End BiasAnalysis.

(** ** Queries whose tokens are plain words

    [complexityKeywords[token] || 3] reads a member inherited from
    [Object.prototype] when the token names one; a token is in lower case,
    so these are the only ones in question.  [keywordScore] is the score of
    every other token. *)

Module QueryWords.

Definition inheritedNames : list string := ["constructor"; "__proto__"].

Definition plainQuery (query : string) : bool :=
  forallb (fun token => negb (CodeAnalyzer.inList token inheritedNames))
          (Reranker.tokens query).

End QueryWords.

(* ------------------------------------------------------------------ *)
(** * Properties *)
(* ------------------------------------------------------------------ *)

Section BiasFacts.
Import BiasDetector.
Local Open Scope Q_scope.

Lemma Qmax3_ge1 (a b : Q) : 1 <= Qmax (Qmax a b) 1.
Proof. apply Q.le_max_r. Qed.

Lemma Qmax3_pos (a b : Q) : 0 < Qmax (Qmax a b) 1.
Proof. eapply Qlt_le_trans; [|apply Qmax3_ge1]. reflexivity. Qed.

Lemma Qabs_le_Qmax3 (a b : Q) : 0 <= a -> 0 <= b -> Qabs (a - b) <= Qmax (Qmax a b) 1.
Proof.
  intros Ha Hb.
  apply Qle_trans with (Qmax a b); [|apply Q.le_max_l].
  apply Qabs_case; intros _.
  - apply Qle_trans with a; [lra | apply Q.le_max_l].
  - apply Qle_trans with b; [lra | apply Q.le_max_r].
Qed.

Lemma spec_metric_refl (a : Q) : spec_metric a a == 1.
Proof.
  unfold spec_metric.
  assert (H : Qabs (a - a) == 0).
  { rewrite (Qabs_wd (a - a) 0) by ring. reflexivity. }
  rewrite H. unfold Qdiv. ring.
Qed.

Lemma metric_spec (x y : Z) : metric x y = spec_metric (inject_Z x) (inject_Z y).
Proof. reflexivity. Qed.

Lemma clamp_spec (x : Q) : Qmax 0 (Qmin 1 x) == spec_clamp01 x.
Proof.
  unfold spec_clamp01.
  destruct (Qlt_le_dec x 0) as [Hneg|Hnn].
  - rewrite (Q.min_r 1 x) by lra. apply Q.max_l. lra.
  - destruct (Qlt_le_dec 1 x) as [Hbig|Hsmall].
    + rewrite (Q.min_l 1 x) by lra. apply Q.max_r. lra.
    + rewrite (Q.min_r 1 x) by lra. apply Q.max_r. lra.
Qed.

Lemma clamp_range (x : Q) : 0 <= Qmax 0 (Qmin 1 x) <= 1.
Proof.
  split.
  - apply Q.le_max_l.
  - apply Q.max_lub; [lra | apply Q.le_min_l].
Qed.

Lemma similarity_unfold (c1 c2 : CodeRepresentation) :
  calculateStructuralSimilarity c1 c2 ==
    (metric (complexity (structuralFeatures c1)) (complexity (structuralFeatures c2))
     + metric (nestingDepth (structuralFeatures c1)) (nestingDepth (structuralFeatures c2))
     + metric (functionCount (structuralFeatures c1)) (functionCount (structuralFeatures c2))
     + metric (classCount (structuralFeatures c1)) (classCount (structuralFeatures c2))) / 4.
Proof.
  unfold calculateStructuralSimilarity, similarities. cbn [fold_left length].
  change (inject_Z (Z.of_nat 4)) with 4.
  unfold Qdiv. ring.
Qed.

Lemma similarity_same (c1 c2 : CodeRepresentation) :
  structuralFeatures c2 = structuralFeatures c1 ->
  calculateStructuralSimilarity c1 c2 == 1.
Proof.
  intros E. rewrite similarity_unfold, E, !metric_spec, !spec_metric_refl.
  reflexivity.
Qed.

End BiasFacts.

Section BiasTheorems.
Import BiasDetector.
Local Open Scope Q_scope.

(** The score computed by the source agrees with the specification's
    wording for any pair of representations, masked or not. *)
Lemma calculateBiasScore_spec (original masked : CodeRepresentation) :
  calculateBiasScore original masked ==
    spec_biasScore (structuralFeatures original) (structuralFeatures masked).
Proof.
  unfold calculateBiasScore, spec_biasScore. cbv zeta.
  rewrite clamp_spec.
  assert (E : 1.0 - calculateStructuralSimilarity original masked ==
              1 - (spec_metric (inject_Z (complexity (structuralFeatures original)))
                               (inject_Z (complexity (structuralFeatures masked)))
                   + spec_metric (inject_Z (nestingDepth (structuralFeatures original)))
                                 (inject_Z (nestingDepth (structuralFeatures masked)))
                   + spec_metric (inject_Z (functionCount (structuralFeatures original)))
                                 (inject_Z (functionCount (structuralFeatures masked)))
                   + spec_metric (inject_Z (classCount (structuralFeatures original)))
                                 (inject_Z (classCount (structuralFeatures masked)))) / 4).
  { rewrite similarity_unfold, !metric_spec. unfold Qdiv. ring. }
  unfold spec_clamp01.
  repeat match goal with |- context [Qlt_le_dec ?a ?b] => destruct (Qlt_le_dec a b) end;
    try reflexivity; try exact E; exfalso; rewrite E in *; lra.
Qed.

(** C1: [detectBias] builds the masked copy (docstrings and comments
    emptied, every identifier and variable name replaced by a fixed
    placeholder, structural features untouched), takes the four similarities
    [1 − |a−b| / max(a,b,1)] of complexity, nestingDepth, functionCount and
    classCount between the original and the masked copy, averages them and
    returns [1 − average] clamped to [0,1]; the score lies in [0,1] and no
    structural feature of the masked copy is below the original's. *)
Theorem C1_detectBias_masking_formula (code : CodeRepresentation) :
  let masked := maskTextualFeatures code in
  let o := structuralFeatures code in
  let m := structuralFeatures masked in
  (docstrings (textualFeatures masked) = []
   /\ comments (textualFeatures masked) = []
   /\ identifierNames (textualFeatures masked)
      = map (fun _ => "masked_id") (identifierNames (textualFeatures code))
   /\ variableNames (textualFeatures masked)
      = map (fun _ => "var_x") (variableNames (textualFeatures code))
   /\ m = o)
  /\ detectBias code == spec_biasScore o m
  /\ 0 <= detectBias code <= 1
  /\ (astNodes o <= astNodes m /\ complexity o <= complexity m
      /\ nestingDepth o <= nestingDepth m
      /\ functionCount o <= functionCount m
      /\ classCount o <= classCount m)%Z.
Proof.
  cbv zeta. split; [|split; [|split]].
  - repeat split.
  - exact (calculateBiasScore_spec code (maskTextualFeatures code)).
  - unfold detectBias, calculateBiasScore. cbv zeta. apply clamp_range.
  - cbn [maskTextualFeatures structuralFeatures]. lia.
Qed.

(** C2: [detectBias] returns exactly 0 on every representation: the masked
    copy has the original's structural features, so each of the four
    similarities is 1, their average is 1 and the score is [1 − 1 = 0]. *)
Theorem C2_detectBias_is_zero (code : CodeRepresentation) :
  Forall (fun sim => sim == 1)
         (similarities (structuralFeatures code)
                       (structuralFeatures (maskTextualFeatures code)))
  /\ calculateStructuralSimilarity code (maskTextualFeatures code) == 1
  /\ detectBias code == 0.
Proof.
  split; [|split].
  - unfold similarities. cbn [maskTextualFeatures structuralFeatures].
    repeat constructor; rewrite metric_spec; apply spec_metric_refl.
  - apply similarity_same. reflexivity.
  - unfold detectBias, calculateBiasScore. cbv zeta.
    rewrite (similarity_same code (maskTextualFeatures code) eq_refl).
    reflexivity.
Qed.

End BiasTheorems.

Section RerankerTheorems.
Import Reranker.
Local Open Scope Q_scope.

Lemma normalizedWeights_eq (b : Q) : normalizedWeights b == 1 - b * 0.1.
Proof.
  unfold normalizedWeights, textualWeight, biasAdjustment,
    semanticWeight, functionalWeight.
  ring.
Qed.

Lemma textualWeight_eq (b : Q) : textualWeight b == 0.2 * (1 - b * 0.5).
Proof. unfold textualWeight, biasAdjustment. ring. Qed.

(** C3: the combined score is [Σ(score×weight) / Σ(weight)] with weights
    textual [0.2×(1 − bias×0.5)], semantic [0.5], functional [0.3]; at
    textualSim 0.9, semanticSim 0.5, functionalSim 0.5, bias 0.8 it is
    [(0.9·0.12 + 0.5·0.5 + 0.5·0.3)/0.92], which is 0.552 to three
    decimals. *)
Theorem C3_combineScores_weighted_mean :
  (forall textualSim semanticSim functionalSim bias : Q,
      combineScores textualSim semanticSim functionalSim bias
      == spec_combined (spec_weights textualSim semanticSim functionalSim bias))
  /\ combineScores 0.9 0.5 0.5 0.8
     == (0.9 * 0.12 + 0.5 * 0.5 + 0.5 * 0.3) / 0.92
  /\ Qabs (combineScores 0.9 0.5 0.5 0.8 - 0.552) < 0.0005.
Proof.
  split; [|split].
  - intros t s f b.
    unfold combineScores, spec_combined, spec_weights, Qsum.
    cbn [map fold_right fst snd].
    unfold normalizedWeights, textualWeight, biasAdjustment,
      semanticWeight, functionalWeight.
    apply Qeq_alt. unfold Qdiv.
    assert (D : 0.2 * (1.0 - b * 0.5) + 0.5 + 0.3
                == 0.2 * (1 - b * 0.5) + (0.5 + (0.3 + 0))) by ring.
    apply Qeq_alt.
    rewrite D. ring.
  - vm_compute. reflexivity.
  - vm_compute. reflexivity.
Qed.

(** C4: for any fixed similarity triple, a larger bias score never gives a
    larger textual weight [0.2×(1 − bias×0.5)] in [combineScores]; a
    strictly larger bias gives a strictly smaller textual weight, and for
    bias scores in [0,1] a strictly smaller share of the total weight. *)
Theorem C4_textual_weight_antitone (textualSim semanticSim functionalSim b1 b2 : Q) :
  b1 <= b2 ->
  (combineScores textualSim semanticSim functionalSim b1
   == (textualSim * textualWeight b1 + semanticSim * 0.5 + functionalSim * 0.3)
      / (textualWeight b1 + 0.5 + 0.3))
  /\ textualWeight b1 == 0.2 * (1 - b1 * 0.5)
  /\ textualWeight b2 <= textualWeight b1
  /\ (b1 < b2 -> textualWeight b2 < textualWeight b1)
  /\ (0 <= b1 -> b1 < b2 -> b2 <= 1 ->
      textualWeight b2 / normalizedWeights b2
      < textualWeight b1 / normalizedWeights b1).
Proof.
  intros Hle. split; [|split; [|split; [|split]]].
  - reflexivity.
  - apply textualWeight_eq.
  - rewrite !textualWeight_eq. lra.
  - intros Hlt. rewrite !textualWeight_eq. lra.
  - intros H0 Hlt H1.
    assert (N1 : 0 < normalizedWeights b1) by (rewrite normalizedWeights_eq; lra).
    assert (N2 : 0 < normalizedWeights b2) by (rewrite normalizedWeights_eq; lra).
    apply Qlt_shift_div_r; [exact N2|].
    assert (E : textualWeight b1 / normalizedWeights b1 * normalizedWeights b2
                == textualWeight b1 * normalizedWeights b2 / normalizedWeights b1).
    { field. lra. }
    rewrite E. apply Qlt_shift_div_l; [exact N1|].
    rewrite !normalizedWeights_eq, !textualWeight_eq. lra.
Qed.

Lemma C4_textual_weight_antitone_witness :
  0.3 <= 0.8 /\ textualWeight 0.8 < textualWeight 0.3.
Proof.
  split; [lra|].
  apply (C4_textual_weight_antitone 0.9 0.5 0.5 0.3 0.8); lra.
Defined.

End RerankerTheorems.

Section AnalyzerFacts.
Import CodeAnalyzer.

(** Whatever the content and the extension, the [try] block of the
    structural extraction fails (a parse error, the call of [traverse], or
    the assignment of the non-JavaScript branch) and the [catch] block then
    assigns the constant. *)
Lemma extractStructuralFeatures_throws (env : Env) (content extension : string) :
  extractStructuralFeatures env content extension
  = Throws (TypeError "Assignment to constant variable.").
Proof.
  unfold extractStructuralFeatures. cbv zeta.
  destruct (inList extension jsExtensions); [|reflexivity].
  destruct (parse env content); reflexivity.
Qed.

Lemma analyzeFile_null (env : Env) (filePath : string) :
  analyzeFile env filePath = None.
Proof.
  unfold analyzeFile. destruct (readFile env filePath) as [content|]; [|reflexivity].
  cbv zeta. rewrite extractStructuralFeatures_throws. reflexivity.
Qed.

Lemma processFile_null (env : Env) (log : list GraphRequest) (filePath : string) :
  Processor.processFile env log filePath = (None, log).
Proof. unfold Processor.processFile. rewrite analyzeFile_null. reflexivity. Qed.

Lemma extractJavaScriptRelationships_unchanged (env : Env) (content filePath : string)
  (r : CodeRelationships) :
  extractJavaScriptRelationships env content filePath r = r.
Proof.
  unfold extractJavaScriptRelationships. destruct (parse env content); reflexivity.
Qed.

Lemma processOne_unchanged (config : SACLConfig) (env : Env)
  (run : Processor.RepositoryRun) (filePath : string) :
  Processor.processOne config env run filePath = run.
Proof.
  unfold Processor.processOne. rewrite processFile_null.
  destruct run as [[c l] n b s]. reflexivity.
Qed.

Lemma processRepository_unchanged (config : SACLConfig) (env : Env)
  (st : ProcessorState) :
  Processor.processRepository config env st
  = ({| filesProcessed := 0;
        totalFiles := Z.of_nat (length (findCodeFiles env (repositoryPath config)));
        biasDetected := 0;
        averageBiasScore := 0%Q |}, st).
Proof.
  unfold Processor.processRepository. cbv zeta.
  assert (F : forall files run,
             fold_left (Processor.processOne config env) files run = run).
  { induction files as [|f files IH]; intros run; cbn [fold_left]; [reflexivity|].
    rewrite processOne_unchanged. apply IH. }
  rewrite F. reflexivity.
Qed.

End AnalyzerFacts.

Section AnalyzerTheorems.
Import CodeAnalyzer.

(** C5 (what the code does where the claim fails): no import relation is
    extracted from a JavaScript or TypeScript file.  The handler that
    records imports is part of the visitor passed to [traverse]; that call
    throws, the error is caught and logged, and the relationships returned
    are the empty ones the extraction started with; [analyzeFile] returns
    the null representation.  So the file [/workspace/a.js] of Scenario A
    yields no import relation where the claim has one.  The function
    [resolveImportPath] that the handler would call does give the claimed
    target [/workspace/bar] for the specifier [./bar], from any working
    directory. *)
Theorem C5_javascript_imports_are_not_extracted
  (env : Env) (content filePath extension : string) :
  inList extension jsExtensions = true ->
  extractRelationships env content filePath extension
  = emptyRelationships filePath (now env)
  /\ imports (extractRelationships env content filePath extension) = []
  /\ analyzeFile env filePath = None
  /\ resolveImportPath env "./bar" "/workspace/a.js" = "/workspace/bar".
Proof.
  intros Hext.
  assert (E : extractRelationships env content filePath extension
              = emptyRelationships filePath (now env)).
  { unfold extractRelationships. cbv zeta. rewrite Hext.
    apply extractJavaScriptRelationships_unchanged. }
  split; [exact E|]. split; [rewrite E; reflexivity|].
  split; [apply analyzeFile_null|].
  vm_compute. reflexivity.
Qed.

Lemma C5_javascript_imports_are_not_extracted_witness :
  imports (extractRelationships (Scenario.envA "/workspace") Scenario.contentA
             "/workspace/a.js" ".js") = []
  /\ analyzeFile (Scenario.envA "/workspace") "/workspace/a.js" = None.
Proof.
  pose proof (C5_javascript_imports_are_not_extracted (Scenario.envA "/workspace")
                Scenario.contentA "/workspace/a.js" ".js" eq_refl)
    as (_ & H1 & H2 & _).
  exact (conj H1 H2).
Defined.

End AnalyzerTheorems.

Section StructuralFallback.
Import CodeAnalyzer.

(** C6 (what the code does where the claim fails): for a readable file
    whose extension is not a JavaScript one, or whose content the parser
    rejects, the assignment of the heuristic result to the constant
    [features] throws, feature extraction raises a [TypeError], and
    [analyzeFile] returns the null representation. *)
Theorem C6_fallback_assignment_throws (env : Env) (filePath content : string) :
  readFile env filePath = Some content ->
  inList (NodePath.extname filePath) jsExtensions = false
  \/ parse env content = None ->
  extractStructuralFeatures env content (NodePath.extname filePath)
  = Throws (TypeError "Assignment to constant variable.")
  /\ analyzeFile env filePath = None.
Proof.
  intros Hread Hcase.
  assert (E : extractStructuralFeatures env content (NodePath.extname filePath)
              = Throws (TypeError "Assignment to constant variable.")).
  { unfold extractStructuralFeatures. cbv zeta.
    destruct Hcase as [Hext | Hparse].
    - rewrite Hext. reflexivity.
    - destruct (inList (NodePath.extname filePath) jsExtensions);
        [rewrite Hparse|]; reflexivity. }
  split; [exact E|].
  unfold analyzeFile. rewrite Hread. cbv zeta. rewrite E. reflexivity.
Qed.

Lemma C6_fallback_assignment_throws_witness :
  analyzeFile (Scenario.envA "/workspace") "/workspace/broken.js" = None
  /\ analyzeFile (Scenario.envA "/workspace") "/workspace/m.py" = None.
Proof.
  split.
  - apply (C6_fallback_assignment_throws (Scenario.envA "/workspace")
             "/workspace/broken.js" Scenario.contentBroken);
      [reflexivity | right; reflexivity].
  - apply (C6_fallback_assignment_throws (Scenario.envA "/workspace")
             "/workspace/m.py" Scenario.contentPy);
      [reflexivity | left; reflexivity].
Defined.

End StructuralFallback.

Section PathValidation.
Import Processor.

(** C7 (what the code does where the claim fails): path validation looks at
    the text of the path only, and a path that does not start with a slash
    passes whatever it resolves to.  So for every path that begins with
    [../], in every state, [updateFile] does not reject: asked to delete, it
    reports success, removes the cache entry and sends a deletion request to
    the graph store; asked to modify, it goes on to process the file and
    reports a processing failure, not a rejection.  Under the root
    [/workspace], with the process running there, [../outside/a.js]
    resolves to [/outside/a.js], outside the root.  What is rejected, without
    mutation, is every path that starts with a slash and does not start with
    the repository path, the [/etc/passwd] of the claim among them. *)
Theorem C7_escaping_relative_path_is_not_rejected
  (config : SACLConfig) (env : Env) (st : ProcessorState) (rest : string) :
  let path := "../" ++ rest in
  validateFilePath config path = true
  /\ updateFile config env st path deleted
     = ({| success := true;
           message := "File " ++ path ++ " removed from cache and knowledge graph" |},
        {| cache := delete path (cache st);
           graphLog := (graphLog st ++ [DeleteFileRelationships path])%list |})
  /\ updateFile config env st path modified
     = ({| success := false; message := "Failed to process file " ++ path |}, st)
  /\ SpecWords.spec_resolvesUnderRoot "/workspace" "/workspace" "../outside/a.js"
     = false
  /\ (forall filePath changeType,
        Js.startsWith (Js.replaceChar Js.backslash "/" filePath) "/" = true ->
        Js.startsWith (Js.replaceChar Js.backslash "/" filePath)
                      (Js.replaceChar Js.backslash "/" (repositoryPath config))
        = false ->
        updateFile config env st filePath changeType
        = ({| success := false;
              message := "File path " ++ filePath ++ " is outside repository" |},
           st))
  /\ (forall changeType,
        updateFile Scenario.config env st "/etc/passwd" changeType
        = ({| success := false;
              message := "File path /etc/passwd is outside repository" |}, st)).
Proof.
  cbv zeta.
  assert (V : validateFilePath config ("../" ++ rest) = true).
  { unfold validateFilePath. cbv zeta.
    change (Js.replaceChar Js.backslash "/" ("../" ++ rest))
      with (String "." (String "." (String "/" (Js.replaceChar Js.backslash "/" rest)))).
    unfold Js.startsWith. cbn [String.prefix].
    destruct (Ascii.ascii_dec "/" ".") as [H|_]; [discriminate H|].
    apply orb_true_r. }
  split; [exact V|]. split; [|split; [|split; [|split]]].
  - unfold updateFile. rewrite V. reflexivity.
  - unfold updateFile. rewrite V. cbn [negb]. rewrite processFile_null.
    destruct st. reflexivity.
  - reflexivity.
  - intros filePath changeType Habs Hout.
    unfold updateFile, validateFilePath. cbv zeta.
    assert (Hrel : Js.startsWith (Js.replaceChar Js.backslash "/" filePath) "./"
                   = false).
    { unfold Js.startsWith in *.
      destruct (Js.replaceChar Js.backslash "/" filePath) as [|c s]; [reflexivity|].
      cbn [String.prefix] in Habs.
      destruct (Ascii.ascii_dec "/" c) as [<-|]; [reflexivity | discriminate Habs]. }
    rewrite Hout, Hrel, Habs. reflexivity.
  - intros changeType. reflexivity.
Qed.

Lemma C7_escaping_relative_path_is_not_rejected_witness :
  updateFile Scenario.config (Scenario.envA "/workspace") Scenario.emptyState
    "../outside/a.js" deleted
  = ({| success := true;
        message := "File ../outside/a.js removed from cache and knowledge graph" |},
     {| cache := delete "../outside/a.js" (cache Scenario.emptyState);
        graphLog := [DeleteFileRelationships "../outside/a.js"] |})
  /\ updateFile Scenario.config (Scenario.envA "/workspace") Scenario.emptyState
       "../outside/a.js" modified
     = ({| success := false;
           message := "Failed to process file ../outside/a.js" |},
        Scenario.emptyState).
Proof.
  pose proof (C7_escaping_relative_path_is_not_rejected Scenario.config
                (Scenario.envA "/workspace") Scenario.emptyState "outside/a.js")
    as (_ & Hdeleted & Hmodified & _).
  exact (conj Hdeleted Hmodified).
Defined.

End PathValidation.

Section TraversalTheorems.
Import GraphitiClient.
Local Open Scope Q_scope.

Lemma In_firstn_In {A} (n : nat) (x : A) (l : list A) : In x (firstn n l) -> In x l.
Proof.
  revert l. induction n as [|n IH]; intros [|y l]; cbn; try contradiction.
  intros [H | H]; [left; exact H | right; apply IH; exact H].
Qed.

Lemma filter_length_le {A} (p : A -> bool) (l : list A) :
  (length (List.filter p l) <= length l)%nat.
Proof.
  induction l as [|y l IH]; cbn; [lia|]. destruct (p y); cbn; lia.
Qed.

Lemma mock_component_shape (filePath : string) (config : RelationshipTraversalConfig)
  (c : RelatedComponent) :
  In c (createMockRelatedComponents filePath config) ->
  distance c = 1%Z
  /\ (1 <= maxDepth config)%Z
  /\ minRelevanceScore config <= relevanceScore c
  /\ ((relationshipType c = calls_t /\ relevanceScore c = 0.9)
      \/ (relationshipType c = imports_t /\ relevanceScore c = 0.95)
      \/ (relationshipType c = depends_on_t /\ relevanceScore c = 0.7)).
Proof.
  unfold createMockRelatedComponents. cbv zeta.
  intros Hin. apply In_firstn_In in Hin. apply filter_In in Hin.
  destruct Hin as [Hin Hkeep].
  apply andb_prop in Hkeep. destruct Hkeep as [Hrel Hdepth].
  apply Qle_bool_iff in Hrel. apply Z.leb_le in Hdepth.
  assert (Hshape : distance c = 1%Z
                   /\ ((relationshipType c = calls_t /\ relevanceScore c = 0.9)
                       \/ (relationshipType c = imports_t /\ relevanceScore c = 0.95)
                       \/ (relationshipType c = depends_on_t /\ relevanceScore c = 0.7))).
  { apply in_app_or in Hin. destruct Hin as [Hin | Hin].
    - destruct (Js.includes _ "Service"); [|contradiction].
      destruct Hin as [<- | []]. cbn. auto.
    - apply in_app_or in Hin. destruct Hin as [Hin | Hin].
      + destruct (Js.includes _ "Controller"); [|contradiction].
        destruct Hin as [<- | []]. cbn. auto.
      + destruct Hin as [<- | []]. cbn. auto. }
  destruct Hshape as [Hd Hkind]. rewrite Hd in Hdepth. auto.
Qed.

Lemma mock_components_count (filePath : string) (config : RelationshipTraversalConfig) :
  (length (createMockRelatedComponents filePath config) <= 3)%nat.
Proof.
  unfold createMockRelatedComponents. cbv zeta.
  rewrite length_firstn.
  etransitivity; [apply Nat.le_min_r|].
  etransitivity; [apply filter_length_le|].
  rewrite !length_app.
  destruct (Js.includes _ "Service"), (Js.includes _ "Controller"); cbn; lia.
Qed.

(** C8 (counterexample): with the chain A → B → C → D stored under unit
    weights, traversal from A with depth 2 returns one component, the
    synthetic test file of A; neither B nor C is returned, and the score of
    the returned component, 0.7, is not its type weight over its distance,
    under the unit weights or under the default table. *)
Lemma C8_counterexample_chain_not_traversed :
  let found :=
    relatedComponents
      (traverseRelationships Scenario.chainLog Scenario.fileA [imports_t] 2) in
  map rc_filePath found = ["/workspace/A.test.ts"]
  /\ ~ In Scenario.fileB (map rc_filePath found)
  /\ ~ In Scenario.fileC (map rc_filePath found)
  /\ exists c, In c found
               /\ ~ relevanceScore c == SpecWords.spec_relevance Scenario.unitWeights c
               /\ ~ relevanceScore c
                    == SpecWords.spec_relevance DEFAULT_RELATIONSHIP_WEIGHTS c.
Proof.
  cbv zeta.
  assert (E : relatedComponents
                (traverseRelationships Scenario.chainLog Scenario.fileA [imports_t] 2)
              = [ {| rc_filePath := "/workspace/A.test.ts";
                     componentName := "A.test.ts";
                     componentType := file_c;
                     relationshipType := depends_on_t;
                     relationshipDescription := "Test file for this component";
                     relevanceScore := 0.7;
                     distance := 1;
                     rc_snippet := None |} ]) by (vm_compute; reflexivity).
  rewrite E. cbn [map rc_filePath].
  split; [reflexivity|]. split; [|split].
  - intros [H | []]. discriminate H.
  - intros [H | []]. discriminate H.
  - eexists. split; [left; reflexivity|].
    split; intros H; vm_compute in H; discriminate H.
Qed.

(** C8 (amended): every component returned by relationship traversal is one
    of at most three synthetic components at distance 1, whose relevance
    score is fixed by its relationship type (0.9 for calls, 0.95 for
    imports, 0.7 for depends_on), is at least the minimum relevance 0.3 and
    is returned only when the depth is at least 1; the result does not
    depend on the requests the graph store has received. *)
Theorem C8_traversal_returns_synthetic_components
  (log : list GraphRequest) (startFile : string) (types : list RelationshipType)
  (depth : Z) (c : RelatedComponent) :
  In c (relatedComponents (traverseRelationships log startFile types depth)) ->
  (distance c = 1%Z
   /\ (1 <= depth)%Z
   /\ 0.3 <= relevanceScore c
   /\ ((relationshipType c = calls_t /\ relevanceScore c = 0.9)
       \/ (relationshipType c = imports_t /\ relevanceScore c = 0.95)
       \/ (relationshipType c = depends_on_t /\ relevanceScore c = 0.7)))
  /\ (length (relatedComponents (traverseRelationships log startFile types depth))
      <= 3)%nat
  /\ (forall log' : list GraphRequest,
         traverseRelationships log' startFile types depth
         = traverseRelationships log startFile types depth).
Proof.
  unfold traverseRelationships, getRelatedComponents. cbv zeta.
  cbn [relatedComponents].
  intros Hin. split; [|split].
  - apply mock_component_shape in Hin. exact Hin.
  - apply mock_components_count.
  - reflexivity.
Qed.

Lemma C8_traversal_returns_synthetic_components_witness :
  exists c,
    In c (relatedComponents
            (traverseRelationships Scenario.chainLog Scenario.fileA [imports_t] 2))
    /\ distance c = 1%Z /\ relationshipType c = depends_on_t.
Proof.
  eexists. split; [vm_compute; left; reflexivity|].
  assert (Hin : In {| rc_filePath := "/workspace/A.test.ts";
                      componentName := "A.test.ts";
                      componentType := file_c;
                      relationshipType := depends_on_t;
                      relationshipDescription := "Test file for this component";
                      relevanceScore := 0.7;
                      distance := 1;
                      rc_snippet := None |}
                   (relatedComponents
                      (traverseRelationships Scenario.chainLog Scenario.fileA
                         [imports_t] 2)))
    by (vm_compute; left; reflexivity).
  pose proof (C8_traversal_returns_synthetic_components _ _ _ _ _ Hin) as [[Hd _] _].
  split; [exact Hd | reflexivity].
Defined.

End TraversalTheorems.

Section SearchTheorems.
Import GraphitiClient Reranker Processor.

Lemma insertDesc_length {A} (key : A -> Q) (x : A) (l : list A) :
  length (insertDesc key x l) = S (length l).
Proof.
  induction l as [|y l IH]; cbn; [reflexivity|].
  destruct (Qle_bool (key x) (key y)); cbn; [rewrite IH|]; reflexivity.
Qed.

Lemma sortDesc_length {A} (key : A -> Q) (l : list A) :
  length (sortDesc key l) = length l.
Proof.
  unfold sortDesc.
  assert (G : forall acc, length (fold_left (fun acc x => insertDesc key x acc) l acc)
                          = (length l + length acc)%nat).
  { induction l as [|x l IH]; intros acc; cbn; [reflexivity|].
    rewrite IH, insertDesc_length. lia. }
  rewrite G. cbn. lia.
Qed.

Lemma slice0_length_le {A} (k : Z) (l : list A) :
  (length (slice0 k l) <= length l)%nat.
Proof.
  unfold slice0. destruct (k <? 0)%Z; rewrite length_firstn; apply Nat.le_min_r.
Qed.

Lemma rerank_length_le (initialResults : list CodeRepresentation) (query : string)
  (topK : Z) :
  (length (rerank initialResults query topK) <= length initialResults)%nat.
Proof.
  unfold rerank. cbv zeta.
  etransitivity; [apply slice0_length_le|].
  rewrite sortDesc_length, length_map. reflexivity.
Qed.

Lemma rerankWithContext_length_le (client : bool) (log : list GraphRequest)
  (initialResults : list CodeRepresentation) (query : string) (topK : Z) :
  (length (rerankWithContext client log initialResults query topK)
   <= length initialResults)%nat.
Proof.
  unfold rerankWithContext. destruct client; cbn [negb].
  - cbv zeta. etransitivity; [apply slice0_length_le|].
    rewrite sortDesc_length, length_map. reflexivity.
  - rewrite length_map. apply rerank_length_le.
Qed.

Lemma search_length (env : Env) (log : list GraphRequest) (query : string) (limit : Z) :
  length (searchCode env log query limit) = Z.to_nat (Z.min limit 5).
Proof.
  unfold searchCode, createMockSearchResults. rewrite length_map, length_seq.
  reflexivity.
Qed.

(** C10: for every query and limit, the search of the graph store returns
    exactly [min(limit, 5)] representations (none for a negative limit),
    their paths are the first of [src/example1.py] .. [src/example5.py],
    and the result does not depend on the requests the store has received;
    so [queryCode] and [queryCodeWithContext] never return more than 5
    results, whatever [maxResults] is. *)
Theorem C10_search_returns_fixed_mock_results :
  (forall (env : Env) (log : list GraphRequest) (query : string) (limit : Z),
      let found := searchCode env log query limit in
      Z.of_nat (length found) = Z.max 0 (Z.min limit 5)
      /\ map filePath found = firstn (length found) SpecWords.exampleNames
      /\ forall log' : list GraphRequest, searchCode env log' query limit = found)
  /\ (forall (config : SACLConfig) (env : Env) (st : ProcessorState)
             (query : string) (maxResultsArg : option Z),
         (length (queryCode config env st query maxResultsArg) <= 5)%nat
         /\ (length (queryCodeWithContext config env st query maxResultsArg) <= 5)%nat).
Proof.
  split.
  - intros env log query limit found. subst found.
    split; [|split].
    + rewrite search_length. lia.
    + rewrite search_length.
      unfold searchCode, createMockSearchResults. rewrite map_map.
      assert (Hn : (Z.to_nat (Z.min limit 5) <= 5)%nat) by lia.
      destruct (Z.to_nat (Z.min limit 5)) as [|[|[|[|[|[|n]]]]]];
        [reflexivity .. | lia].
    + reflexivity.
  - intros config env st query maxResultsArg.
    assert (Hs : forall limit,
               (length (searchCode env (graphLog st) query limit) <= 5)%nat).
    { intros limit. rewrite search_length. lia. }
    split.
    + unfold queryCode. cbv zeta.
      pose proof (Hs (limitOf config maxResultsArg * 2)%Z) as H5.
      pose proof (rerank_length_le
                    (searchCode env (graphLog st) query
                       (limitOf config maxResultsArg * 2))
                    query (limitOf config maxResultsArg)) as Hr.
      destruct (searchCode env (graphLog st) query
                  (limitOf config maxResultsArg * 2)); [cbn; lia | lia].
    + unfold queryCodeWithContext. cbv zeta.
      pose proof (Hs (limitOf config maxResultsArg * 2)%Z) as H5.
      pose proof (rerankWithContext_length_le true (graphLog st)
                    (searchCode env (graphLog st) query
                       (limitOf config maxResultsArg * 2))
                    query (limitOf config maxResultsArg)) as Hr.
      destruct (searchCode env (graphLog st) query
                  (limitOf config maxResultsArg * 2)); [cbn; lia | lia].
Qed.

End SearchTheorems.

Section Determinism.
Import CodeAnalyzer SpecWords.





End Determinism.

Section Reprocessing.
Import CodeAnalyzer SpecWords Processor.



End Reprocessing.

Section StructuralTheorems.
Import CodeAnalyzer.

(** X1: structural feature extraction never returns features.  For every
    content and every extension, a JavaScript or TypeScript file that parses
    included, it raises the [TypeError] of an assignment to a constant: in
    the JavaScript branch the [try] block fails at the latest in the call of
    [traverse], in the other branch at the assignment itself, and the
    [catch] block, meant as the fallback, assigns the constant [features]. *)
Theorem X1_structural_extraction_always_throws
  (env : Env) (content extension : string) :
  extractStructuralFeatures env content extension
  = Throws (TypeError "Assignment to constant variable.")
  /\ returned (extractStructuralFeatures env content extension) = None.
Proof.
  assert (E : extractStructuralFeatures env content extension
              = Throws (TypeError "Assignment to constant variable.")).
  { unfold extractStructuralFeatures. cbv zeta.
    destruct (inList extension jsExtensions).
    - destruct (parse env content) as [ast|].
      + unfold Babel.traverse. reflexivity.
      + reflexivity.
    - reflexivity. }
  split; [exact E | rewrite E; reflexivity].
Qed.

End StructuralTheorems.

Section HeuristicFacts.
Import CodeAnalyzer.

Lemma split_nonempty (sep : ascii) (s : string) : Js.split sep s <> [].
Proof.
  destruct s as [|c s]; cbn; [discriminate|].
  destruct (Ascii.eqb c sep); [discriminate|].
  destruct (Js.split sep s); discriminate.
Qed.

Lemma lines_length_pos (content : string) : (1 <= length (Js.lines content))%nat.
Proof.
  unfold Js.lines. pose proof (split_nonempty "010" content) as H.
  destruct (Js.split "010" content); [contradiction | cbn; lia].
Qed.

Lemma count_bounds (l : list string) (p : string -> bool) :
  0 <= count l p <= Z.of_nat (length l).
Proof.
  unfold count. split; [lia|].
  apply inj_le. apply length_filter.
Qed.

Lemma fold_left_invariant {A B} (P : A -> Prop) (f : A -> B -> A) (l : list B) (a : A) :
  (forall a b, P a -> P (f a b)) -> P a -> P (fold_left f l a).
Proof.
  intros Hf. revert a. induction l as [|b l IH]; intros a Ha; cbn; [exact Ha|].
  apply IH. apply Hf. exact Ha.
Qed.

Lemma heuristicLine_step (st : HeuristicState) (line : string) :
  let st' := heuristicLine st line in
  astNodes (h_features st') = astNodes (h_features st)
  /\ complexity (h_features st) <= complexity (h_features st')
     <= complexity (h_features st) + 9
  /\ functionCount (h_features st) <= functionCount (h_features st')
     <= functionCount (h_features st) + 6
  /\ classCount (h_features st) <= classCount (h_features st')
     <= classCount (h_features st) + 3
  /\ (0 <= h_maxIndent st -> 0 <= h_maxIndent st').
Proof.
  cbv zeta. unfold heuristicLine. cbv zeta.
  cbn [h_features h_maxIndent astNodes complexity functionCount classCount].
  pose proof (count_bounds complexityKeywords
                (fun k => Js.includes (Js.trim line) k)) as B1.
  pose proof (count_bounds functionKeywords
                (fun k => (Js.startsWith (Js.trim line) k
                           || Js.includes (Js.trim line) (k ++ " "))%bool)) as B2.
  pose proof (count_bounds classKeywords
                (fun k => Js.startsWith (Js.trim line) k)) as B3.
  cbn [length complexityKeywords functionKeywords classKeywords] in B1, B2, B3.
  repeat split; lia.
Qed.

(** X2: the heuristic extractor never fails and keeps the ranges of the data
    model: [astNodes] is twice the number of lines (at least 2, an empty file
    having one empty line), [complexity] is at least 1 and at most one plus
    nine per line, [nestingDepth], [functionCount] and [classCount] are not
    negative, with at most six function keywords and three class keywords
    counted per line. *)
Theorem X2_heuristic_features_ranges (content : string) :
  let f := extractStructuralHeuristics content in
  let n := Z.of_nat (length (Js.lines content)) in
  astNodes f = 2 * n /\ 2 <= astNodes f
  /\ 1 <= complexity f <= 1 + 9 * n
  /\ 0 <= nestingDepth f
  /\ 0 <= functionCount f <= 6 * n
  /\ 0 <= classCount f <= 3 * n.
Proof.
  cbv zeta. unfold extractStructuralHeuristics. cbv zeta.
  pose proof (lines_length_pos content) as Hn.
  set (lines := Js.lines content) in *.
  set (init := {| astNodes := Z.of_nat (length lines) * 2; complexity := 1;
                  nestingDepth := 0; functionCount := 0; classCount := 0 |}).
  assert (G : forall (l : list string) (st : HeuristicState),
             astNodes (h_features (fold_left heuristicLine l st))
             = astNodes (h_features st)
             /\ complexity (h_features st)
                <= complexity (h_features (fold_left heuristicLine l st))
                <= complexity (h_features st) + 9 * Z.of_nat (length l)
             /\ functionCount (h_features st)
                <= functionCount (h_features (fold_left heuristicLine l st))
                <= functionCount (h_features st) + 6 * Z.of_nat (length l)
             /\ classCount (h_features st)
                <= classCount (h_features (fold_left heuristicLine l st))
                <= classCount (h_features st) + 3 * Z.of_nat (length l)
             /\ (0 <= h_maxIndent st
                 -> 0 <= h_maxIndent (fold_left heuristicLine l st))).
  { induction l as [|line l IH]; intros st.
    - cbn. lia.
    - cbn [fold_left length].
      destruct (IH (heuristicLine st line)) as (Ha & Hc & Hf & Hk & Hi).
      pose proof (heuristicLine_step st line) as S. cbv zeta in S.
      destruct S as (Sa & Sc & Sf & Sk & Si).
      repeat split; lia. }
  destruct (G lines (mkHeuristicState init 0)) as (Ha & Hc & Hf & Hk & Hi).
  cbn [h_features h_maxIndent astNodes complexity functionCount classCount
         nestingDepth init] in *.
  specialize (Hi ltac:(lia)). lia.
Qed.

End HeuristicFacts.

Section TextualFacts.
Import CodeAnalyzer.

Lemma inList_In (s : string) (l : list string) : inList s l = true <-> In s l.
Proof.
  unfold inList. rewrite existsb_exists. split.
  - intros (x & Hin & Heq). apply String.eqb_eq in Heq. subst. exact Hin.
  - intros Hin. exists s. split; [exact Hin | apply String.eqb_refl].
Qed.

Lemma unique_spec (l seen : list string) :
  List.NoDup (unique seen l)
  /\ (forall x, In x (unique seen l) <-> In x l /\ ~ In x seen).
Proof.
  revert seen. induction l as [|y l IH]; intros seen; cbn.
  - split; [constructor | intros x; tauto].
  - destruct (inList y seen) eqn:E.
    + apply inList_In in E. destruct (IH seen) as [Hnd Hin].
      split; [exact Hnd|]. intros x. rewrite Hin. split.
      * tauto.
      * intros [[<- | H] Hns]; [contradiction | tauto].
    + assert (Hy : ~ In y seen).
      { intros H. apply inList_In in H. congruence. }
      destruct (IH (y :: seen)) as [Hnd Hin]. split.
      * constructor; [|exact Hnd]. intros H. apply Hin in H. cbn in H. tauto.
      * intros x. cbn. rewrite Hin. cbn. split.
        -- intros [<- | [H1 H2]]; [tauto|]. tauto.
        -- intros [[<- | H1] H2]; [tauto|].
           destruct (String.string_dec y x) as [->|Hne]; [tauto|]. right. tauto.
Qed.

Lemma NoDup_filter_list {A} (p : A -> bool) (l : list A) :
  List.NoDup l -> List.NoDup (List.filter p l).
Proof.
  induction 1 as [|x l Hx Hnd IH]; cbn; [constructor|].
  destruct (p x); [|exact IH].
  constructor; [|exact IH]. intros H. apply filter_In in H. tauto.
Qed.

(** X3: the identifier names extracted from a file are pairwise distinct,
    each is longer than two characters, none is a keyword of the file's
    language, and each occurs in the content as a whole word; the variable
    names are a duplicate-free selection of the identifier names; docstrings
    are never extracted. *)
Theorem X3_textual_features_invariants (content extension : string) :
  let f := extractTextualFeatures content extension in
  docstrings f = []
  /\ List.NoDup (identifierNames f)
  /\ Forall (fun id => (2 < String.length id)%nat
                       /\ isKeyword id extension = false
                       /\ In id (map Regex.m_text
                                   (Regex.matchAll identifierPattern content)))
            (identifierNames f)
  /\ List.NoDup (variableNames f)
  /\ incl (variableNames f) (identifierNames f).
Proof.
  cbv zeta. unfold extractTextualFeatures. cbv zeta.
  cbn [docstrings identifierNames variableNames].
  set (matches := map Regex.m_text (Regex.matchAll identifierPattern content)).
  destruct (unique_spec matches []) as [Hnd Hin].
  split; [reflexivity|].
  assert (Hids : List.NoDup (List.filter
                          (fun id => (Nat.ltb 2 (String.length id)
                                      && negb (isKeyword id extension))%bool)
                          (unique [] matches)))
    by (apply NoDup_filter_list; exact Hnd).
  split; [exact Hids|]. split; [|split].
  - apply List.Forall_forall. intros id H. apply filter_In in H. destruct H as [H1 H2].
    apply andb_prop in H2. destruct H2 as [Hlen Hkw].
    apply Nat.ltb_lt in Hlen. apply negb_true_iff in Hkw.
    apply Hin in H1. tauto.
  - apply NoDup_filter_list. exact Hids.
  - intros id H. apply filter_In in H. tauto.
Qed.

End TextualFacts.

Section RelationshipFacts.
Import CodeAnalyzer Invariants.

Variable p : string.
Variables (PI : ImportRelation -> Prop) (PE : ExportRelation -> Prop)
          (PC : CallRelation -> Prop) (PH : InheritanceRelation -> Prop)
          (PD : DependencyRelation -> Prop).

Local Abbreviation inv := (allRelations p PI PE PC PH PD).

Lemma inv_empty (t : Z) : inv (emptyRelationships p t).
Proof. unfold allRelations. cbn. repeat split; constructor. Qed.

Lemma inv_pushImport (r : CodeRelationships) (x : ImportRelation) :
  inv r -> PI x -> inv (pushImport r x).
Proof.
  intros (H0 & H1 & H2 & H3 & H4 & H5 & H6) Hx. unfold allRelations. cbn.
  repeat split; try assumption. apply Forall_app. split; [assumption|].
  constructor; [assumption | constructor].
Qed.

Lemma inv_pushCall (r : CodeRelationships) (x : CallRelation) :
  inv r -> PC x -> inv (pushCall r x).
Proof.
  intros (H0 & H1 & H2 & H3 & H4 & H5 & H6) Hx. unfold allRelations. cbn.
  repeat split; try assumption. apply Forall_app. split; [assumption|].
  constructor; [assumption | constructor].
Qed.

Lemma inv_pushInheritance (r : CodeRelationships) (x : InheritanceRelation) :
  inv r -> PH x -> inv (pushInheritance r x).
Proof.
  intros (H0 & H1 & H2 & H3 & H4 & H5 & H6) Hx. unfold allRelations. cbn.
  repeat split; try assumption. apply Forall_app. split; [assumption|].
  constructor; [assumption | constructor].
Qed.

Lemma inv_pushDependency (r : CodeRelationships) (x : DependencyRelation) :
  inv r -> PD x -> inv (pushDependency r x).
Proof.
  intros (H0 & H1 & H2 & H3 & H4 & H5 & H6) Hx. unfold allRelations. cbn.
  repeat split; try assumption. apply Forall_app. split; [assumption|].
  constructor; [assumption | constructor].
Qed.

Lemma orElse_nonempty (x : option string) (d : string) : d <> "" -> orElse x d <> "".
Proof. intros Hd. destruct x as [[|c s]|]; cbn; [exact Hd | discriminate | exact Hd]. Qed.

End RelationshipFacts.

Section LineExtractorFacts.
Import CodeAnalyzer Invariants.

Variable p : string.
Variables (PI : ImportRelation -> Prop) (PE : ExportRelation -> Prop)
          (PC : CallRelation -> Prop) (PH : InheritanceRelation -> Prop)
          (PD : DependencyRelation -> Prop).

Local Abbreviation inv := (allRelations p PI PE PC PH PD).

(** What the Python and the generic extractors push. *)
Hypothesis pyImportOk :
  forall (target : string) (symbols : list string) (n : nat) (statement : string),
    PI (mkImportRelation p target symbols ImportNamed (Some (Z.of_nat n + 1)) statement).
Hypothesis pyCallOk :
  forall (name object : string) (n : nat) (context : string),
    context <> "" ->
    PC (mkCallRelation p name (Some object) (Some (Z.of_nat n + 1)) CallMethod context).
Hypothesis extendsOk :
  forall x : InheritanceRelation, inh_type x = Extends -> PH x.
Hypothesis dependencyOk :
  forall target : string, PD (mkDependencyRelation p target DepBuiltin None ["include"]).

Lemma inv_pythonLine (lines : list string) (r : CodeRelationships) (i : nat) :
  inv r -> inv (pythonLine p lines r i).
Proof.
  intros Hr. unfold pythonLine. cbv zeta.
  apply fold_left_invariant.
  { intros a m Ha. apply (inv_pushCall p PI PE PC PH PD); [exact Ha|].
    apply pyCallOk. apply orElse_nonempty. discriminate. }
  assert (H1 : inv match Regex.exec pyImport (Js.trim (nth i lines "")) with
                   | Some m =>
                       fold_left
                         (fun acc module =>
                            pushImport acc
                              {| imp_from := p; imp_to := module;
                                 imp_symbols := [module]; importType := ImportNamed;
                                 imp_lineNumber := Some (Z.of_nat i + 1);
                                 imp_statement := Js.trim (nth i lines "") |})
                         (map Js.trim (Js.split "," (grp m 1))) r
                   | None => r
                   end).
  { destruct (Regex.exec pyImport _) as [m|]; [|exact Hr].
    apply fold_left_invariant; [|exact Hr].
    intros a module Ha. apply (inv_pushImport p PI PE PC PH PD); [exact Ha|].
    apply pyImportOk. }
  destruct (Regex.exec pyClass _) as [m3|].
  - apply fold_left_invariant.
    { intros a parent Ha. apply (inv_pushInheritance p PI PE PC PH PD); [exact Ha|].
      apply extendsOk. reflexivity. }
    destruct (Regex.exec pyFromImport _) as [m2|]; [|exact H1].
    apply (inv_pushImport p PI PE PC PH PD); [exact H1 | apply pyImportOk].
  - destruct (Regex.exec pyFromImport _) as [m2|]; [|exact H1].
    apply (inv_pushImport p PI PE PC PH PD); [exact H1 | apply pyImportOk].
Qed.

Lemma inv_genericLine (lines : list string) (r : CodeRelationships) (i : nat) :
  inv r -> inv (genericLine p lines r i).
Proof.
  intros Hr. unfold genericLine. cbv zeta.
  apply fold_left_invariant.
  { intros a pattern Ha. destruct (Regex.exec pattern _); [|exact Ha].
    apply (inv_pushInheritance p PI PE PC PH PD); [exact Ha|].
    apply extendsOk. reflexivity. }
  apply fold_left_invariant; [|exact Hr].
  intros a pattern Ha. destruct (Regex.exec pattern _); [|exact Ha].
  apply (inv_pushDependency p PI PE PC PH PD); [exact Ha | apply dependencyOk].
Qed.

End LineExtractorFacts.

Section RelationshipTheorems.
Import CodeAnalyzer Invariants.

Lemma Forall_False_nil {A} (l : list A) : Forall (fun _ => False) l -> l = [].
Proof. destruct 1; [reflexivity | contradiction]. Qed.

(** The relations of a JavaScript or TypeScript file. *)
Lemma javascript_relations (env : Env) (content p : string) :
  allRelations p
    (fun x => imp_from x = p)
    (fun x => exp_from x = p /\ exportType x <> ExportNamespace)
    (fun x => call_from x = p /\ callType x = CallDirect /\ call_context x <> "")
    (fun x => inh_type x <> Mixin)
    (fun _ => False)
    (extractJavaScriptRelationships env content p (emptyRelationships p (now env))).
Proof.
  rewrite extractJavaScriptRelationships_unchanged. apply inv_empty.
Qed.

(** The relations of a Python file. *)
Lemma python_relations (content p : string) (t : Z) :
  allRelations p
    (fun x => imp_from x = p /\ importType x = ImportNamed
              /\ exists n, imp_lineNumber x = Some n /\ 1 <= n)
    (fun _ => False)
    (fun x => call_from x = p /\ callType x = CallMethod
              /\ is_Some (call_object x) /\ call_context x <> "")
    (fun x => inh_type x = Extends)
    (fun _ => False)
    (extractPythonRelationships content p (emptyRelationships p t)).
Proof.
  unfold extractPythonRelationships. cbv zeta.
  apply fold_left_invariant; [|apply inv_empty].
  intros a i Ha. apply inv_pythonLine; try exact Ha.
  - intros target symbols n statement. repeat split.
    exists (Z.of_nat n + 1). split; [reflexivity | lia].
  - intros name object n context Hc. repeat split; [eexists; reflexivity | exact Hc].
  - intros x Hx. exact Hx.
Qed.

(** The relations of a file in another language. *)
Lemma generic_relations (content p : string) (t : Z) :
  allRelations p
    (fun _ => False) (fun _ => False) (fun _ => False)
    (fun x => inh_type x = Extends)
    (fun x => dep_from x = p /\ dependencyType x = DepBuiltin
              /\ usage x = ["include"])
    (extractGenericRelationships content p (emptyRelationships p t)).
Proof.
  unfold extractGenericRelationships. cbv zeta.
  apply fold_left_invariant; [|apply inv_empty].
  intros a i Ha. apply inv_genericLine; try exact Ha.
  - intros x Hx. exact Hx.
  - intros target. repeat split.
Qed.

(** X4: whatever the language, the relationships extracted from a file carry
    its path, every import, export, call and dependency relation names that
    file as its source, every call has a non-empty context (the enclosing
    function, or global), and no composition is ever recorded. *)
Theorem X4_relations_name_their_file (env : Env) (content p extension : string) :
  let r := extractRelationships env content p extension in
  rel_filePath r = p
  /\ Forall (fun x => imp_from x = p) (imports r)
  /\ Forall (fun x => exp_from x = p) (exports r)
  /\ Forall (fun x => call_from x = p /\ call_context x <> "") (functionCalls r)
  /\ Forall (fun x => dep_from x = p) (dependencies r)
  /\ compositions r = [].
Proof.
  cbv zeta. unfold extractRelationships. cbv zeta.
  destruct (inList extension jsExtensions); [|destruct (String.eqb extension ".py")].
  - destruct (javascript_relations env content p) as (H0 & H1 & H2 & H3 & H4 & H5 & H6).
    repeat split; try assumption.
    + eapply List.Forall_impl; [|exact H2]. cbn. tauto.
    + eapply List.Forall_impl; [|exact H3]. cbn. tauto.
    + eapply List.Forall_impl; [|exact H5]. cbn. tauto.
  - destruct (python_relations content p (now env)) as (H0 & H1 & H2 & H3 & H4 & H5 & H6).
    repeat split; try assumption.
    + eapply List.Forall_impl; [|exact H1]. cbn. tauto.
    + eapply List.Forall_impl; [|exact H2]. cbn. tauto.
    + eapply List.Forall_impl; [|exact H3]. cbn. tauto.
    + eapply List.Forall_impl; [|exact H5]. cbn. tauto.
  - destruct (generic_relations content p (now env)) as (H0 & H1 & H2 & H3 & H4 & H5 & H6).
    repeat split; try assumption.
    + eapply List.Forall_impl; [|exact H1]. cbn. tauto.
    + eapply List.Forall_impl; [|exact H2]. cbn. tauto.
    + eapply List.Forall_impl; [|exact H3]. cbn. tauto.
    + eapply List.Forall_impl; [|exact H5]. cbn. tauto.
Qed.

(** X5: which relations each extractor can produce.  A JavaScript or
    TypeScript file gives no dependency relation and only direct calls; a
    Python file gives no export and no dependency, only named imports with a
    line number from 1, only method calls on an object, and only extends
    relations; a file of any other language gives no import, export or call,
    only builtin dependencies with usage include, and only extends
    relations. *)
Theorem X5_relations_by_language (env : Env) (content p extension : string) :
  let r := extractRelationships env content p extension in
  if inList extension jsExtensions then
    dependencies r = []
    /\ Forall (fun x => callType x = CallDirect) (functionCalls r)
    /\ Forall (fun x => exportType x <> ExportNamespace) (exports r)
    /\ Forall (fun x => inh_type x <> Mixin) (classInheritance r)
  else if String.eqb extension ".py" then
    exports r = [] /\ dependencies r = []
    /\ Forall (fun x => importType x = ImportNamed
                        /\ exists n, imp_lineNumber x = Some n /\ 1 <= n) (imports r)
    /\ Forall (fun x => callType x = CallMethod /\ is_Some (call_object x))
              (functionCalls r)
    /\ Forall (fun x => inh_type x = Extends) (classInheritance r)
  else
    imports r = [] /\ exports r = [] /\ functionCalls r = []
    /\ Forall (fun x => dependencyType x = DepBuiltin /\ usage x = ["include"])
              (dependencies r)
    /\ Forall (fun x => inh_type x = Extends) (classInheritance r).
Proof.
  cbv zeta. unfold extractRelationships. cbv zeta.
  destruct (inList extension jsExtensions); [|destruct (String.eqb extension ".py")].
  - destruct (javascript_relations env content p) as (H0 & H1 & H2 & H3 & H4 & H5 & H6).
    split; [apply Forall_False_nil; exact H5|]. split; [|split].
    + eapply List.Forall_impl; [|exact H3]. cbn. tauto.
    + eapply List.Forall_impl; [|exact H2]. cbn. tauto.
    + exact H4.
  - destruct (python_relations content p (now env)) as (H0 & H1 & H2 & H3 & H4 & H5 & H6).
    split; [apply Forall_False_nil; exact H2|].
    split; [apply Forall_False_nil; exact H5|]. split; [|split].
    + eapply List.Forall_impl; [|exact H1]. cbn. tauto.
    + eapply List.Forall_impl; [|exact H3]. cbn. tauto.
    + exact H4.
  - destruct (generic_relations content p (now env)) as (H0 & H1 & H2 & H3 & H4 & H5 & H6).
    split; [apply Forall_False_nil; exact H1|].
    split; [apply Forall_False_nil; exact H2|].
    split; [apply Forall_False_nil; exact H3|]. split.
    + eapply List.Forall_impl; [|exact H5]. cbn. tauto.
    + exact H4.
Qed.

End RelationshipTheorems.

Section GraphLogFacts.
Import GraphitiClient.

Lemma fold_left_snoc {A B} (g : A -> B) (xs : list A) (acc : list B) :
  fold_left (fun l x => (l ++ [g x])%list) xs acc = (acc ++ map g xs)%list.
Proof.
  revert acc. induction xs as [|x xs IH]; intros acc; cbn.
  - rewrite app_nil_r. reflexivity.
  - rewrite IH, <- app_assoc. reflexivity.
Qed.

(** Storing relationships keeps the requests already sent. *)
Lemma storeFileRelationships_extends
  (log : list GraphRequest) (path : string) (rels : CodeRelationships) :
  exists added, storeFileRelationships log path rels = (log ++ added)%list.
Proof.
  unfold storeFileRelationships, storeRelationship. cbv zeta.
  rewrite !fold_left_snoc, <- !app_assoc. eexists. reflexivity.
Qed.

(** X6: storing the relationships of a file appends to the requests already
    sent, in this order, one request per import, per export, per call, per
    inheritance relation and per dependency, and nothing else; every export
    edge points to the target external, an inheritance that is not an
    extends is stored as implements, and only dependencies carry an explicit
    weight (0.8 when local, 0.4 otherwise). *)
Theorem X6_storeFileRelationships_appends
  (log : list GraphRequest) (path : string) (rels : CodeRelationships) :
  storeFileRelationships log path rels
  = (log
    ++ map (fun x => StoreRelationship (imp_from x) (imp_to x) imports_t None)
           (imports rels)
    ++ map (fun x => StoreRelationship (exp_from x) "external" exports_t None)
           (exports rels)
    ++ map (fun x => StoreRelationship (call_from x) (call_to x) calls_t None)
           (functionCalls rels)
    ++ map (fun x => StoreRelationship (inh_from x) (inh_to x)
                       (match inh_type x with
                        | Extends => extends_t
                        | _ => implements_t
                        end) None)
           (classInheritance rels)
    ++ map (fun x => StoreRelationship (dep_from x) (dep_to x) depends_on_t
                       (Some (match dependencyType x with
                              | DepLocal => 0.8
                              | _ => 0.4
                              end)%Q))
           (dependencies rels))%list.
Proof.
  unfold storeFileRelationships, storeRelationship. cbv zeta.
  rewrite (fold_left_snoc
             (fun x => StoreRelationship (dep_from x) (dep_to x) depends_on_t
                         (Some (match dependencyType x with
                                | DepLocal => 0.8
                                | _ => 0.4
                                end)%Q))).
  rewrite (fold_left_snoc
             (fun x => StoreRelationship (inh_from x) (inh_to x)
                         (match inh_type x with
                          | Extends => extends_t
                          | _ => implements_t
                          end) None)).
  rewrite (fold_left_snoc
             (fun x => StoreRelationship (call_from x) (call_to x) calls_t None)).
  rewrite (fold_left_snoc
             (fun x => StoreRelationship (exp_from x) "external" exports_t None)).
  rewrite (fold_left_snoc
             (fun x => StoreRelationship (imp_from x) (imp_to x) imports_t None)).
  rewrite <- !app_assoc. reflexivity.
Qed.

End GraphLogFacts.

Section UpdateTheorems.
Import CodeAnalyzer Processor.

(** X7: a creation or a modification never succeeds.  When the path passes
    validation and the change is a creation or a modification, [updateFile]
    hands the file to [processFile], which returns the null representation
    for every file; the result is the failure "Failed to process file" with
    the path, and the cache and the requests sent to the graph store are
    exactly as before. *)
Theorem X7_create_or_modify_never_succeeds
  (config : SACLConfig) (env : Env) (st : ProcessorState) (path : string)
  (changeType : ChangeType) :
  validateFilePath config path = true ->
  changeType = created \/ changeType = modified ->
  updateFile config env st path changeType
  = ({| success := false; message := "Failed to process file " ++ path |}, st).
Proof.
  intros Hvalid Hkind. unfold updateFile. rewrite Hvalid. cbn [negb].
  destruct Hkind as [-> | ->]; rewrite processFile_null; destruct st; reflexivity.
Qed.

Lemma X7_create_or_modify_never_succeeds_witness :
  updateFile Scenario.config (Scenario.envA "/workspace") Scenario.emptyState
    "/workspace/a.js" created
  = ({| success := false; message := "Failed to process file /workspace/a.js" |},
     Scenario.emptyState).
Proof.
  exact (X7_create_or_modify_never_succeeds Scenario.config
           (Scenario.envA "/workspace") Scenario.emptyState "/workspace/a.js"
           created eq_refl (or_introl eq_refl)).
Defined.

(** X8: deleting a path that passes validation always succeeds, whether or
    not the file was known: afterwards the cache has no entry for the path,
    every other entry is as before, and exactly one deletion request for the
    path has been added to those sent to the graph store. *)
Theorem X8_delete_removes_the_entry
  (config : SACLConfig) (env : Env) (st : ProcessorState) (path : string) :
  validateFilePath config path = true ->
  let r := updateFile config env st path deleted in
  success (fst r) = true
  /\ cache (snd r) !! path = None
  /\ (forall other, other <> path -> cache (snd r) !! other = cache st !! other)
  /\ graphLog (snd r) = (graphLog st ++ [DeleteFileRelationships path])%list.
Proof.
  intros Hvalid. cbv zeta. unfold updateFile. rewrite Hvalid.
  cbn [negb fst snd success cache graphLog].
  split; [reflexivity|]. split; [apply lookup_delete_eq|]. split; [|reflexivity].
  intros other Hne. apply lookup_delete_ne. congruence.
Qed.

Lemma X8_delete_removes_the_entry_witness :
  cache (snd (updateFile Scenario.config (Scenario.envA "/workspace")
                Scenario.emptyState "/workspace/a.js" deleted))
  !! "/workspace/a.js" = None.
Proof.
  exact (proj1 (proj2 (X8_delete_removes_the_entry Scenario.config
                         (Scenario.envA "/workspace") Scenario.emptyState
                         "/workspace/a.js" eq_refl))).
Defined.

(** X9: an update is all or nothing and local: when [updateFile] reports a
    failure (rejected path, file that cannot be processed, unknown change
    type) the cache and the requests sent to the graph store are exactly as
    before; whatever the outcome, the cache entries of all other paths are
    untouched and the earlier requests to the graph store are kept, new ones
    being added after them. *)
Theorem X9_update_is_local_and_all_or_nothing
  (config : SACLConfig) (env : Env) (st : ProcessorState) (path : string)
  (changeType : ChangeType) :
  let r := updateFile config env st path changeType in
  (success (fst r) = false -> snd r = st)
  /\ (forall other, other <> path -> cache (snd r) !! other = cache st !! other)
  /\ exists added, graphLog (snd r) = (graphLog st ++ added)%list.
Proof.
  cbv zeta. unfold updateFile.
  destruct (validateFilePath config path); cbn [negb].
  2:{ cbn. split; [reflexivity|]. split; [reflexivity|].
      exists []. rewrite app_nil_r. reflexivity. }
  destruct changeType; rewrite ?processFile_null;
    cbn [fst snd success cache graphLog].
  - split; [intros _; destruct st; reflexivity|]. split; [reflexivity|].
    exists []. rewrite app_nil_r. reflexivity.
  - split; [intros _; destruct st; reflexivity|]. split; [reflexivity|].
    exists []. rewrite app_nil_r. reflexivity.
  - split; [discriminate|]. split.
    + intros other Hne. apply lookup_delete_ne. congruence.
    + eexists. reflexivity.
  - split; [reflexivity|]. split; [reflexivity|].
    exists []. rewrite app_nil_r. reflexivity.
Qed.

End UpdateTheorems.

Section BatchTheorems.
Import CodeAnalyzer Processor.

Lemma batch_fold (config : SACLConfig) (env : Env)
  (files : list (string * ChangeType)) :
  forall b : Batch.BatchState,
    let b' := fold_left (Batch.batchStep config env) files b in
    let rs := fst (updateFiles config env (Batch.b_state b) files) in
    Batch.b_state b' = snd (updateFiles config env (Batch.b_state b) files)
    /\ Batch.b_results b' = (Batch.b_results b ++ rs)%list
    /\ Batch.b_successful b'
       = Batch.b_successful b + Z.of_nat (length (List.filter Batch.succeeded rs))
    /\ Batch.b_failed b'
       = Batch.b_failed b
         + Z.of_nat (length (List.filter (fun x => negb (Batch.succeeded x)) rs)).
Proof.
  induction files as [|[path changeType] files IH]; intros b; cbv zeta.
  - cbn. rewrite app_nil_r. repeat split; lia.
  - destruct (updateFile config env (Batch.b_state b) path changeType)
      as [result st1] eqn:E1.
    assert (S : Batch.batchStep config env b (path, changeType)
                = {| Batch.b_state := st1;
                     Batch.b_results := (Batch.b_results b ++ [(path, result)])%list;
                     Batch.b_successful :=
                       if success result then Batch.b_successful b + 1
                       else Batch.b_successful b;
                     Batch.b_failed :=
                       if success result then Batch.b_failed b
                       else Batch.b_failed b + 1 |}).
    { unfold Batch.batchStep. cbn [fst snd]. rewrite E1. reflexivity. }
    cbn [fold_left updateFiles]. rewrite E1, S.
    specialize (IH {| Batch.b_state := st1;
                      Batch.b_results := (Batch.b_results b ++ [(path, result)])%list;
                      Batch.b_successful :=
                        if success result then Batch.b_successful b + 1
                        else Batch.b_successful b;
                      Batch.b_failed :=
                        if success result then Batch.b_failed b
                        else Batch.b_failed b + 1 |}).
    cbv zeta in IH.
    cbn [Batch.b_state Batch.b_results Batch.b_successful Batch.b_failed] in IH.
    destruct (updateFiles config env st1 files) as [results st2] eqn:E2.
    cbn [fst snd] in IH |- *.
    destruct IH as (H1 & H2 & H3 & H4).
    split; [exact H1|]. split; [rewrite H2, <- app_assoc; reflexivity|].
    unfold Batch.succeeded in *. cbn [List.filter snd].
    rewrite H3, H4. destruct (success result); cbn [negb length]; lia.
Qed.

Lemma updateFiles_paths (config : SACLConfig) (env : Env)
  (files : list (string * ChangeType)) :
  forall st, map fst (fst (updateFiles config env st files)) = map fst files.
Proof.
  induction files as [|[path changeType] files IH]; intros st; [reflexivity|].
  cbn [updateFiles].
  destruct (updateFile config env st path changeType) as [result st1].
  specialize (IH st1). destruct (updateFiles config env st1 files) as [results st2].
  cbn in IH |- *. rewrite IH. reflexivity.
Qed.

Lemma updateFiles_app (config : SACLConfig) (env : Env)
  (first second : list (string * ChangeType)) :
  forall st,
    updateFiles config env st (first ++ second)%list
    = let r1 := updateFiles config env st first in
      let r2 := updateFiles config env (snd r1) second in
      ((fst r1 ++ fst r2)%list, snd r2).
Proof.
  induction first as [|[path changeType] first IH]; intros st; cbv zeta.
  - cbn. destruct (updateFiles config env st second). reflexivity.
  - cbn [app updateFiles].
    destruct (updateFile config env st path changeType) as [result st1].
    rewrite IH. cbv zeta.
    destruct (updateFiles config env st1 first) as [results1 st2].
    cbn [fst snd].
    destruct (updateFiles config env st2 second) as [results2 st3].
    reflexivity.
Qed.

(** X10: a batch update reports one result per item, in input order and
    under the item's path; [totalFiles] is the number of items,
    [successfulUpdates] and [failedUpdates] count the results that Batch.succeeded
    and failed, so they add up to [totalFiles]; each item is an [updateFile]
    run in the state its predecessors left (a failing item does not stop
    the batch), so a batch over two lists in sequence is the batch over the
    first followed by the batch over the second. *)
Theorem X10_batch_update_counts_and_order
  (config : SACLConfig) (env : Env) (st : ProcessorState)
  (files more : list (string * ChangeType)) :
  let r := Batch.updateFiles config env st files in
  batch_totalFiles (fst r) = Z.of_nat (length files)
  /\ map fst (batch_results (fst r)) = map fst files
  /\ successfulUpdates (fst r)
     = Z.of_nat (length (List.filter Batch.succeeded (batch_results (fst r))))
  /\ failedUpdates (fst r)
     = Z.of_nat (length (List.filter (fun x => negb (Batch.succeeded x))
                                     (batch_results (fst r))))
  /\ successfulUpdates (fst r) + failedUpdates (fst r) = batch_totalFiles (fst r)
  /\ (batch_results (fst r), snd r) = updateFiles config env st files
  /\ (let r2 := Batch.updateFiles config env (snd r) more in
      let all := Batch.updateFiles config env st (files ++ more)%list in
      batch_results (fst all) = (batch_results (fst r) ++ batch_results (fst r2))%list
      /\ snd all = snd r2).
Proof.
  cbv zeta.
  assert (B : forall st files,
             batch_results (fst (Batch.updateFiles config env st files))
             = fst (updateFiles config env st files)
             /\ snd (Batch.updateFiles config env st files)
                = snd (updateFiles config env st files)
             /\ successfulUpdates (fst (Batch.updateFiles config env st files))
                = Z.of_nat (length (List.filter Batch.succeeded
                                      (fst (updateFiles config env st files))))
             /\ failedUpdates (fst (Batch.updateFiles config env st files))
                = Z.of_nat (length (List.filter (fun x => negb (Batch.succeeded x))
                                      (fst (updateFiles config env st files))))).
  { intros st0 files0. unfold Batch.updateFiles. cbv zeta.
    cbn [fst snd batch_results successfulUpdates failedUpdates].
    pose proof (batch_fold config env files0 (Batch.mkBatchState st0 [] 0 0)) as H.
    cbv zeta in H. cbn [Batch.b_state Batch.b_results Batch.b_successful
                          Batch.b_failed] in H.
    destruct H as (H1 & H2 & H3 & H4). cbn in H2. repeat split; assumption || lia. }
  destruct (B st files) as (R1 & R2 & R3 & R4).
  assert (L : forall l : list (string * UpdateResult),
             (length (List.filter Batch.succeeded l)
              + length (List.filter (fun x => negb (Batch.succeeded x)) l) = length l)%nat).
  { induction l as [|x l IH]; cbn; [reflexivity|].
    destruct (Batch.succeeded x); cbn; lia. }
  split; [reflexivity|]. split; [rewrite R1; apply updateFiles_paths|].
  split; [rewrite R3, R1; reflexivity|]. split; [rewrite R4, R1; reflexivity|].
  split.
  { rewrite R3, R4. cbn [Batch.updateFiles fst batch_totalFiles].
    rewrite <- Nat2Z.inj_add, L.
    rewrite <- (length_map fst), updateFiles_paths, length_map. reflexivity. }
  split.
  { rewrite R1, R2. destruct (updateFiles config env st files). reflexivity. }
  destruct (B (snd (Batch.updateFiles config env st files)) more) as (M1 & M2 & _).
  destruct (B st (files ++ more)%list) as (A1 & A2 & _).
  rewrite A1, A2, M1, M2, R1, R2, updateFiles_app. cbv zeta. split; reflexivity.
Qed.

End BatchTheorems.

Section RepositoryTheorems.
Import CodeAnalyzer Processor.
Local Open Scope Z_scope.

(** X11: a repository run processes nothing.  [totalFiles] is the number of
    code files found, and since [processFile] returns the null
    representation for each of them, [filesProcessed] is 0, no bias is
    detected, the average bias score is the 0 of an empty run, nothing is
    cached and nothing is sent to the graph store: the state after the run
    is the state before it. *)
Theorem X11_repository_run_processes_nothing
  (config : SACLConfig) (env : Env) (st : ProcessorState) :
  let r := processRepository config env st in
  totalFiles (fst r)
  = Z.of_nat (length (findCodeFiles env (repositoryPath config)))
  /\ filesProcessed (fst r) = 0
  /\ biasDetected (fst r) = 0
  /\ averageBiasScore (fst r) = 0%Q
  /\ snd r = st.
Proof.
  cbv zeta. unfold processRepository. cbv zeta.
  assert (F : forall files run, fold_left (processOne config env) files run = run).
  { induction files as [|f files IH]; intros run; cbn [fold_left]; [reflexivity|].
    unfold processOne at 2. rewrite processFile_null.
    destruct run as [[c l] n b s]. apply IH. }
  rewrite F. cbn. repeat split; reflexivity.
Qed.

End RepositoryTheorems.

Section RankingFacts.
Import Reranker.
Context {A : Type} (key : A -> Q).

Local Abbreviation desc := (fun a b : A => (key b <= key a)%Q).

Lemma insertDesc_perm (x : A) (l : list A) :
  Permutation (insertDesc key x l) (x :: l).
Proof.
  induction l as [|y l IH]; cbn; [reflexivity|].
  destruct (Qle_bool (key x) (key y)); [|reflexivity].
  rewrite IH. apply perm_swap.
Qed.

Lemma sortDesc_perm (l : list A) : Permutation (sortDesc key l) l.
Proof.
  unfold sortDesc.
  assert (G : forall acc, Permutation (fold_left (fun acc x => insertDesc key x acc) l acc)
                            (acc ++ l)%list).
  { induction l as [|x l IH]; intros acc; cbn [fold_left].
    - rewrite app_nil_r. reflexivity.
    - rewrite IH, insertDesc_perm. apply Permutation_middle. }
  apply (G []).
Qed.

Lemma insertDesc_sorted (x : A) (l : list A) :
  StronglySorted desc l -> StronglySorted desc (insertDesc key x l).
Proof.
  induction 1 as [|y l Hs IH Hy]; cbn.
  - constructor; constructor.
  - destruct (Qle_bool (key x) (key y)) eqn:E.
    + apply Qle_bool_iff in E. constructor; [exact IH|].
      rewrite insertDesc_perm. constructor; assumption.
    + assert (Hlt : (key y < key x)%Q).
      { apply Qnot_le_lt. intros H. apply Qle_bool_iff in H. congruence. }
      constructor; [constructor; assumption|].
      constructor; [apply Qlt_le_weak; exact Hlt|].
      eapply List.Forall_impl; [|exact Hy]. cbn. intros z Hz.
      apply Qle_trans with (key y); [exact Hz | apply Qlt_le_weak; exact Hlt].
Qed.

Lemma sortDesc_sorted (l : list A) : StronglySorted desc (sortDesc key l).
Proof.
  unfold sortDesc.
  assert (G : forall acc, StronglySorted desc acc ->
                StronglySorted desc (fold_left (fun acc x => insertDesc key x acc) l acc)).
  { induction l as [|x l IH]; intros acc Hacc; cbn [fold_left]; [exact Hacc|].
    apply IH, insertDesc_sorted, Hacc. }
  apply G. constructor.
Qed.

Lemma slice0_firstn (k : Z) (l : list A) :
  slice0 k l
  = firstn (if (k <? 0)%Z then length l - Z.to_nat (- k) else Z.to_nat k)%nat l.
Proof.
  unfold slice0. destruct (k <? 0)%Z eqn:E; [|reflexivity].
  apply Z.ltb_lt in E. f_equal. lia.
Qed.

Lemma sorted_split (n : nat) (l : list A) :
  StronglySorted desc l ->
  StronglySorted desc (firstn n l)
  /\ Forall (fun s => Forall (fun r => (key s <= key r)%Q) (firstn n l)) (skipn n l).
Proof.
  intros Hs. revert n.
  induction Hs as [|x l Hs IH Hx]; intros n.
  - rewrite firstn_nil, skipn_nil. split; constructor.
  - destruct n as [|n]; cbn [firstn skipn].
    + split; [constructor|]. apply List.Forall_forall. intros; constructor.
    + destruct (IH n) as [IH1 IH2]. split.
      * constructor; [exact IH1|].
        apply List.Forall_forall. intros y Hy.
        apply In_firstn_In in Hy.
        exact (proj1 (List.Forall_forall _ _) Hx y Hy).
      * apply List.Forall_forall. intros s Hin. constructor.
        -- apply (proj1 (List.Forall_forall _ _) Hx s).
           rewrite <- (firstn_skipn n l). apply in_or_app. right. exact Hin.
        -- exact (proj1 (List.Forall_forall _ _) IH2 s Hin).
Qed.

(** The best [k] by [key], in descending order. *)
Lemma top_spec (k : Z) (l : list A) :
  let out := slice0 k (sortDesc key l) in
  StronglySorted desc out
  /\ length out
     = (if (k <? 0)%Z then length l - Z.to_nat (- k)
        else Nat.min (Z.to_nat k) (length l))%nat
  /\ exists rest,
       Permutation (out ++ rest) l
       /\ Forall (fun s => Forall (fun r => (key s <= key r)%Q) out) rest.
Proof.
  cbv zeta. rewrite slice0_firstn.
  pose proof (Permutation_length (sortDesc_perm l)) as L. rewrite L.
  set (n := (if (k <? 0)%Z then length l - Z.to_nat (- k) else Z.to_nat k)%nat).
  destruct (sorted_split n _ (sortDesc_sorted l)) as [S1 S2].
  split; [exact S1|]. split.
  { rewrite length_firstn, L. subst n. destruct (k <? 0)%Z; lia. }
  exists (skipn n (sortDesc key l)). split; [|exact S2].
  rewrite firstn_skipn. apply sortDesc_perm.
Qed.

Lemma insertDesc_map {B : Type} (f : B -> A) (x : B) (l : list B) :
  map f (insertDesc (fun b => key (f b)) x l) = insertDesc key (f x) (map f l).
Proof.
  induction l as [|y l IH]; cbn; [reflexivity|].
  destruct (Qle_bool (key (f x)) (key (f y))); cbn; [rewrite IH|]; reflexivity.
Qed.

Lemma sortDesc_map {B : Type} (f : B -> A) (l : list B) :
  map f (sortDesc (fun b => key (f b)) l) = sortDesc key (map f l).
Proof.
  unfold sortDesc.
  assert (G : forall acc,
             map f (fold_left (fun acc x => insertDesc (fun b => key (f b)) x acc) l acc)
             = fold_left (fun acc x => insertDesc key x acc) (map f l) (map f acc)).
  { induction l as [|x l IH]; intros acc; cbn [fold_left map]; [reflexivity|].
    rewrite IH, insertDesc_map. reflexivity. }
  apply (G []).
Qed.

End RankingFacts.

Lemma slice0_map {A B : Type} (f : A -> B) (k : Z) (l : list A) :
  map f (Reranker.slice0 k l) = Reranker.slice0 k (map f l).
Proof.
  unfold Reranker.slice0. rewrite length_map.
  destruct (k <? 0)%Z; symmetry; apply firstn_map.
Qed.

Section RankingTheorems.
Import Reranker.
Local Open Scope Q_scope.

(** X12: for a query of plain words and candidates whose bias score is not
    10 (elsewhere a score is not a number: a token naming an inherited
    member, weights that sum to zero), [rerank] scores every candidate and
    returns the [topK] best by bias-adjusted score in descending order: the
    results are sorted, their number is the smaller of [topK] and the number
    of candidates (a negative [topK] drops that many from the end instead),
    they are scored candidates (none is invented or returned twice), and no
    candidate left out scores higher than one returned. *)
Theorem X12_rerank_returns_the_best_in_order
  (initialResults : list CodeRepresentation) (query : string) (topK : Z) :
  QueryWords.plainQuery query = true ->
  Forall (fun c => ~ biasScore c == 10) initialResults ->
  let out := rerank initialResults query topK in
  StronglySorted (fun a b => biasAdjustedScore b <= biasAdjustedScore a) out
  /\ length out
     = (if (topK <? 0)%Z then length initialResults - Z.to_nat (- topK)
        else Nat.min (Z.to_nat topK) (length initialResults))%nat
  /\ exists rest,
       Permutation (out ++ rest) (map (scoreResult query) initialResults)
       /\ Forall (fun s => Forall (fun r => biasAdjustedScore s <= biasAdjustedScore r)
                             out) rest.
Proof.
  intros _ _. cbv zeta. unfold rerank. cbv zeta.
  pose proof (top_spec biasAdjustedScore topK (map (scoreResult query) initialResults))
    as H.
  cbv zeta in H. rewrite length_map in H. exact H.
Qed.

Lemma X12_rerank_returns_the_best_in_order_witness :
  length (rerank (GraphitiClient.createMockSearchResults
                    (Scenario.envA "/workspace") "sort" 2) "sort" 1)
  = 1%nat.
Proof.
  refine (proj1 (proj2
            (X12_rerank_returns_the_best_in_order
               (GraphitiClient.createMockSearchResults
                  (Scenario.envA "/workspace") "sort" 2) "sort" 1 _ _))).
  - vm_compute. reflexivity.
  - repeat constructor; intros H; vm_compute in H; discriminate H.
Defined.

(** X13: reranking with relationship context ranks exactly as plain
    reranking does: dropping the context from its results gives the results
    of [rerank], whether or not a graph client is present; without a client
    the context is empty, with one every result carries the related
    components of its own file and a dependency chain that starts with that
    file and has at most three more entries. *)
Theorem X13_context_reranking_keeps_the_ranking
  (graphitiClient : bool) (log : list GraphRequest)
  (initialResults : list CodeRepresentation) (query : string) (topK : Z) :
  let out := rerankWithContext graphitiClient log initialResults query topK in
  map basic out = rerank initialResults query topK
  /\ Forall (fun r =>
               if graphitiClient then
                 e_relatedComponents r
                 = GraphitiClient.getRelatedComponents log
                     (filePath (codeSnippet (basic r)))
                     {| p_maxDepth := Some 2%Z; p_relationshipTypes := None;
                        p_minRelevanceScore := None; p_includeReverse := None;
                        p_weightings := None |}
                 /\ (exists chain,
                        dependencyChain r = filePath (codeSnippet (basic r)) :: chain
                        /\ (length chain <= 3)%nat
                        /\ incl chain (map rc_filePath (e_relatedComponents r)))
               else e_relatedComponents r = [] /\ dependencyChain r = [])
            out.
Proof.
  cbv zeta. unfold rerankWithContext. destruct graphitiClient; cbn [negb].
  - cbv zeta. split.
    + rewrite slice0_map.
      rewrite (sortDesc_map biasAdjustedScore basic).
      unfold rerank. cbv zeta. rewrite map_map. reflexivity.
    + apply List.Forall_forall. intros r Hr.
      rewrite slice0_firstn in Hr. apply In_firstn_In in Hr.
      apply (Permutation_in _ (sortDesc_perm _ _)) in Hr.
      apply in_map_iff in Hr. destruct Hr as (c & <- & _).
      cbn [basic e_relatedComponents dependencyChain scoreResult codeSnippet].
      split; [reflexivity|].
      unfold buildDependencyChain. eexists. split; [reflexivity|]. split.
      * rewrite length_map, slice0_firstn, length_firstn. cbn. lia.
      * intros p Hp. apply in_map_iff in Hp. destruct Hp as (x & <- & Hx).
        apply in_map. rewrite slice0_firstn in Hx. apply In_firstn_In in Hx.
        apply (Permutation_in _ (sortDesc_perm _ _)) in Hx.
        apply filter_In in Hx. tauto.
  - split.
    + rewrite map_map. cbn. apply map_id.
    + apply List.Forall_forall. intros r Hr.
      apply in_map_iff in Hr. destruct Hr as (c & <- & _). split; reflexivity.
Qed.

End RankingTheorems.

Section ScoreFacts.
Import Reranker.
Local Open Scope Q_scope.

Lemma splitFrom_nonempty (fuel : nat) (r : Regex.re) (p : option ascii)
  (l : list ascii) : Regex.splitFrom fuel r p l <> [].
Proof.
  destruct fuel as [|fuel]; cbn; [discriminate|].
  destruct (Regex.search r p l 0) as [m|]; [|discriminate].
  destruct (Regex.m_text m); discriminate.
Qed.

Lemma tokens_nonempty (query : string) : tokens query <> [].
Proof. apply splitFrom_nonempty. Qed.

Lemma ratio_range (k n : nat) :
  (k <= n)%nat ->
  0 <= inject_Z (Z.of_nat k) / inject_Z (Z.of_nat n) <= 1.
Proof.
  intros Hk. destruct n as [|n].
  - assert (k = 0%nat) as -> by lia. split; discriminate.
  - assert (Hn : 0 < inject_Z (Z.of_nat (S n))).
    { rewrite <- (Zlt_Qlt 0). lia. }
    split.
    + apply Qle_shift_div_l; [exact Hn|]. rewrite Qmult_0_l.
      rewrite <- (Zle_Qle 0). lia.
    + apply Qle_shift_div_r; [exact Hn|]. rewrite Qmult_1_l.
      rewrite <- Zle_Qle. lia.
Qed.

Lemma fraction_range {A} (p : A -> bool) (l : list A) : 0 <= fraction p l <= 1.
Proof. apply ratio_range, length_filter. Qed.

End ScoreFacts.

Section ScoreTheorems.
Import Reranker.
Local Open Scope Q_scope.

(** X14: a query always has at least one token, so the similarity ratios
    never divide by zero; the textual similarity, the semantic similarity
    (after its boost by 1.2 and its cap) and the behaviour alignment of any
    code and query lie between 0 and 1, and so do the [originalScore] and
    [semanticScore] of every scored result. *)
Theorem X14_similarities_in_unit_interval
  (code : CodeRepresentation) (query pattern : string) :
  tokens query <> []
  /\ 0 <= calculateTextualSimilarity code query <= 1
  /\ 0 <= semanticCalculate code query <= 1
  /\ 0 <= scoreBehaviorAlignment query pattern <= 1
  /\ 0 <= originalScore (scoreResult query code) <= 1
  /\ 0 <= semanticScore (scoreResult query code) <= 1.
Proof.
  assert (T : 0 <= calculateTextualSimilarity code query <= 1)
    by apply fraction_range.
  assert (S : 0 <= semanticCalculate code query <= 1).
  { unfold semanticCalculate. cbv zeta.
    match goal with |- context [fraction ?p ?l] =>
      pose proof (fraction_range p l) as [F1 F2]; set (x := fraction p l) in * end.
    split; [apply Q.min_glb; lra|].
    eapply Qle_trans; [apply Q.le_min_l | lra]. }
  split; [apply tokens_nonempty|]. split; [exact T|]. split; [exact S|].
  split; [|split; [exact T | exact S]].
  unfold scoreBehaviorAlignment. cbv zeta.
  destruct (_ || _)%bool; [split; discriminate|].
  apply ratio_range.
  match goal with |- (length (List.filter ?p ?l) <= _)%nat =>
    pose proof (filter_length_le p l) end.
  lia.
Qed.

(** X15: for a bias score of at most 2 the combined score is a weighted mean
    with non-negative weights, so it lies between any bounds that hold for
    the three similarities; in particular it is at most their greatest and
    at least their least. *)
Theorem X15_combined_score_between_similarities
  (textualSim semanticSim functionalSim biasScore lo hi : Q) :
  biasScore <= 2 ->
  lo <= textualSim <= hi -> lo <= semanticSim <= hi -> lo <= functionalSim <= hi ->
  lo <= combineScores textualSim semanticSim functionalSim biasScore <= hi.
Proof.
  intros Hb [Ht1 Ht2] [Hs1 Hs2] [Hf1 Hf2]. unfold combineScores.
  assert (Hw : 0 <= textualWeight biasScore).
  { rewrite textualWeight_eq. lra. }
  assert (Hn : normalizedWeights biasScore == textualWeight biasScore + 0.8).
  { unfold normalizedWeights, semanticWeight, functionalWeight. ring. }
  assert (Hd : 0 < normalizedWeights biasScore) by (rewrite Hn; lra).
  pose proof (Qmult_le_compat_r _ _ _ Ht1 Hw) as L.
  pose proof (Qmult_le_compat_r _ _ _ Ht2 Hw) as U.
  unfold semanticWeight, functionalWeight.
  split.
  - apply Qle_shift_div_l; [exact Hd|]. rewrite Hn. lra.
  - apply Qle_shift_div_r; [exact Hd|]. rewrite Hn. lra.
Qed.

Lemma X15_combined_score_between_similarities_witness :
  0 <= combineScores 0.9 0.5 0.5 0.8 <= 1.
Proof.
  apply (X15_combined_score_between_similarities 0.9 0.5 0.5 0.8 0 1); lra.
Defined.

End ScoreTheorems.

Section LocalizerFacts.
Import Reranker.
Local Open Scope nat_scope.

Lemma blockEndFrom_range (startIndent : nat) (remaining : list string) :
  forall i total,
    1 <= i -> i + length remaining = total ->
    i - 1 <= blockEndFrom startIndent remaining i total <= total - 1.
Proof.
  induction remaining as [|l remaining IH]; intros i total Hi Ht; cbn in *.
  - lia.
  - specialize (IH (S i) total ltac:(lia) ltac:(lia)).
    destruct (String.eqb (Js.trim l) ""); [lia|].
    destruct (_ && _)%bool; lia.
Qed.

Lemma findBlockEnd_range (lines : list string) (startLine : nat) :
  startLine < length lines ->
  startLine <= findBlockEnd lines startLine <= length lines - 1.
Proof.
  intros H. unfold findBlockEnd. cbv zeta.
  pose proof (blockEndFrom_range (indentOf (nth startLine lines ""))
                (skipn (S startLine) lines) (S startLine) (length lines)
                ltac:(lia)) as B.
  rewrite length_skipn in B. specialize (B ltac:(lia)). lia.
Qed.

Lemma take_length (n : nat) (s : string) : String.length (Js.take n s) <= n.
Proof.
  unfold Js.take. revert s. induction n as [|n IH]; intros [|c s]; cbn; try lia.
  specialize (IH s). lia.
Qed.

Lemma append_length (a b : string) :
  String.length (a ++ b) = String.length a + String.length b.
Proof.
  induction a as [|c a IH]; [reflexivity|].
  change (S (String.length (a ++ b)) = S (String.length a + String.length b)).
  rewrite IH. reflexivity.
Qed.

End LocalizerFacts.

Section LocalizerTheorems.
Import Reranker.
Local Open Scope Q_scope.

(** X16: localisation returns at most three regions, in descending order of
    relevance; each starts on a line that opens a definition, has line
    numbers counted from 1 with [startLine <= endLine] and [endLine] at most
    the number of lines of the content, a relevance above 0.3 and at most 1,
    and a snippet of at most 203 characters (200 and the ellipsis). *)
Theorem X16_localized_regions_are_well_formed
  (code : CodeRepresentation) (query : string) :
  let lines := Js.lines (content code) in
  let regions := localize code query in
  (length regions <= 3)%nat
  /\ StronglySorted (fun a b => region_relevanceScore b <= region_relevanceScore a)
       regions
  /\ Forall (fun r =>
               (1 <= startLine r <= endLine r)%Z
               /\ (endLine r <= Z.of_nat (length lines))%Z
               /\ Regex.test definitionPattern
                    (nth (Z.to_nat (startLine r - 1)) lines "") = true
               /\ 0.3 < region_relevanceScore r <= 1
               /\ (String.length (snippet r) <= 203)%nat)
            regions.
Proof.
  cbv zeta. unfold localize. cbv zeta.
  set (lines := Js.lines (content code)).
  set (regions := flat_map (regionAt lines query) (seq 0 (length lines))).
  pose proof (top_spec region_relevanceScore 3 regions) as (S1 & S2 & _).
  split; [rewrite S2; cbn; lia|]. split; [exact S1|].
  apply List.Forall_forall. intros r Hr.
  rewrite slice0_firstn in Hr. apply In_firstn_In in Hr.
  apply (Permutation_in _ (sortDesc_perm _ _)) in Hr.
  apply in_flat_map in Hr. destruct Hr as (i & Hi & Hr).
  apply in_seq in Hi. unfold regionAt in Hr. cbv zeta in Hr.
  destruct (Regex.test definitionPattern (nth i lines "")) eqn:Et; [|destruct Hr].
  destruct (Qle_bool _ 0.3) eqn:Es; [destruct Hr|].
  destruct Hr as [<-|[]].
  cbn [startLine endLine region_relevanceScore snippet].
  pose proof (findBlockEnd_range lines i ltac:(lia)) as B.
  split; [lia|]. split; [lia|].
  split; [replace (Z.to_nat (Z.of_nat i + 1 - 1)) with i by lia; exact Et|].
  split.
  - split; [|apply fraction_range].
    apply Qnot_le_lt. intros H. apply Qle_bool_iff in H. congruence.
  - rewrite append_length. pose proof (take_length 200 (Js.join SemanticAugmenter.nl
        (firstn (S (findBlockEnd lines i) - i) (skipn i lines)))) as T.
    destruct (Nat.ltb 200 _); cbn [String.length]; lia.
Qed.

End LocalizerTheorems.

Section FileListFacts.
Import CodeAnalyzer.

Lemma string_leb_trans (a b c : string) :
  String.leb a b = true -> String.leb b c = true -> String.leb a c = true.
Proof.
  unfold String.leb. revert b c.
  induction a as [|x a IH]; intros [|y b] [|z c]; cbn; try congruence.
  unfold Ascii.compare.
  destruct (N.compare_spec (N_of_ascii x) (N_of_ascii y)) as [E1|L1|G1];
    destruct (N.compare_spec (N_of_ascii y) (N_of_ascii z)) as [E2|L2|G2];
    destruct (N.compare_spec (N_of_ascii x) (N_of_ascii z)) as [E3|L3|G3];
    try congruence; try lia.
  apply IH.
Qed.

Lemma insertSorted_perm (x : string) (l : list string) :
  Permutation (insertSorted x l) (x :: l).
Proof.
  induction l as [|y l IH]; cbn; [reflexivity|].
  destruct (String.leb x y); [reflexivity|].
  rewrite IH. apply perm_swap.
Qed.

Lemma sortStrings_perm (l : list string) : Permutation (sortStrings l) l.
Proof.
  induction l as [|x l IH]; cbn; [reflexivity|].
  rewrite insertSorted_perm, IH. reflexivity.
Qed.

Lemma insertSorted_sorted (x : string) (l : list string) :
  StronglySorted (fun a b => String.leb a b = true) l ->
  StronglySorted (fun a b => String.leb a b = true) (insertSorted x l).
Proof.
  induction 1 as [|y l Hs IH Hy]; cbn.
  - constructor; constructor.
  - destruct (String.leb x y) eqn:E.
    + constructor; [constructor; assumption|].
      constructor; [exact E|].
      eapply List.Forall_impl; [|exact Hy]. cbn. intros z Hz.
      exact (string_leb_trans x y z E Hz).
    + constructor; [exact IH|].
      rewrite insertSorted_perm. constructor; [|exact Hy].
      destruct (String.leb_total x y) as [H|H]; [congruence | exact H].
Qed.

Lemma sortStrings_sorted (l : list string) :
  StronglySorted (fun a b => String.leb a b = true) (sortStrings l).
Proof.
  induction l as [|x l IH]; cbn; [constructor|].
  apply insertSorted_sorted, IH.
Qed.

End FileListFacts.

Section FileListTheorems.
Import CodeAnalyzer.

(** X17: the list of code files of a repository has no duplicates, is in
    ascending order, and holds exactly the paths that the search returned
    for one of the supported extensions; so a path found under two
    patterns is processed once. *)
Theorem X17_code_files_sorted_and_distinct (env : Env) (repositoryPath : string) :
  let found := findCodeFiles env repositoryPath in
  List.NoDup found
  /\ StronglySorted (fun a b => String.leb a b = true) found
  /\ (forall p,
        In p found
        <-> exists ext,
              In ext supportedExtensions
              /\ In p (glob env (NodePath.join [repositoryPath; "**"; "*" ++ ext]))).
Proof.
  cbv zeta. unfold findCodeFiles. cbv zeta.
  set (allFiles := flat_map (glob env) _).
  destruct (unique_spec allFiles []) as [Hnd Hin].
  split.
  { eapply Permutation_NoDup; [symmetry; apply sortStrings_perm | exact Hnd]. }
  split; [apply sortStrings_sorted|].
  intros p. split.
  - intros H. apply (Permutation_in _ (sortStrings_perm _)) in H.
    apply Hin in H. destruct H as [H _]. apply in_flat_map in H.
    destruct H as (pattern & Hp & Hg). apply in_map_iff in Hp.
    destruct Hp as (ext & <- & Hext). exists ext. split; assumption.
  - intros (ext & Hext & Hg).
    apply (Permutation_in _ (Permutation_sym (sortStrings_perm _))).
    apply Hin. split; [|intros []]. apply in_flat_map.
    eexists. split; [|exact Hg].
    apply (in_map (fun ext => NodePath.join [repositoryPath; "**"; "*" ++ ext])).
    exact Hext.
Qed.

End FileListTheorems.

Section ValidationFacts.

Lemma replaceChar_cons (c d x : ascii) (s : string) :
  Js.replaceChar c d (String x s)
  = String (if Ascii.eqb x c then d else x) (Js.replaceChar c d s).
Proof. reflexivity. Qed.

Lemma replaceChar_append (c d : ascii) (a b : string) :
  Js.replaceChar c d (a ++ b) = Js.replaceChar c d a ++ Js.replaceChar c d b.
Proof.
  induction a as [|x a IH]; [reflexivity|].
  change (String x a ++ b) with (String x (a ++ b)).
  rewrite !replaceChar_cons, IH. reflexivity.
Qed.

Lemma replaceChar_idempotent (c d : ascii) (s : string) :
  c <> d -> Js.replaceChar c d (Js.replaceChar c d s) = Js.replaceChar c d s.
Proof.
  intros Hcd. induction s as [|x s IH]; [reflexivity|].
  rewrite !replaceChar_cons, IH. f_equal.
  destruct (Ascii.eqb x c) eqn:E; [|rewrite E; reflexivity].
  destruct (Ascii.eqb d c) eqn:E'; [|reflexivity].
  apply Ascii.eqb_eq in E'. congruence.
Qed.

Lemma prefix_append (a b : string) : String.prefix a (a ++ b) = true.
Proof.
  induction a as [|x a IH]; [destruct b; reflexivity|].
  change (String x a ++ b) with (String x (a ++ b)). cbn [String.prefix].
  destruct (Ascii.ascii_dec x x); [exact IH | contradiction].
Qed.

End ValidationFacts.

Section ValidationTheorems.
Import Processor.

(** X18: path validation is a test on strings, after backslashes are read as
    slashes: a path passes exactly when it starts with the repository path
    or does not start with a slash (the test for a leading [./] adds
    nothing); so every path that extends the repository path as a string
    passes, a sibling directory whose name extends the repository's
    included, and a path passes exactly when its form with slashes does. *)
Theorem X18_validation_is_a_string_prefix_test
  (config : SACLConfig) (filePath suffix : string) :
  let norm := Js.replaceChar Js.backslash "/"%char in
  validateFilePath config filePath
  = (Js.startsWith (norm filePath) (norm (repositoryPath config))
     || negb (Js.startsWith (norm filePath) "/"))%bool
  /\ validateFilePath config (repositoryPath config ++ suffix) = true
  /\ validateFilePath config (norm filePath) = validateFilePath config filePath.
Proof.
  cbv zeta.
  assert (E : forall p,
             validateFilePath config p
             = (Js.startsWith (Js.replaceChar Js.backslash "/" p)
                  (Js.replaceChar Js.backslash "/" (repositoryPath config))
                || negb (Js.startsWith (Js.replaceChar Js.backslash "/" p) "/"))%bool).
  { intros p. unfold validateFilePath. cbv zeta.
    destruct (Js.startsWith _ (Js.replaceChar _ _ (repositoryPath config)));
      [reflexivity|]. cbn [orb].
    unfold Js.startsWith.
    destruct (Js.replaceChar Js.backslash "/" p) as [|c s]; [reflexivity|].
    cbn [String.prefix].
    destruct (Ascii.ascii_dec "." c) as [<-|]; [|reflexivity].
    destruct (Ascii.ascii_dec "/" ".") as [H|_]; [discriminate H|].
    apply orb_true_r. }
  split; [apply E|]. split.
  - rewrite E, replaceChar_append. unfold Js.startsWith.
    rewrite prefix_append. reflexivity.
  - rewrite !E, replaceChar_idempotent by discriminate. reflexivity.
Qed.

End ValidationTheorems.

Section AugmenterFacts.
Import SemanticAugmenter.
Local Open Scope Q_scope.

Lemma pick_nonempty (lines : list string) (p : string -> bool) (fallback : string) :
  fallback <> "" -> pick lines p fallback <> "".
Proof.
  intros H. unfold pick. destruct (List.find p lines) as [line|]; [|exact H].
  destruct (Regex.replace bulletPrefix _ line); [exact H | discriminate].
Qed.

Lemma combineEmbeddings_nth (baseEmbedding semanticEmbedding : list Q) (i : nat) :
  nth i (combineEmbeddings baseEmbedding semanticEmbedding) 0
  == nth i baseEmbedding 0 * 0.3 + nth i semanticEmbedding 0 * 0.7.
Proof.
  unfold combineEmbeddings. cbv zeta.
  set (n := Nat.max (length baseEmbedding) (length semanticEmbedding)).
  set (f := fun i : nat => nth i baseEmbedding 0 * 0.3 + nth i semanticEmbedding 0 * 0.7).
  destruct (Nat.lt_ge_cases i n) as [Hlt|Hge].
  - rewrite (nth_indep _ 0 (f 0%nat)) by (rewrite length_map, length_seq; exact Hlt).
    rewrite (map_nth f), seq_nth by exact Hlt. reflexivity.
  - rewrite nth_overflow by (rewrite length_map, length_seq; exact Hge).
    rewrite !nth_overflow by lia. reflexivity.
Qed.

Lemma augment_nonempty (env : Env) (code : CodeRepresentation) :
  functionalSignature (semanticFeatures (SemanticAugmenter.augmentRepresentation env code))
  <> ""
  /\ behaviorPattern (semanticFeatures (SemanticAugmenter.augmentRepresentation env code))
     <> "".
Proof.
  unfold SemanticAugmenter.augmentRepresentation. cbv zeta.
  destruct (SemanticAugmenter.extractSemanticFeatures env code)
    as [signature pattern] eqn:E.
  cbn [semanticFeatures functionalSignature behaviorPattern].
  unfold SemanticAugmenter.extractSemanticFeatures in E.
  destruct (complete env (SemanticAugmenter.prompt code)) as [response|].
  - cbv zeta in E. injection E as <- <-.
    split; apply pick_nonempty; discriminate.
  - injection E as <- <-. split; discriminate.
Qed.

End AugmenterFacts.

Section AugmenterTheorems.
Import SemanticAugmenter.
Local Open Scope Q_scope.

(** X19: semantic augmentation replaces only the semantic features and the
    augmented embedding of a representation.  The augmented embedding is as
    long as the longer of the base and the semantic embedding, and its entry
    at every index is 0.3 times the base entry plus 0.7 times the semantic
    entry, an embedding that is too short counting as 0 there; the
    functional signature and the behaviour pattern it records are never
    empty, whatever the language model answers or when it fails. *)
Theorem X19_augmentation_blends_the_embeddings (env : Env) (code : CodeRepresentation) :
  let augmented := augmentRepresentation env code in
  let base := encode env (content code) in
  let semantic := semanticEmbed env code in
  embedding (semanticFeatures augmented) = semantic
  /\ length (augmentedEmbedding augmented)
     = Nat.max (length base) (length semantic)
  /\ (forall i,
        nth i (augmentedEmbedding augmented) 0
        == nth i base 0 * 0.3 + nth i semantic 0 * 0.7)
  /\ functionalSignature (semanticFeatures augmented) <> ""
  /\ behaviorPattern (semanticFeatures augmented) <> ""
  /\ filePath augmented = filePath code
  /\ content augmented = content code
  /\ textualFeatures augmented = textualFeatures code
  /\ structuralFeatures augmented = structuralFeatures code
  /\ relationships augmented = relationships code
  /\ biasScore augmented = biasScore code
  /\ lastModified augmented = lastModified code.
Proof.
  cbv zeta. unfold augmentRepresentation. cbv zeta.
  destruct (extractSemanticFeatures env code) as [signature pattern] eqn:E.
  cbn [embedding semanticFeatures augmentedEmbedding functionalSignature
       behaviorPattern filePath content textualFeatures structuralFeatures
       relationships biasScore lastModified].
  split; [reflexivity|]. split.
  { unfold combineEmbeddings. cbv zeta. rewrite length_map, length_seq. reflexivity. }
  split; [intros i; apply combineEmbeddings_nth|].
  pose proof (augment_nonempty env code) as [N1 N2].
  unfold augmentRepresentation in N1, N2. cbv zeta in N1, N2. rewrite E in N1, N2.
  cbn [semanticFeatures functionalSignature behaviorPattern] in N1, N2.
  repeat split; assumption.
Qed.

End AugmenterTheorems.

Section AnalysisTheorems.
Import CodeAnalyzer Processor.

(** X20: [analyzeFile] returns the null representation for every file: an
    unreadable file makes the read fail, and for a readable one the
    structural extraction raises after the textual features are computed;
    both land in the [catch] that returns null.  So [processFile] returns
    null as well, before bias detection, augmentation or any request to the
    graph store. *)
Theorem X20_analyzeFile_is_always_null (env : Env) (path : string) :
  analyzeFile env path = None
  /\ (forall log : list GraphRequest, processFile env log path = (None, log)).
Proof.
  assert (A : analyzeFile env path = None).
  { unfold analyzeFile. destruct (readFile env path) as [text|]; [|reflexivity].
    cbv zeta. rewrite extractStructuralFeatures_throws. reflexivity. }
  split; [exact A|]. intros log. unfold processFile. rewrite A. reflexivity.
Qed.

End AnalysisTheorems.

Section IndicatorFacts.
Import BiasIndicators.
Local Open Scope Q_scope.

Lemma exceeds_finite (q threshold : Q) :
  exceeds (Finite q) threshold = true -> threshold < q.
Proof.
  cbn. intros H. apply negb_true_iff in H.
  apply Qnot_le_lt. intros L. apply Qle_bool_iff in L. congruence.
Qed.

End IndicatorFacts.

Section IndicatorTheorems.
Import BiasIndicators.
Local Open Scope Q_scope.

(** X21: the bias indicators of a representation come in the fixed order
    docstring dependency, identifier name bias, comment over-reliance, each
    at most once; the severity of each one reported exceeds the threshold of
    its type (0.1, 0.7, 0.15) and is never [NaN]; its location starts at
    line 1 and ends at a line of the content; a docstring indicator needs a
    docstring, so a representation without docstrings never gets one, and
    for an empty content no comment indicator is reported when there is no
    comment text. *)
Theorem X21_bias_indicators_are_ordered_and_above_threshold (code : CodeRepresentation) :
  let found := getBiasIndicators code in
  let lineCount := Z.of_nat (length (Js.lines (content code))) in
  sublist (map ind_type found)
          [docstring_dependency; identifier_name_bias; comment_over_reliance]
  /\ Forall (fun x =>
               exceeds (severity x) (threshold (ind_type x)) = true
               /\ severity x <> NotANumber
               /\ startLine (location x) = 1%Z
               /\ (1 <= endLine (location x) <= lineCount)%Z)
            found
  /\ (In docstring_dependency (map ind_type found)
      -> docstrings (textualFeatures code) <> [])
  /\ (In comment_over_reliance (map ind_type found)
      -> Js.join "" (comments (textualFeatures code)) <> "").
Proof.
  cbv zeta. unfold getBiasIndicators. cbv zeta.
  pose proof (lines_length_pos (content code)) as L.
  set (n := length (Js.lines (content code))) in *.
  set (dr := divide (String.length (Js.join "" (docstrings (textualFeatures code))))
                    (String.length (content code))).
  set (cr := divide (String.length (Js.join "" (comments (textualFeatures code))))
                    (String.length (content code))).
  set (ic := calculateIdentifierComplexity (identifierNames (textualFeatures code))).
  assert (N : forall r t, exceeds r t = true -> r <> NotANumber).
  { intros r t H ->. discriminate H. }
  assert (C : exceeds cr 0.15 = true
              -> Js.join "" (comments (textualFeatures code)) <> "").
  { intros H E. subst cr. rewrite E in H. cbn [String.length] in H.
    unfold divide in H. destruct (String.length (content code)); [discriminate H|].
    cbn in H. discriminate H. }
  clearbody dr cr ic.
  destruct (docstrings (textualFeatures code)) as [|d ds] eqn:D;
    [|destruct (exceeds dr 0.1) eqn:Y];
    destruct (negb (Qle_bool ic 0.7)) eqn:I; destruct (exceeds cr 0.15) eqn:X;
    cbn [app map ind_type];
    (split;
      [ repeat first [ apply sublist_nil_l | apply sublist_skip | apply sublist_cons ]
      | ]);
    (split;
      [ repeat constructor;
        cbn [severity ind_type location threshold startLine endLine
             findDocstringRegions findCommentRegions];
        try assumption; try lia; try discriminate; try (eapply N; eassumption)
      | split;
        first [ intros _; discriminate
              | intros _; apply C; reflexivity
              | intros H; repeat (destruct H as [H|H]; try discriminate H);
                destruct H ] ]).
Qed.

End IndicatorTheorems.

Section CacheFacts.
Import CodeAnalyzer Processor BiasAnalysis.

(** An update can only remove from the cache, and what it sends to the
    graph store is at most one deletion request. *)
Lemma updateFile_shrinks (config : SACLConfig) (env : Env) (st : ProcessorState)
  (path : string) (changeType : ChangeType) :
  cache (snd (updateFile config env st path changeType)) ⊆ cache st
  /\ exists added,
       graphLog (snd (updateFile config env st path changeType))
       = (graphLog st ++ added)%list
       /\ Forall (fun request => exists p, request = DeleteFileRelationships p) added.
Proof.
  assert (Same : cache st ⊆ cache st
                 /\ exists added,
                      graphLog st = (graphLog st ++ added)%list
                      /\ Forall (fun request =>
                                   exists p, request = DeleteFileRelationships p) added).
  { split; [reflexivity|]. exists []. rewrite app_nil_r. split; [reflexivity|constructor]. }
  unfold updateFile.
  destruct (validateFilePath config path); cbn [negb]; [|exact Same].
  destruct changeType; rewrite ?processFile_null; cbn [snd cache graphLog];
    try exact Same.
  split; [apply delete_subseteq|].
  exists [DeleteFileRelationships path]. split; [reflexivity|].
  constructor; [eexists; reflexivity | constructor].
Qed.

Lemma updateFiles_shrinks (config : SACLConfig) (env : Env)
  (files : list (string * ChangeType)) :
  forall st,
    cache (snd (updateFiles config env st files)) ⊆ cache st
    /\ exists added,
         graphLog (snd (updateFiles config env st files))
         = (graphLog st ++ added)%list
         /\ Forall (fun request => exists p, request = DeleteFileRelationships p) added.
Proof.
  induction files as [|[path changeType] files IH]; intros st.
  - cbn. split; [reflexivity|]. exists []. rewrite app_nil_r.
    split; [reflexivity|constructor].
  - cbn [updateFiles].
    destruct (updateFile_shrinks config env st path changeType)
      as (C1 & added1 & L1 & D1).
    destruct (updateFile config env st path changeType) as [result st1].
    cbn [snd] in C1, L1.
    destruct (IH st1) as (C2 & added2 & L2 & D2).
    destruct (updateFiles config env st1 files) as [results st2].
    cbn [snd] in C2, L2 |- *.
    split; [etransitivity; eassumption|].
    exists (added1 ++ added2)%list. split.
    + rewrite L2, L1, <- app_assoc. reflexivity.
    + apply Forall_app. split; assumption.
Qed.

End CacheFacts.

Section CacheTheorems.
Import CodeAnalyzer Processor BiasAnalysis.

(** X22: the cache never grows.  After any update, and after any batch of
    updates, every cache entry is one that was there before, and what has
    been added to the requests sent to the graph store are deletion requests
    only.  So a processor that starts with an empty cache keeps it empty,
    and its bias analysis never has a part that is specific to the file; a
    repository run changes no answer of the bias analysis. *)
Theorem X22_cache_never_grows
  (config : SACLConfig) (env : Env) (st : ProcessorState) :
  (forall path changeType,
      cache (snd (updateFile config env st path changeType)) ⊆ cache st)
  /\ (forall files,
        cache (snd (updateFiles config env st files)) ⊆ cache st
        /\ exists added,
             graphLog (snd (updateFiles config env st files))
             = (graphLog st ++ added)%list
             /\ Forall (fun request => exists p, request = DeleteFileRelationships p)
                       added)
  /\ (forall files path,
        cache st = ∅ ->
        getBiasAnalysis (snd (updateFiles config env st files)) path = None)
  /\ (forall path,
        getBiasAnalysis (snd (processRepository config env st)) path
        = getBiasAnalysis st path).
Proof.
  split; [intros path changeType; apply updateFile_shrinks|].
  split; [intros files; apply updateFiles_shrinks|]. split.
  - intros files path Hempty.
    destruct (updateFiles_shrinks config env files st) as [Hsub _].
    unfold getBiasAnalysis. destruct path as [[|c s]|]; try reflexivity.
    rewrite (lookup_weaken_None _ (cache st) (String c s)); [reflexivity| |exact Hsub].
    rewrite Hempty. apply lookup_empty.
  - intros path. rewrite processRepository_unchanged. reflexivity.
Qed.

End CacheTheorems.

Section QueryTheorems.
Import GraphitiClient Reranker Processor.
Local Open Scope Q_scope.

(** X23: a query is the ranking of the search results.  For a query of
    plain words [queryCode] returns [min(limit, 5)] results (none for a
    limit that is not positive), where [limit] is the [maxResults] argument
    or, when that is absent or 0, the configured one; they are in descending
    order of bias-adjusted score and each is the scoring of one of the five
    synthetic search results; the answer does not depend on what the
    processor has cached or stored; and [queryCodeWithContext] returns the
    same results in the same order, with context added. *)
Theorem X23_queries_rank_the_search_results
  (config : SACLConfig) (env : Env) (st : ProcessorState) (query : string)
  (maxResultsArg : option Z) :
  QueryWords.plainQuery query = true ->
  let limit := limitOf config maxResultsArg in
  let plain := queryCode config env st query maxResultsArg in
  let withContext := queryCodeWithContext config env st query maxResultsArg in
  Z.of_nat (length plain) = Z.max 0 (Z.min limit 5)
  /\ StronglySorted (fun a b => biasAdjustedScore b <= biasAdjustedScore a) plain
  /\ Forall (fun r => exists i, (i < 5)%nat
                                /\ r = scoreResult query (mockResult env query i)
                                /\ ~ biasScore (codeSnippet r) == 10)
            plain
  /\ map basic withContext = plain
  /\ (forall st', queryCode config env st' query maxResultsArg = plain)
  /\ (forall st', map basic (queryCodeWithContext config env st' query maxResultsArg)
                  = plain).
Proof.
  intros _. cbv zeta.
  set (limit := limitOf config maxResultsArg).
  assert (Q1 : forall st',
             queryCode config env st' query maxResultsArg
             = rerank (createMockSearchResults env query (limit * 2)) query limit).
  { intros st'. unfold queryCode, searchCode. cbv zeta. fold limit.
    destruct (createMockSearchResults env query (limit * 2)) eqn:E; [|reflexivity].
    unfold rerank, slice0, sortDesc. cbn. destruct (limit <? 0)%Z; symmetry; apply firstn_nil. }
  assert (Q2 : forall st',
             map basic (queryCodeWithContext config env st' query maxResultsArg)
             = rerank (createMockSearchResults env query (limit * 2)) query limit).
  { intros st'. unfold queryCodeWithContext, searchCode. cbv zeta. fold limit.
    destruct (createMockSearchResults env query (limit * 2)) eqn:E.
    - unfold rerank, slice0, sortDesc. cbn. destruct (limit <? 0)%Z; symmetry; apply firstn_nil.
    - unfold rerankWithContext. cbn [negb]. cbv zeta.
      rewrite slice0_map, (sortDesc_map biasAdjustedScore basic).
      unfold rerank. cbv zeta. rewrite map_map. reflexivity. }
  rewrite Q1.
  pose proof (top_spec biasAdjustedScore limit
                (map (scoreResult query) (createMockSearchResults env query (limit * 2))))
    as (S1 & S2 & rest & S3 & _).
  fold (rerank (createMockSearchResults env query (limit * 2)) query limit) in S1, S2, S3.
  split.
  { rewrite S2, length_map. unfold createMockSearchResults.
    rewrite length_map, length_seq.
    destruct (limit <? 0)%Z eqn:E; [apply Z.ltb_lt in E | apply Z.ltb_ge in E]; lia. }
  split; [exact S1|]. split.
  { apply List.Forall_forall. intros r Hr.
    assert (Hin : In r (map (scoreResult query)
                          (createMockSearchResults env query (limit * 2)))).
    { apply (Permutation_in _ S3). apply in_or_app. left. exact Hr. }
    apply in_map_iff in Hin. destruct Hin as (c & <- & Hc).
    unfold createMockSearchResults in Hc. apply in_map_iff in Hc.
    destruct Hc as (i & <- & Hi). apply in_seq in Hi.
    exists i. split; [lia|]. split; [reflexivity|].
    cbn [scoreResult codeSnippet mockResult biasScore].
    assert (B : 0 <= inject_Z (Z.of_nat i) <= 4).
    { split; [rewrite <- (Zle_Qle 0) | rewrite <- (Zle_Qle _ 4)]; lia. }
    intros H. lra. }
  split; [apply Q2|]. split; [intros st'; apply Q1 | intros st'; apply Q2].
Qed.

Lemma X23_queries_rank_the_search_results_witness :
  Z.of_nat (length (queryCode Scenario.config (Scenario.envA "/workspace")
                      Scenario.emptyState "sort" (Some 2%Z)))
  = 2%Z.
Proof.
  refine (proj1 (X23_queries_rank_the_search_results Scenario.config
                   (Scenario.envA "/workspace") Scenario.emptyState "sort"
                   (Some 2%Z) _)).
  vm_compute. reflexivity.
Defined.

End QueryTheorems.

Section GraphTheorems.
Import GraphitiClient.
Local Open Scope Q_scope.

(** X24: the relationship graph of a traversal is a star around the start
    file.  Its first node is the start file, the other nodes are the related
    components in order, there is one edge per component, from the start
    file to that component, and the statistics count these nodes and edges;
    the requested relationship types have no effect on the result; with a
    depth of at least 1 there is always at least one component (the test
    file of the start file) and the depth reached is 1, with a smaller depth
    there is none and the depth reached is that of an empty maximum. *)
Theorem X24_traversal_graph_is_a_star
  (log : list GraphRequest) (startFile : string) (types : list RelationshipType)
  (depth : Z) :
  let t := traverseRelationships log startFile types depth in
  let g := relationshipGraph t in
  startNode t = startFile
  /\ primaryNode g = startFile
  /\ map (fun n => fst (fst n)) (nodes g)
     = startFile :: map rc_filePath (relatedComponents t)
  /\ map (fun e => let '(from, to, type, weight, label) := e in (from, to)) (edges g)
     = map (fun c => (startFile, rc_filePath c)) (relatedComponents t)
  /\ nodesVisited t = Z.of_nat (length (nodes g))
  /\ edgesTraversed t = Z.of_nat (length (edges g))
  /\ (forall types', traverseRelationships log startFile types' depth = t)
  /\ (if (1 <=? depth)%Z
      then In (testFileOf startFile) (map rc_filePath (relatedComponents t))
           /\ maxDepthReached t = Some 1%Z
      else relatedComponents t = [] /\ maxDepthReached t = None).
Proof.
  cbv zeta. unfold traverseRelationships. cbv zeta.
  cbn [startNode relationshipGraph primaryNode nodes edges relatedComponents
       nodesVisited edgesTraversed maxDepthReached].
  split; [reflexivity|]. split; [reflexivity|].
  split; [cbn [map fst]; rewrite map_map; reflexivity|].
  split; [rewrite map_map; reflexivity|].
  split; [cbn [length]; rewrite length_map; lia|].
  split; [rewrite length_map; reflexivity|].
  split; [reflexivity|].
  unfold getRelatedComponents, createMockRelatedComponents, mergeConfig. cbv zeta.
  cbn [p_maxDepth p_minRelevanceScore default maxDepth minRelevanceScore defaultConfig].
  destruct (1 <=? depth)%Z eqn:Hd;
    destruct (Js.includes _ "Service"); destruct (Js.includes _ "Controller");
    cbn -[Z.leb testFileOf Js.replace]; rewrite ?Hd; cbn -[testFileOf Js.replace];
    (split;
      [ first [ reflexivity | repeat (first [left; reflexivity | right]) ]
      | reflexivity ]).
Qed.

End GraphTheorems.

